(** * TelegramAssistant: task lifecycle and recipient-completion tracking

    A shallow embedding of [database.py] and of the reply and fan-out
    handlers of [bot.py].  The relational store is a record of tables, each
    table a list of rows in storage (rowid) order; every SQL statement the
    source issues is a function on that record; the handlers compose these
    functions in the order the source executes them.

    Conventions of the store engine (SQLite through [sqlite3]):
    - a query without ORDER BY returns rows in the order of its scan, the
      storage order of the scanned table;
    - [execute_query] opens a connection per call, so a statement sees no
      connection state of an earlier one ([last_insert_rowid()] is 0);
    - a statement that names a column its table does not have raises
      OperationalError when it is prepared;
    - failures of the engine itself (disk, locks) are an explicit argument
      of the functions of [database.py]. *)

From Stdlib Require Import ZArith NArith List String Ascii Bool Lia.
From Stdlib Require Import Sorting.Sorted Permutation.
Import ListNotations.

Local Open Scope Z_scope.

(** ** Python [str] values

    A Python string is a sequence of Unicode code points.  The announcement
    markers contain Cyrillic letters and emoji, and [str.strip] removes every
    Unicode white-space character, so texts are lists of code points rather
    than byte strings. *)
Module PyStr.

Definition str := list N.

(** ASCII literal as a [str]. *)
Definition lit (s : string) : str :=
  map N_of_ascii (list_ascii_of_string s).

Definition eqb (a b : str) : bool :=
  if list_eq_dec N.eq_dec a b then true else false.

(** [str.isspace] for one code point: the characters [str.strip] removes. *)
Definition isspace (c : N) : bool :=
  (((9 <=? c) && (c <=? 13)) || ((28 <=? c) && (c <=? 32))
   || (c =? 133) || (c =? 160) || (c =? 5760)
   || ((8192 <=? c) && (c <=? 8202))
   || (c =? 8232) || (c =? 8233) || (c =? 8239) || (c =? 8287)
   || (c =? 12288))%N.

Fixpoint lstrip (s : str) : str :=
  match s with
  | [] => []
  | c :: s' => if isspace c then lstrip s' else s
  end.

Definition rstrip (s : str) : str := rev (lstrip (rev s)).

(** [s.strip()] *)
Definition strip (s : str) : str := rstrip (lstrip s).

(** [s.startswith(p)] *)
Fixpoint startswith (p s : str) : bool :=
  match p, s with
  | [], _ => true
  | _ :: _, [] => false
  | a :: p', b :: s' => (a =? b)%N && startswith p' s'
  end.

(** Position-by-position search for the first occurrence of [sep]; [acc]
    holds the code points already passed, most recent first. *)
Fixpoint partition_aux (sep acc s : str) : option (str * str) :=
  if startswith sep s then Some (rev acc, skipn (List.length sep) s)
  else match s with
       | [] => None
       | c :: s' => partition_aux sep (c :: acc) s'
       end.

(** [s.split(sep, 1)]: at most one split, at the first occurrence. *)
Definition split1 (sep s : str) : list str :=
  match partition_aux sep [] s with
  | Some (a, b) => [a; b]
  | None => [s]
  end.

(** [sep in s] *)
Definition contains (sep s : str) : bool :=
  match partition_aux sep [] s with Some _ => true | None => false end.

(** [s.split(c)] for a one-character separator [c]. *)
Fixpoint split_char_aux (c : N) (cur : str) (s : str) : list str :=
  match s with
  | [] => [rev cur]
  | x :: s' => if (x =? c)%N then rev cur :: split_char_aux c [] s'
               else split_char_aux c (x :: cur) s'
  end.

Definition split_char (c : N) (s : str) : list str := split_char_aux c [] s.

(** [sep.join(parts)] *)
Fixpoint join (sep : str) (parts : list str) : str :=
  match parts with
  | [] => []
  | [p] => p
  | p :: rest => p ++ sep ++ join sep rest
  end.

(** Truthiness of a string: non-empty. *)
Definition truthy (s : str) : bool :=
  match s with [] => false | _ => true end.

(** Binary collation order of SQLite TEXT values (code point order). *)
Fixpoint leb (a b : str) : bool :=
  match a, b with
  | [], _ => true
  | _ :: _, [] => false
  | x :: a', y :: b' => (x <? y)%N || ((x =? y)%N && leb a' b')
  end.

End PyStr.

Abbreviation str := PyStr.str.

(** The literals of [bot.py] that are not ASCII, as code points. *)
Module Lit.
Import PyStr.

(** "📝 Новое задание:" *)
Definition new_task_marker : str :=
  [128221; 32; 1053; 1086; 1074; 1086; 1077; 32;
   1079; 1072; 1076; 1072; 1085; 1080; 1077; 58]%N.

(** "📝 Задание №" *)
Definition task_no_marker : str :=
  [128221; 32; 1047; 1072; 1076; 1072; 1085; 1080; 1077; 32; 8470]%N.

(** "Получатели:" *)
Definition recipients_marker : str :=
  [1055; 1086; 1083; 1091; 1095; 1072; 1090; 1077; 1083; 1080; 58]%N.

(** "✅ Подтвердить" *)
Definition confirm_button : str :=
  [9989; 32; 1055; 1086; 1076; 1090; 1074; 1077; 1088; 1076; 1080; 1090; 1100]%N.

(** "🔙 Назад" *)
Definition back_button : str :=
  [128281; 32; 1053; 1072; 1079; 1072; 1076]%N.

(** "⬜" and "✅" *)
Definition unchecked_box : str := [11036]%N.
Definition checked_box : str := [9989]%N.

Definition newline : N := 10%N.

End Lit.

(** ** The relational store ([init_database])

    One record field per table; a table is the list of its rows in storage
    order (a new row is appended).  Columns that are TEXT are [str] or, for
    the status columns whose values are ASCII SQL literals, [string].
    TIMESTAMP columns hold the clock value at insertion. *)

Record chat_row := {
  chat_id : Z; title : str; is_group : bool; added_at : Z }.

Record chat_group_row := {
  cg_id : Z; cg_name : str; cg_created_at : Z }.

Record group_chat_row := {
  gc_group_id : Z; gc_chat_id : Z }.

Record task_row := {
  t_id : Z; t_text : str; t_status : string;
  t_created_by : Z; t_created_at : Z }.

(** [task_recipients]: primary key [(task_id, chat_id)]; there is no [id]
    column.  The callers of [add_task_recipient] always pass a chat id. *)
Record task_recipient_row := {
  tr_task_id : Z; tr_chat_id : Z; tr_group_id : option Z;
  tr_status : string }.

Record task_media_row := {
  tm_task_id : Z; tm_file_id : str; tm_file_type : string }.

Record response_media_row := {
  rm_task_id : Z; rm_chat_id : Z; rm_file_id : str; rm_file_type : string }.

Record database := {
  chats : list chat_row;
  chat_groups : list chat_group_row;
  group_chats : list group_chat_row;
  tasks : list task_row;
  tasks_seq : Z;  (* sqlite_sequence entry of [tasks] (AUTOINCREMENT) *)
  task_recipients : list task_recipient_row;
  task_media : list task_media_row;
  response_media : list response_media_row }.

(** The column names [init_database] declares for [task_recipients]. *)
Definition task_recipients_columns : list string :=
  ["task_id"; "chat_id"; "group_id"; "status"]%string.

Definition has_column (cols : list string) (c : string) : bool :=
  existsb (String.eqb c) cols.

(** The freshly initialised store. *)
Definition empty_database : database := {|
  chats := []; chat_groups := []; group_chats := [];
  tasks := []; tasks_seq := 0; task_recipients := [];
  task_media := []; response_media := [] |}.

Definition set_tasks (db : database) (ts : list task_row) : database := {|
  chats := chats db; chat_groups := chat_groups db;
  group_chats := group_chats db;
  tasks := ts; tasks_seq := tasks_seq db;
  task_recipients := task_recipients db;
  task_media := task_media db; response_media := response_media db |}.

Definition set_task_recipients (db : database)
  (rs : list task_recipient_row) : database := {|
  chats := chats db; chat_groups := chat_groups db;
  group_chats := group_chats db;
  tasks := tasks db; tasks_seq := tasks_seq db;
  task_recipients := rs;
  task_media := task_media db; response_media := response_media db |}.

Definition set_chats (db : database) (cs : list chat_row) : database := {|
  chats := cs; chat_groups := chat_groups db;
  group_chats := group_chats db;
  tasks := tasks db; tasks_seq := tasks_seq db;
  task_recipients := task_recipients db;
  task_media := task_media db; response_media := response_media db |}.

(** ** Exceptions and results *)

Inductive exn :=
| OperationalError   (* sqlite3.OperationalError *)
| IntegrityError     (* sqlite3.IntegrityError *)
| ValueError
| NotFoundError.     (* named by the specification; never raised by the code *)

Inductive result (A : Type) :=
| Return (a : A)
| Raise (e : exn).
Arguments Return {A} a.
Arguments Raise {A} e.

Definition is_raise {A} (r : result A) : bool :=
  match r with Raise _ => true | Return _ => false end.

(** A connection as far as the code observes it: the rowid of the last
    INSERT made through this very connection. *)
Record connection := { last_insert_rowid : Z }.

(** [get_connection]: [sqlite3.connect] opens a new connection, on which no
    INSERT has happened yet. *)
Definition get_connection : connection := {| last_insert_rowid := 0 |}.

Definition bind {A B} (r : result A) (k : A -> result B) : result B :=
  match r with
  | Return a => k a
  | Raise e => Raise e
  end.

Notation "x <- e ;; k" := (bind e (fun x => k))
  (at level 61, e at next level, right associativity).

(** ** Generic helpers for query evaluation *)

(** Stable insertion sort, used for ORDER BY. *)
Fixpoint insert_sorted {A} (le : A -> A -> bool) (x : A) (l : list A) : list A :=
  match l with
  | [] => [x]
  | y :: l' => if le x y then x :: l else y :: insert_sorted le x l'
  end.

Definition sort_by {A} (le : A -> A -> bool) (l : list A) : list A :=
  fold_right (insert_sorted le) [] l.

(** DISTINCT: keep the first copy of every value. *)
Fixpoint distinct {A} (eqb : A -> A -> bool) (l : list A) : list A :=
  match l with
  | [] => []
  | x :: l' => x :: filter (fun y => negb (eqb x y)) (distinct eqb l')
  end.

(** ** [execute_query]

    A statement is its SQL text together with its effect on the store.  The
    text matters: [execute_query] fetches rows only when the text begins
    with SELECT and otherwise commits and returns [None]. *)
Record statement (A : Type) := {
  sql : string;
  run : connection -> Z -> database -> result (list A * database) }.
Arguments sql {A} s.
Arguments run {A} s.

(** [c.upper()] on the ASCII letters (SQL texts are ASCII). *)
Definition upper (s : str) : str :=
  map (fun c => if ((97 <=? c) && (c <=? 122))%N then (c - 32)%N else c) s.

(** [query.strip().upper().startswith("SELECT")] *)
Definition is_select (query : string) : bool :=
  PyStr.startswith (PyStr.lit "SELECT") (upper (PyStr.strip (PyStr.lit query))).

(** [fault] is the error the storage engine raises while this statement is
    executed or committed (disk, lock), [None] when the engine works.  The
    statement runs on a connection of its own; on any exception the
    connection is rolled back and the exception re-raised.  [now] is the
    clock value used for CURRENT_TIMESTAMP. *)
Definition execute_query {A} (fault : option exn) (now : Z)
  (query : statement A) (db : database) : result (option (list A)) * database :=
  let conn := get_connection in
  match fault with
  | Some e => (Raise e, db)
  | None =>
      match run query conn now db with
      | Raise e => (Raise e, db)
      | Return (rows, db') =>
          if is_select (sql query)
          then (Return (Some rows), db)   (* fetchall; nothing is committed *)
          else (Return None, db')         (* commit; result = None *)
      end
  end.

(** *** The statements issued through [execute_query] *)

Definition q_chat_groups_by_name : statement chat_group_row := {|
  sql := "SELECT * FROM chat_groups ORDER BY name";
  run := fun _ _ db =>
    Return (sort_by (fun a b => PyStr.leb (cg_name a) (cg_name b))
              (chat_groups db), db) |}.

(** SQL fixes no order here; rows follow the membership table. *)
Definition q_group_chats (group_id : Z) : statement chat_row := {|
  sql := "
            SELECT c.* FROM chats c
            JOIN group_chats gc ON c.chat_id = gc.chat_id
            WHERE gc.group_id = ?
        ";
  run := fun _ _ db =>
    Return (flat_map (fun gc =>
              if gc_group_id gc =? group_id
              then filter (fun c => chat_id c =? gc_chat_id gc) (chats db)
              else []) (group_chats db), db) |}.

Definition q_insert_task (text : str) (created_by : Z) : statement Empty_set := {|
  sql := "INSERT INTO tasks (text, created_by, status) VALUES (?, ?, 'active')";
  run := fun _ now db =>
    let id := tasks_seq db + 1 in
    Return ([], {|
      chats := chats db; chat_groups := chat_groups db;
      group_chats := group_chats db;
      tasks := tasks db ++ [{| t_id := id; t_text := text;
                               t_status := "active";
                               t_created_by := created_by;
                               t_created_at := now |}];
      tasks_seq := id;
      task_recipients := task_recipients db;
      task_media := task_media db;
      response_media := response_media db |}) |}.

Definition q_last_insert_rowid : statement Z := {|
  sql := "SELECT last_insert_rowid() as id";
  run := fun conn _ db => Return ([last_insert_rowid conn], db) |}.

(** The primary key [(task_id, chat_id)] rejects a second row for a pair;
    the new row takes the column default ['pending']. *)
Definition q_insert_task_recipient (task_id chat : Z) (group_id : option Z)
  : statement Empty_set := {|
  sql := "INSERT INTO task_recipients (task_id, chat_id, group_id) VALUES (?, ?, ?)";
  run := fun _ _ db =>
    if existsb (fun r => (tr_task_id r =? task_id) && (tr_chat_id r =? chat))
         (task_recipients db)
    then Raise IntegrityError
    else Return ([], set_task_recipients db
           (task_recipients db ++
              [{| tr_task_id := task_id; tr_chat_id := chat;
                  tr_group_id := group_id; tr_status := "pending" |}])) |}.

Definition q_insert_task_media (task_id : Z) (file_id : str) (file_type : string)
  : statement Empty_set := {|
  sql := "INSERT INTO task_media (task_id, file_id, file_type) VALUES (?, ?, ?)";
  run := fun _ _ db =>
    Return ([], {|
      chats := chats db; chat_groups := chat_groups db;
      group_chats := group_chats db;
      tasks := tasks db; tasks_seq := tasks_seq db;
      task_recipients := task_recipients db;
      task_media := task_media db ++
        [{| tm_task_id := task_id; tm_file_id := file_id;
            tm_file_type := file_type |}];
      response_media := response_media db |}) |}.

Definition q_group_id_by_name (name : str) : statement Z := {|
  sql := "SELECT id FROM chat_groups WHERE name = ?";
  run := fun _ _ db =>
    Return (map cg_id (filter (fun g => PyStr.eqb (cg_name g) name)
                         (chat_groups db)), db) |}.

Definition q_chat_id_by_title (t : str) : statement Z := {|
  sql := "SELECT chat_id FROM chats WHERE title = ?";
  run := fun _ _ db =>
    Return (map chat_id (filter (fun c => PyStr.eqb (title c) t) (chats db)),
            db) |}.

(** [get_chat_groups]; the user id is not used by the query. *)
Definition get_chat_groups (fault : option exn) (now : Z) (user_id : Z)
  (db : database)
  : result (list chat_group_row) * database :=
  match execute_query fault now q_chat_groups_by_name db with
  | (Return (Some rows), db') => (Return rows, db')
  | (Return None, db') => (Return [], db')
  | (Raise e, db') => (Raise e, db')
  end.

(** [get_group_chats] *)
Definition get_group_chats (fault : option exn) (now : Z) (group_id : Z)
  (db : database) : result (list chat_row) * database :=
  match execute_query fault now (q_group_chats group_id) db with
  | (Return (Some rows), db') => (Return rows, db')
  | (Return None, db') => (Return [], db')
  | (Raise e, db') => (Raise e, db')
  end.

(** A fault schedule: the error, if any, the engine raises at the k-th
    statement of an operation. *)
Definition faults := nat -> option exn.
Definition no_fault : faults := fun _ => None.

(** ** [create_task]

    Two calls of [execute_query], each on a connection of its own: the
    INSERT is committed by the first; the second evaluates
    [last_insert_rowid()] on a connection that has inserted nothing. *)
Definition create_task (f : faults) (now : Z) (text : str) (created_by : Z)
  (db : database) : result Z * database :=
  match execute_query (f 0%nat) now (q_insert_task text created_by) db with
  | (Raise e, db1) => (Raise e, db1)
  | (Return _, db1) =>
      match execute_query (f 1%nat) now q_last_insert_rowid db1 with
      | (Raise e, db2) => (Raise e, db2)
      | (Return (Some (id :: _)), db2) => (Return id, db2)
      | (Return _, db2) => (Raise ValueError, db2)  (* "Failed to create task" *)
      end
  end.

(** ** [add_task_recipient] *)
Definition add_task_recipient (f : faults) (now : Z) (task_id chat : Z)
  (group_id : option Z) (db : database) : result unit * database :=
  match execute_query (f 0%nat) now
          (q_insert_task_recipient task_id chat group_id) db with
  | (Raise e, db1) => (Raise e, db1)
  | (Return _, db1) => (Return tt, db1)
  end.

(** ** Statements run on an open cursor (completion transactions) *)

(** Join of [task_recipients] with [tasks] restricted to one chat, active
    tasks and recipients not yet completed, in the scan order of the
    engine: the recipient table is scanned, the task is looked up by id. *)
Definition open_rows_for_chat (chat : Z) (db : database)
  : list (task_row * task_recipient_row) :=
  flat_map (fun tr =>
    if (tr_chat_id tr =? chat) && negb (String.eqb (tr_status tr) "completed")
    then map (fun t => (t, tr))
           (filter (fun t => (t_id t =? tr_task_id tr)
                             && String.eqb (t_status t) "active") (tasks db))
    else []) (task_recipients db).

(** UPDATE task_recipients SET status = ? WHERE task_id = ? AND chat_id = ? *)
Definition sql_update_recipient_status (status : string) (task_id chat : Z)
  (db : database) : database :=
  set_task_recipients db
    (map (fun r =>
       if (tr_task_id r =? task_id) && (tr_chat_id r =? chat)
       then {| tr_task_id := tr_task_id r; tr_chat_id := tr_chat_id r;
               tr_group_id := tr_group_id r; tr_status := status |}
       else r) (task_recipients db)).

(** SELECT COUNT( * ), SUM(CASE WHEN status = 'completed' THEN 1 ELSE 0 END)
    FROM task_recipients WHERE task_id = ?  -- SUM over no row is NULL. *)
Definition sql_count_recipients (task_id : Z) (db : database)
  : Z * option Z :=
  let rows := filter (fun r => tr_task_id r =? task_id) (task_recipients db) in
  (Z.of_nat (List.length rows),
   match rows with
   | [] => None
   | _ => Some (Z.of_nat (List.length
             (filter (fun r => String.eqb (tr_status r) "completed") rows)))
   end).

(** [total == completed] in Python: an int never equals [None]. *)
Definition stats_equal (stats : Z * option Z) : bool :=
  match snd stats with
  | Some completed => fst stats =? completed
  | None => false
  end.

(** UPDATE tasks SET status = 'completed' WHERE id = ? *)
Definition sql_complete_task (task_id : Z) (db : database) : database :=
  set_tasks db
    (map (fun t =>
       if t_id t =? task_id
       then {| t_id := t_id t; t_text := t_text t; t_status := "completed";
               t_created_by := t_created_by t;
               t_created_at := t_created_at t |}
       else t) (tasks db)).

(** ** [update_task_status]

    [update_task_status_body] is the transaction as written once its first
    SELECT has been prepared: the rows of the pair that belong to an active
    task and are not completed; none: log, roll back, return; otherwise
    update the recipient, recount, complete the task when every recipient
    is completed, commit. *)
Definition update_task_status_body (task_id chat : Z) (status : string)
  (db : database) : result unit * database :=
  match filter (fun p => t_id (fst p) =? task_id) (open_rows_for_chat chat db) with
  | [] => (Return tt, db)
  | _ :: _ =>
      let db1 := sql_update_recipient_status status task_id chat db in
      let stats := sql_count_recipients task_id db1 in
      let db2 := if stats_equal stats then sql_complete_task task_id db1
                 else db1 in
      (Return tt, db2)
  end.

(** The first SELECT names the column [tr.id]; preparing it fails with
    "no such column" unless [task_recipients] has such a column, and the
    exception is re-raised after the rollback. *)
Definition update_task_status (task_id chat : Z) (status : string)
  (db : database) : result unit * database :=
  if has_column task_recipients_columns "id"
  then update_task_status_body task_id chat status db
  else (Raise OperationalError, db).

(** ** [get_active_tasks] *)

Record active_task_row := {
  at_id : Z; at_text : str; at_created_at : Z; at_chat_title : str;
  at_recipient_status : string; at_chat_id : Z; at_group_name : option str;
  at_task_status : string;
  at_task_media : option str;       (* GROUP_CONCAT, NULL without rows *)
  at_response_media : option str }.

(** GROUP_CONCAT(DISTINCT file_id || ':' || file_type) *)
Definition group_concat (items : list (str * string)) : option str :=
  match items with
  | [] => None
  | _ => Some (PyStr.join (PyStr.lit ",")
           (distinct PyStr.eqb
              (map (fun i => fst i ++ PyStr.lit ":" ++ PyStr.lit (snd i)) items)))
  end.

Definition active_task_rows (db : database) : list active_task_row :=
  let info :=
    flat_map (fun t =>
      if String.eqb (t_status t) "active" then
        flat_map (fun tr =>
          if tr_task_id tr =? t_id t then
            map (fun c => {|
              at_id := t_id t; at_text := t_text t;
              at_created_at := t_created_at t; at_chat_title := title c;
              at_recipient_status := tr_status tr; at_chat_id := chat_id c;
              at_group_name :=
                match tr_group_id tr with
                | Some g => option_map cg_name
                    (find (fun cg => cg_id cg =? g) (chat_groups db))
                | None => None
                end;
              at_task_status := t_status t;
              at_task_media := group_concat
                (map (fun m => (tm_file_id m, tm_file_type m))
                   (filter (fun m => tm_task_id m =? t_id t) (task_media db)));
              at_response_media := group_concat
                (map (fun m => (rm_file_id m, rm_file_type m))
                   (filter (fun m => (rm_task_id m =? t_id t)
                                     && (rm_chat_id m =? chat_id c))
                      (response_media db))) |})
              (filter (fun c => chat_id c =? tr_chat_id tr) (chats db))
          else []) (task_recipients db)
      else []) (tasks db) in
  (* GROUP BY ti.id, ti.chat_id *)
  let grouped :=
    distinct (fun a b => (at_id a =? at_id b) && (at_chat_id a =? at_chat_id b))
      info in
  (* ORDER BY ti.created_at DESC, ti.chat_title ASC *)
  sort_by (fun a b =>
      (at_created_at b <? at_created_at a)
      || ((at_created_at a =? at_created_at b)
          && PyStr.leb (at_chat_title a) (at_chat_title b)))
    grouped.

(** The text of this query begins with WITH. *)
Definition q_active_tasks : statement active_task_row := {|
  sql := "
                WITH task_info AS (
                    SELECT DISTINCT
                        t.id, t.text, t.created_at, c.title as chat_title,
                        tr.status as recipient_status, c.chat_id,
                        cg.name as group_name, t.status as task_status
                    FROM tasks t
                    JOIN task_recipients tr ON t.id = tr.task_id
                    JOIN chats c ON tr.chat_id = c.chat_id
                    LEFT JOIN chat_groups cg ON tr.group_id = cg.id
                    WHERE t.status = 'active'
                )
                SELECT
                    ti.*,
                    GROUP_CONCAT(DISTINCT tm.file_id || ':' || tm.file_type) as task_media,
                    GROUP_CONCAT(DISTINCT rm.file_id || ':' || rm.file_type) as response_media
                FROM task_info ti
                LEFT JOIN task_media tm ON ti.id = tm.task_id
                LEFT JOIN response_media rm ON ti.id = rm.task_id AND ti.chat_id = rm.chat_id
                GROUP BY ti.id, ti.chat_id
                ORDER BY ti.created_at DESC, ti.chat_title ASC
            ";
  run := fun _ _ db => Return (active_task_rows db, db) |}.

Record media_item := { file_id : str; file_type : str }.

Record recipient_snapshot := {
  rs_chat_title : str; rs_status : string; rs_group_name : option str;
  rs_media : list media_item }.

Record task_snapshot := {
  ts_text : str; ts_created_at : Z;
  ts_recipients : list (Z * recipient_snapshot);  (* dict by chat id *)
  ts_media : list media_item }.

(** [for media_info in s.split(','): file_id, file_type = media_info.split(':')];
    unpacking anything but two parts raises ValueError. *)
Fixpoint parse_media_parts (parts : list str) : result (list media_item) :=
  match parts with
  | [] => Return []
  | p :: rest =>
      match PyStr.split_char 58%N p with
      | [a; b] =>
          ms <- parse_media_parts rest ;;
          Return ({| file_id := a; file_type := b |} :: ms)
      | _ => Raise ValueError
      end
  end.

Definition parse_media (col : option str) : result (list media_item) :=
  match col with
  | Some (c :: s) => parse_media_parts (PyStr.split_char 44%N (c :: s))
  | _ => Return []   (* NULL or empty: falsy *)
  end.

Definition dict_has {V} (k : Z) (d : list (Z * V)) : bool :=
  existsb (fun kv => fst kv =? k) d.

Definition dict_update {V} (k : Z) (f : V -> V) (d : list (Z * V)) : list (Z * V) :=
  map (fun kv => if fst kv =? k then (fst kv, f (snd kv)) else kv) d.

(** One turn of the grouping loop. *)
Definition group_row (row : active_task_row) (acc : list (Z * task_snapshot))
  : result (list (Z * task_snapshot)) :=
  acc1 <- (if dict_has (at_id row) acc then Return acc
           else
             ms <- parse_media (at_task_media row) ;;
             Return (acc ++ [(at_id row,
               {| ts_text := at_text row; ts_created_at := at_created_at row;
                  ts_recipients := []; ts_media := ms |})])) ;;
  if existsb (fun kv => (fst kv =? at_id row)
                        && dict_has (at_chat_id row) (ts_recipients (snd kv))) acc1
  then Return acc1
  else
    ms <- parse_media (at_response_media row) ;;
    Return (dict_update (at_id row) (fun t =>
      {| ts_text := ts_text t; ts_created_at := ts_created_at t;
         ts_recipients := ts_recipients t ++
           [(at_chat_id row,
             {| rs_chat_title := at_chat_title row;
                rs_status := at_recipient_status row;
                rs_group_name := at_group_name row; rs_media := ms |})];
         ts_media := ts_media t |}) acc1).

Fixpoint group_rows (rows : list active_task_row)
  (acc : list (Z * task_snapshot)) : result (list (Z * task_snapshot)) :=
  match rows with
  | [] => Return acc
  | row :: rest => acc' <- group_row row acc ;; group_rows rest acc'
  end.

(** Every exception, from the engine or from the grouping loop, is logged
    and an empty mapping is returned in its place. *)
Definition get_active_tasks (fault : option exn) (now : Z) (db : database)
  : result (list (Z * task_snapshot)) * database :=
  match execute_query fault now q_active_tasks db with
  | (Raise _, db') => (Return [], db')
  | (Return result, db') =>
      match result with
      | Some (row :: rows) =>
          match group_rows (row :: rows) [] with
          | Return grouped => (Return grouped, db')
          | Raise _ => (Return [], db')
          end
      | _ => (Return [], db')    (* [if result:] is false *)
      end
  end.

(** ** Inbound updates

    An update as the handlers read it; the message and the sender are
    present (the handlers return at once when they are not).  The handlers
    run their statements on a cursor of their own; their [except] branches
    (roll back, error reply) are reached by engine failures only, which
    this development injects in the functions of [database.py], not in the
    handlers. *)
Record replied_message := {
  re_from_user : Z;            (* reply_to_message.from_user.id *)
  re_text : option str;
  re_caption : option str }.

Record update := {
  upd_user_id : Z;             (* effective_user.id *)
  upd_chat_id : Z;             (* effective_chat.id *)
  upd_text : option str;       (* message.text *)
  upd_reply_to : option replied_message;
  upd_photo : list str;        (* file ids of message.photo *)
  upd_document : option str }. (* file id of message.document *)

(** [x if x else None] on an optional string. *)
Definition nonempty (s : option str) : option str :=
  match s with
  | Some (c :: r) => Some (c :: r)
  | _ => None
  end.

(** ** [handle_message]: a text reply to a task announcement *)

Inductive text_outcome :=
| NotATaskMessage                  (* the replied message is no announcement *)
| ExtractionError                  (* split did not give two parts *)
| ChatNotRegistered                (* chat not registered in the system *)
| ReplyAccepted (task_id : Z)      (* answer accepted, task marked *)
| NoActiveTaskFound (active : list str)
| ToMenuFlow.                      (* not a reply to the bot: menu dispatch *)

(** ORDER BY t.created_at DESC *)
Definition newest_first (a b : task_row * task_recipient_row) : bool :=
  t_created_at (fst b) <=? t_created_at (fst a).

(** The active tasks of a chat, as the text path selects them. *)
Definition active_tasks_for_chat (chat : Z) (db : database)
  : list (task_row * task_recipient_row) :=
  sort_by newest_first (open_rows_for_chat chat db).

(** The loop that looks for the matching task: the first row whose
    stripped text equals the extracted text. *)
Definition matching_task (task_text : str)
  (active_tasks : list (task_row * task_recipient_row))
  : option (task_row * task_recipient_row) :=
  find (fun task => PyStr.eqb (PyStr.strip (t_text (fst task))) task_text)
    active_tasks.

(** Recipient update, recount and task update of one transaction; both
    reply handlers issue these three statements in this order. *)
Definition complete_and_recount (task_id chat : Z) (db : database) : database :=
  let db1 := sql_update_recipient_status "completed" task_id chat db in
  if stats_equal (sql_count_recipients task_id db1)
  then sql_complete_task task_id db1
  else db1.

Definition handle_message (bot_id : Z) (upd : update) (db : database)
  : text_outcome * database :=
  match upd_reply_to upd with
  | Some re =>
      if re_from_user re =? bot_id then
        match nonempty (re_text re) with
        | None => (NotATaskMessage, db)
        | Some original_message =>
            if negb (PyStr.startswith Lit.new_task_marker original_message)
            then (NotATaskMessage, db)
            else
              match PyStr.split1 Lit.new_task_marker original_message with
              | [_; rest] =>
                  let task_text := PyStr.strip rest in
                  let chat := upd_chat_id upd in
                  match filter (fun c => chat_id c =? chat) (chats db) with
                  | [] => (ChatNotRegistered, db)
                  | _ :: _ =>
                      let active_tasks := active_tasks_for_chat chat db in
                      match matching_task task_text active_tasks with
                      | Some task =>
                          let task_id := t_id (fst task) in
                          (ReplyAccepted task_id,
                           complete_and_recount task_id chat db)
                      | None =>
                          (NoActiveTaskFound
                             (map (fun task => t_text (fst task)) active_tasks),
                           db)
                      end
                  end
              | _ => (ExtractionError, db)
              end
        end
      else (ToMenuFlow, db)
  | None => (ToMenuFlow, db)
  end.

(** ** [handle_media_message]: a photo or document sent as a reply *)

Inductive media_outcome :=
| UnsupportedFile
| NoOriginalText                   (* neither text nor caption *)
| TaskTextNotExtracted
| NoActiveTask                     (* no row for chat and text *)
| MediaAccepted (task_id : Z)
| ToTaskCreation.                  (* not a reply: media for a new task *)

(** The loop over the lines of a "task number" block. *)
Fixpoint task_block_lines (found_task : bool) (lines : list str) : list str :=
  match lines with
  | [] => []
  | line :: rest =>
      if PyStr.contains Lit.task_no_marker line
      then task_block_lines true rest
      else if found_task && PyStr.truthy (PyStr.strip line)
                && negb (PyStr.startswith Lit.recipients_marker line)
      then PyStr.strip line :: task_block_lines found_task rest
      else if found_task && PyStr.startswith Lit.recipients_marker line
      then []
      else task_block_lines found_task rest
  end.

(** Extraction of the task text in the media path. *)
Definition extract_task_text (original_message : str) : option str :=
  if PyStr.contains Lit.new_task_marker original_message then
    match PyStr.split1 Lit.new_task_marker original_message with
    | _ :: rest :: _ => Some (PyStr.strip rest)
    | _ => None
    end
  else if PyStr.contains Lit.task_no_marker original_message then
    match task_block_lines false
            (PyStr.split_char Lit.newline original_message) with
    | [] => None
    | task_lines => Some (PyStr.join [Lit.newline] task_lines)
    end
  else None.

(** The search of the media path: [t.text = ?] on the stored text, no
    ORDER BY; [fetchone] takes the first row of the scan. *)
Definition find_task_for_media (chat : Z) (task_text : str) (db : database)
  : option (task_row * task_recipient_row) :=
  hd_error (filter (fun p => PyStr.eqb (t_text (fst p)) task_text)
              (open_rows_for_chat chat db)).

Definition sql_insert_response_media (task_id chat : Z) (fid : str)
  (ftype : string) (db : database) : database := {|
  chats := chats db; chat_groups := chat_groups db;
  group_chats := group_chats db;
  tasks := tasks db; tasks_seq := tasks_seq db;
  task_recipients := task_recipients db;
  task_media := task_media db;
  response_media := response_media db ++
    [{| rm_task_id := task_id; rm_chat_id := chat;
        rm_file_id := fid; rm_file_type := ftype |}] |}.

(** [photo[-1]] if there is a photo, else the document. *)
Definition media_of_update (upd : update) : option (str * string) :=
  match rev (upd_photo upd) with
  | fid :: _ => Some (fid, "photo"%string)
  | [] => match upd_document upd with
          | Some fid => Some (fid, "document"%string)
          | None => None
          end
  end.

Definition handle_media_message (bot_id : Z) (upd : update) (db : database)
  : media_outcome * database :=
  match media_of_update upd with
  | None => (UnsupportedFile, db)
  | Some (fid, ftype) =>
      match upd_reply_to upd with
      | Some re =>
          if re_from_user re =? bot_id then
            let original :=
              match nonempty (re_text re) with
              | Some t => Some t
              | None => nonempty (re_caption re)
              end in
            match original with
            | None => (NoOriginalText, db)
            | Some original_message =>
                match nonempty (extract_task_text original_message) with
                | None => (TaskTextNotExtracted, db)
                | Some task_text =>
                    let chat := upd_chat_id upd in
                    match find_task_for_media chat task_text db with
                    | None => (NoActiveTask, db)
                    | Some task =>
                        let task_id := t_id (fst task) in
                        let db1 :=
                          sql_insert_response_media task_id chat fid ftype db in
                        (MediaAccepted task_id,
                         complete_and_recount task_id chat db1)
                    end
                end
            end
          else (ToTaskCreation, db)
      | None => (ToTaskCreation, db)
      end
  end.

(** ** Fan-out: [send_task_to_chat] and [handle_recipient_selection] *)

(** The messaging gateway, as far as the code observes it: whether each
    call returns or raises. *)
Record gateway := {
  get_chat_ok : Z -> bool;
  send_message_ok : Z -> str -> bool;
  send_photo_ok : Z -> str -> bool;
  send_document_ok : Z -> str -> bool }.

(** Every exception of the gateway is caught and turned into [False]. *)
Definition send_task_to_chat (gw : gateway) (chat : Z) (task_text : str)
  (media_files : list (str * string)) : bool :=
  if negb (get_chat_ok gw chat) then false
  else
    let message_text := Lit.new_task_marker ++ PyStr.lit " " ++ task_text in
    if negb (send_message_ok gw chat message_text) then false
    else
      forallb (fun media =>
        if String.eqb (snd media) "photo" then send_photo_ok gw chat (fst media)
        else if String.eqb (snd media) "document"
        then send_document_ok gw chat (fst media)
        else true) media_files.

(** The conversation state the handler reads ([context.user_data]);
    [ud_selected_titles] is a set, listed in its iteration order. *)
Record user_data := {
  ud_task_text : option str;
  ud_media_files : list (str * string);
  ud_selected_titles : list str;
  ud_selection_type : option string }.

Definition cleared_user_data : user_data := {|
  ud_task_text := None; ud_media_files := [];
  ud_selected_titles := []; ud_selection_type := None |}.

Inductive selection_outcome :=
| TaskTextMissing                        (* "текст задания не найден" *)
| DeliveryReport (success_count total_count : Z)
| HandlerError (e : exn)                 (* outer except: error_handler *)
| SelectionUpdated
| NoAction.

(** The running state of the fan-out loops; [fs_attempted] logs the chats
    [send_task_to_chat] was called for. *)
Record fanout_state := {
  fs_db : database;
  fs_success : Z;
  fs_total : Z;
  fs_attempted : list Z }.

(** The inner loop body for the chats of one selection, in order; it stops
    at the first exception of the store. *)
Fixpoint send_to_chats (gw : gateway) (now task_id : Z) (task_text : str)
  (media_files : list (str * string)) (group_id : option Z)
  (targets : list Z) (st : fanout_state) : option exn * fanout_state :=
  match targets with
  | [] => (None, st)
  | chat :: rest =>
      let attempted := fs_attempted st ++ [chat] in
      if send_task_to_chat gw chat task_text media_files then
        match add_task_recipient no_fault now task_id chat group_id (fs_db st) with
        | (Raise e, db') =>
            (Some e, {| fs_db := db'; fs_success := fs_success st + 1;
                        fs_total := fs_total st + 1;
                        fs_attempted := attempted |})
        | (Return _, db') =>
            send_to_chats gw now task_id task_text media_files group_id rest
              {| fs_db := db'; fs_success := fs_success st + 1;
                 fs_total := fs_total st + 1; fs_attempted := attempted |}
        end
      else
        send_to_chats gw now task_id task_text media_files group_id rest
          {| fs_db := fs_db st; fs_success := fs_success st;
             fs_total := fs_total st + 1; fs_attempted := attempted |}
  end.

(** [for group_name in selected_titles]: resolve the group, then send to
    each of its chats. *)
Fixpoint fanout_groups (gw : gateway) (now task_id : Z) (task_text : str)
  (media_files : list (str * string)) (names : list str) (st : fanout_state)
  : option exn * fanout_state :=
  match names with
  | [] => (None, st)
  | group_name :: rest =>
      match execute_query None now (q_group_id_by_name group_name) (fs_db st) with
      | (Raise e, _) => (Some e, st)
      | (Return (Some (group_id :: _)), _) =>
          match get_group_chats None now group_id (fs_db st) with
          | (Raise e, _) => (Some e, st)
          | (Return group_chats, _) =>
              match send_to_chats gw now task_id task_text media_files
                      (Some group_id) (map chat_id group_chats) st with
              | (Some e, st') => (Some e, st')
              | (None, st') =>
                  fanout_groups gw now task_id task_text media_files rest st'
              end
          end
      | (Return _, _) =>
          fanout_groups gw now task_id task_text media_files rest st
      end
  end.

(** [for chat_title in selected_titles]: the first chat of that title. *)
Fixpoint fanout_chats (gw : gateway) (now task_id : Z) (task_text : str)
  (media_files : list (str * string)) (titles : list str) (st : fanout_state)
  : option exn * fanout_state :=
  match titles with
  | [] => (None, st)
  | chat_title :: rest =>
      match execute_query None now (q_chat_id_by_title chat_title) (fs_db st) with
      | (Raise e, _) => (Some e, st)
      | (Return (Some (chat :: _)), _) =>
          match send_to_chats gw now task_id task_text media_files None
                  [chat] st with
          | (Some e, st') => (Some e, st')
          | (None, st') =>
              fanout_chats gw now task_id task_text media_files rest st'
          end
      | (Return _, _) =>
          fanout_chats gw now task_id task_text media_files rest st
      end
  end.

(** [for media in media_files: db.execute_query(INSERT INTO task_media ...)] *)
Fixpoint insert_media_files (now task_id : Z) (media_files : list (str * string))
  (db : database) : option exn * database :=
  match media_files with
  | [] => (None, db)
  | media :: rest =>
      match execute_query None now
              (q_insert_task_media task_id (fst media) (snd media)) db with
      | (Raise e, db') => (Some e, db')
      | (Return _, db') => insert_media_files now task_id rest db'
      end
  end.

(** [title in selected_titles]: remove it, else add it.  (The keyboard
    the handler then redraws only reads the store.) *)
Definition toggle_title (t : str) (selected : list str) : list str :=
  if existsb (PyStr.eqb t) selected
  then filter (fun x => negb (PyStr.eqb t x)) selected
  else selected ++ [t].

Record selection_result := {
  sr_outcome : selection_outcome;
  sr_attempted : list Z;        (* calls of [send_task_to_chat], in order *)
  sr_user_data : user_data;
  sr_db : database }.

Definition handle_recipient_selection (gw : gateway) (now : Z) (user : Z)
  (message_text : str) (ud : user_data) (db : database) : selection_result :=
  if PyStr.eqb message_text Lit.confirm_button then
    match nonempty (ud_task_text ud) with
    | None => {| sr_outcome := TaskTextMissing; sr_attempted := [];
                 sr_user_data := ud; sr_db := db |}
    | Some task_text =>
        match create_task no_fault now task_text user db with
        | (Raise e, db1) =>
            {| sr_outcome := HandlerError e; sr_attempted := [];
               sr_user_data := ud; sr_db := db1 |}
        | (Return task_id, db1) =>
            let media_files := ud_media_files ud in
            match insert_media_files now task_id media_files db1 with
            | (Some e, db2) =>
                {| sr_outcome := HandlerError e; sr_attempted := [];
                   sr_user_data := ud; sr_db := db2 |}
            | (None, db2) =>
                let st0 := {| fs_db := db2; fs_success := 0; fs_total := 0;
                              fs_attempted := [] |} in
                let loop :=
                  match ud_selection_type ud with
                  | Some ty =>
                      if String.eqb ty "group" then fanout_groups else fanout_chats
                  | None => fanout_chats
                  end in
                match loop gw now task_id task_text media_files
                        (ud_selected_titles ud) st0 with
                | (Some e, st) =>
                    {| sr_outcome := HandlerError e;
                       sr_attempted := fs_attempted st;
                       sr_user_data := ud; sr_db := fs_db st |}
                | (None, st) =>
                    {| sr_outcome := DeliveryReport (fs_success st) (fs_total st);
                       sr_attempted := fs_attempted st;
                       sr_user_data := cleared_user_data; sr_db := fs_db st |}
                end
            end
        end
    end
  else if negb (PyStr.eqb message_text Lit.back_button) then
    let t :=
      if PyStr.startswith Lit.unchecked_box message_text
         || PyStr.startswith Lit.checked_box message_text
      then skipn 2 message_text else message_text in
    {| sr_outcome := SelectionUpdated; sr_attempted := [];
       sr_user_data := {|
         ud_task_text := ud_task_text ud;
         ud_media_files := ud_media_files ud;
         ud_selected_titles := toggle_title t (ud_selected_titles ud);
         ud_selection_type := ud_selection_type ud |};
       sr_db := db |}
  else {| sr_outcome := NoAction; sr_attempted := [];
          sr_user_data := ud; sr_db := db |}.

(** * Predicates, operations and sample stores *)

(** ** Completion *)

(** No row of the pair belongs to an active task and is still open. *)
Definition nothing_pending (task_id chat : Z) (db : database) : Prop :=
  filter (fun p => t_id (fst p) =? task_id) (open_rows_for_chat chat db) = [].

(** The recipient rows of a task. *)
Definition recipients_of (db : database) (task_id : Z) : list task_recipient_row :=
  filter (fun r => tr_task_id r =? task_id) (task_recipients db).

Definition all_completed (db : database) (task_id : Z) : bool :=
  forallb (fun r => String.eqb (tr_status r) "completed")
    (recipients_of db task_id).

(** The status of the task with this id, if there is one. *)
Definition task_status (db : database) (task_id : Z) : option string :=
  option_map t_status (find (fun t => t_id t =? task_id) (tasks db)).

(** The primary key of [tasks]. *)
Definition tasks_key_unique (db : database) : Prop :=
  NoDup (map t_id (tasks db)).

(** The completion operations, as relations between the store before and
    after marking chat [chat] for task [task_id]. *)
Inductive marks (chat task_id : Z) (db db' : database) : Prop :=
| marks_text_reply bot upd :
    upd_chat_id upd = chat ->
    handle_message bot upd db = (ReplyAccepted task_id, db') ->
    marks chat task_id db db'
| marks_media_reply bot upd :
    upd_chat_id upd = chat ->
    handle_media_message bot upd db = (MediaAccepted task_id, db') ->
    marks chat task_id db db'
| marks_transaction :
    ~ nothing_pending task_id chat db ->
    update_task_status_body task_id chat "completed" db = (Return tt, db') ->
    marks chat task_id db db'.

(** The order ORDER BY t.created_at DESC establishes. *)
Definition not_older (a b : task_row * task_recipient_row) : Prop :=
  t_created_at (fst b) <= t_created_at (fst a).

(** ** Storage failures *)

(** The schedule in which the k-th statement fails with [e]. *)
Definition fault_at (k : nat) (e : exn) : faults :=
  fun n => if Nat.eqb n k then Some e else None.

(** ** Operations and status transitions *)

(** The operations that reach the store. *)
Inductive operation :=
| OpTextReply (bot : Z) (upd : update)
| OpMediaReply (bot : Z) (upd : update)
| OpUpdateTaskStatus (task_id chat : Z) (status : string)
| OpCreateTask (f : faults) (now : Z) (text : str) (created_by : Z)
| OpAddTaskRecipient (f : faults) (now task_id chat : Z) (group_id : option Z)
| OpGetActiveTasks (fault : option exn) (now : Z)
| OpRecipientSelection (gw : gateway) (now user : Z) (message_text : str)
    (ud : user_data).

Definition exec (op : operation) (db : database) : database :=
  match op with
  | OpTextReply bot upd => snd (handle_message bot upd db)
  | OpMediaReply bot upd => snd (handle_media_message bot upd db)
  | OpUpdateTaskStatus task_id chat status =>
      snd (update_task_status task_id chat status db)
  | OpCreateTask f now text created_by =>
      snd (create_task f now text created_by db)
  | OpAddTaskRecipient f now task_id chat group_id =>
      snd (add_task_recipient f now task_id chat group_id db)
  | OpGetActiveTasks fault now => snd (get_active_tasks fault now db)
  | OpRecipientSelection gw now user message_text ud =>
      sr_db (handle_recipient_selection gw now user message_text ud db)
  end.

Definition exec_all (ops : list operation) (db : database) : database :=
  fold_left (fun d op => exec op d) ops db.

(** Every status is one of the two values of its column. *)
Definition status_wf (db : database) : Prop :=
  Forall (fun r => tr_status r = "pending"%string
                   \/ tr_status r = "completed"%string) (task_recipients db)
  /\ Forall (fun t => t_status t = "active"%string
                      \/ t_status t = "completed"%string) (tasks db).

(** Row by row, in storage order: the row is still there under its key, and
    it is unchanged or went from pending to completed. *)
Definition recipients_evolve (l l' : list task_recipient_row) : Prop :=
  forall i r, nth_error l i = Some r ->
    exists r', nth_error l' i = Some r'
      /\ tr_task_id r' = tr_task_id r /\ tr_chat_id r' = tr_chat_id r
      /\ (r' = r \/ (tr_status r = "pending"%string
                     /\ tr_status r' = "completed"%string)).

(** The same for task rows: unchanged, or from active to completed. *)
Definition tasks_evolve (l l' : list task_row) : Prop :=
  forall i t, nth_error l i = Some t ->
    exists t', nth_error l' i = Some t'
      /\ t_id t' = t_id t
      /\ (t' = t \/ (t_status t = "active"%string
                     /\ t_status t' = "completed"%string)).

Record advances (db db' : database) : Prop := {
  adv_wf : status_wf db';
  adv_recipients : recipients_evolve (task_recipients db) (task_recipients db');
  adv_tasks : tasks_evolve (tasks db) (tasks db') }.

(** From a well-formed store the step leads to a well-formed store along
    permitted transitions only. *)
Definition steps (db db' : database) : Prop := status_wf db -> advances db db'.

(** ** Fan-out *)

(** The row INSERT INTO task_recipients adds. *)
Definition pending_row (task_id chat : Z) (group_id : option Z)
  : task_recipient_row :=
  {| tr_task_id := task_id; tr_chat_id := chat; tr_group_id := group_id;
     tr_status := "pending" |}.

Definition has_recipient (task_id chat : Z) (db : database) : bool :=
  existsb (fun r => (tr_task_id r =? task_id) && (tr_chat_id r =? chat))
    (task_recipients db).

(** [chat[0]['chat_id']] of the rows with this title, if any. *)
Definition chat_of_title (t : str) (db : database) : option Z :=
  hd_error (map chat_id (filter (fun c => PyStr.eqb (title c) t) (chats db))).

(** [group[0]['id']] of the rows with this name, if any. *)
Definition group_of_name (name : str) (db : database) : option Z :=
  hd_error (map cg_id (filter (fun g => PyStr.eqb (cg_name g) name)
                         (chat_groups db))).

(** The chat ids [get_group_chats] returns. *)
Definition chats_of_group (group_id : Z) (db : database) : list Z :=
  map chat_id
    (flat_map (fun gc =>
       if gc_group_id gc =? group_id
       then filter (fun c => chat_id c =? gc_chat_id gc) (chats db)
       else []) (group_chats db)).

(** The recipients a selection resolves to, each with the group it came
    from, in the order the loops visit them. *)
Definition resolve_chats (titles : list str) (db : database)
  : list (Z * option Z) :=
  flat_map (fun t => match chat_of_title t db with
                     | Some c => [(c, None)]
                     | None => []
                     end) titles.

Definition resolve_groups (names : list str) (db : database)
  : list (Z * option Z) :=
  flat_map (fun n => match group_of_name n db with
                     | Some g => map (fun c => (c, Some g)) (chats_of_group g db)
                     | None => []
                     end) names.

Definition resolve_targets (ud : user_data) (db : database)
  : list (Z * option Z) :=
  match ud_selection_type ud with
  | Some ty => if String.eqb ty "group"
               then resolve_groups (ud_selected_titles ud) db
               else resolve_chats (ud_selected_titles ud) db
  | None => resolve_chats (ud_selected_titles ud) db
  end.

(** Only [task_recipients] differs. *)
Definition same_but_recipients (db db' : database) : Prop :=
  chats db' = chats db /\ chat_groups db' = chat_groups db
  /\ group_chats db' = group_chats db /\ tasks db' = tasks db
  /\ task_media db' = task_media db /\ response_media db' = response_media db.



(** ** Sample stores and updates *)
Module Sample.

Definition buy_milk : str := PyStr.lit "Buy milk".

Definition chat (id : Z) (name : string) : chat_row :=
  {| chat_id := id; title := PyStr.lit name; is_group := true; added_at := 0 |}.

Definition task (id : Z) (text : str) (status : string) (created : Z) : task_row :=
  {| t_id := id; t_text := text; t_status := status;
     t_created_by := 1; t_created_at := created |}.

Definition recipient (task_id chat : Z) (status : string) : task_recipient_row :=
  {| tr_task_id := task_id; tr_chat_id := chat; tr_group_id := None;
     tr_status := status |}.

Definition store (cs : list chat_row) (ts : list task_row)
  (rs : list task_recipient_row) : database :=
  {| chats := cs; chat_groups := []; group_chats := [];
     tasks := ts; tasks_seq := Z.of_nat (List.length ts);
     task_recipients := rs; task_media := []; response_media := [] |}.

(** The announcement of a task as [send_task_to_chat] writes it. *)
Definition announcement (text : str) : str :=
  Lit.new_task_marker ++ PyStr.lit " " ++ text.

Definition bot : Z := 99.

(** A text reply from chat [c] to the bot message [original]. *)
Definition text_reply (c : Z) (original : str) : update :=
  {| upd_user_id := 5; upd_chat_id := c; upd_text := Some (PyStr.lit "done");
     upd_reply_to := Some {| re_from_user := bot; re_text := Some original;
                             re_caption := None |};
     upd_photo := []; upd_document := None |}.

(** A photo sent from chat [c] as a reply to the bot message [original]. *)
Definition photo_reply (c : Z) (original : str) : update :=
  {| upd_user_id := 5; upd_chat_id := c; upd_text := None;
     upd_reply_to := Some {| re_from_user := bot; re_text := Some original;
                             re_caption := None |};
     upd_photo := [PyStr.lit "file-1"]; upd_document := None |}.

(** One task sent to chats 7 and 8, chat 8 has answered. *)
Definition one_left : database :=
  store [chat 7 "A"; chat 8 "B"]
        [task 1 buy_milk "active" 10]
        [recipient 1 7 "pending"; recipient 1 8 "completed"].

(** The same rows, but chat 7 was never registered with /addchat. *)
Definition unregistered : database :=
  store [chat 8 "B"]
        [task 1 buy_milk "active" 10]
        [recipient 1 7 "pending"; recipient 1 8 "completed"].

(** Two active tasks of the same text, both open for chat 7; task 2 is the
    more recent one. *)
Definition same_text_twice : database :=
  store [chat 7 "A"]
        [task 1 buy_milk "active" 10; task 2 buy_milk "active" 20]
        [recipient 1 7 "pending"; recipient 2 7 "pending"].

(** The stored text ends with a blank. *)
Definition trailing_blank : database :=
  store [chat 7 "A"]
        [task 1 (PyStr.lit "Buy milk ") "active" 10]
        [recipient 1 7 "pending"].





End Sample.

(** Case analysis on every [match] of a hypothesis about a handler. *)
Ltac split_matches H :=
  repeat match type of H with
         | context [match ?x with _ => _ end] =>
             destruct x eqn:?; try discriminate H
         end.

(** * The conversation: navigation, menu handlers and the bot as a whole *)

From Stdlib Require Import DecimalString.

(** The button and command texts of [bot.py], as code points. *)
Module Menu.

(** "🔙 Отмена" *)
Definition cancel_button : str :=
  [128281; 32; 1054; 1090; 1084; 1077; 1085; 1072]%N.

(** "👥 Выбрать получателей" *)
Definition choose_recipients_button : str :=
  [128101; 32; 1042; 1099; 1073; 1088; 1072; 1090; 1100; 32; 1087; 1086;
   1083; 1091; 1095; 1072; 1090; 1077; 1083; 1077; 1081]%N.

(** "📎 Добавить файл" *)
Definition add_file_button : str :=
  [128206; 32; 1044; 1086; 1073; 1072; 1074; 1080; 1090; 1100; 32; 1092;
   1072; 1081; 1083]%N.

(** "📎 Добавить еще файл" *)
Definition add_another_file_button : str :=
  [128206; 32; 1044; 1086; 1073; 1072; 1074; 1080; 1090; 1100; 32; 1077;
   1097; 1077; 32; 1092; 1072; 1081; 1083]%N.

(** "👥 Группа чатов" *)
Definition chat_group_choice : str :=
  [128101; 32; 1043; 1088; 1091; 1087; 1087; 1072; 32; 1095; 1072; 1090;
   1086; 1074]%N.

(** "👤 Отдельные чаты" *)
Definition single_chats_choice : str :=
  [128100; 32; 1054; 1090; 1076; 1077; 1083; 1100; 1085; 1099; 1077; 32;
   1095; 1072; 1090; 1099]%N.

(** "📝 Создать новое задание" *)
Definition new_task_command : str :=
  [128221; 32; 1057; 1086; 1079; 1076; 1072; 1090; 1100; 32; 1085; 1086;
   1074; 1086; 1077; 32; 1079; 1072; 1076; 1072; 1085; 1080; 1077]%N.

(** "📋 Просмотр активных заданий" *)
Definition view_tasks_command : str :=
  [128203; 32; 1055; 1088; 1086; 1089; 1084; 1086; 1090; 1088; 32; 1072;
   1082; 1090; 1080; 1074; 1085; 1099; 1093; 32; 1079; 1072; 1076; 1072;
   1085; 1080; 1081]%N.

(** "👥 Просмотр списка подключенных чатов" *)
Definition view_chats_command : str :=
  [128101; 32; 1055; 1088; 1086; 1089; 1084; 1086; 1090; 1088; 32; 1089;
   1087; 1080; 1089; 1082; 1072; 32; 1087; 1086; 1076; 1082; 1083; 1102;
   1095; 1077; 1085; 1085; 1099; 1093; 32; 1095; 1072; 1090; 1086; 1074]%N.

(** "⚙️ Настройки" (the gear is followed by a variation selector) *)
Definition settings_command : str :=
  [9881; 65039; 32; 1053; 1072; 1089; 1090; 1088; 1086; 1081; 1082; 1080]%N.

(** "❓ Помощь" *)
Definition help_command : str :=
  [10067; 32; 1055; 1086; 1084; 1086; 1097; 1100]%N.

(** "🏠 Главное меню" *)
Definition main_menu_command : str :=
  [127968; 32; 1043; 1083; 1072; 1074; 1085; 1086; 1077; 32; 1084; 1077;
   1085; 1102]%N.

(** "👥 Создать группу чатов" *)
Definition create_group_command : str :=
  [128101; 32; 1057; 1086; 1079; 1076; 1072; 1090; 1100; 32; 1075; 1088;
   1091; 1087; 1087; 1091; 32; 1095; 1072; 1090; 1086; 1074]%N.

(** "✅ Завершить" *)
Definition finish_button : str :=
  [9989; 32; 1047; 1072; 1074; 1077; 1088; 1096; 1080; 1090; 1100]%N.

(** "⬜ " and "✅ " *)
Definition unchecked_prefix : str := [11036; 32]%N.
Definition checked_prefix : str := [9989; 32]%N.

(** "📎 Прикрепленные файлы к заданию:" *)
Definition task_files_header : str :=
  [128206; 32; 1055; 1088; 1080; 1082; 1088; 1077; 1087; 1083; 1077; 1085;
   1085; 1099; 1077; 32; 1092; 1072; 1081; 1083; 1099; 32; 1082; 32; 1079;
   1072; 1076; 1072; 1085; 1080; 1102; 58]%N.

End Menu.

(** ** The conversation state ([context.user_data])

    The dictionary of the administrator's conversation, one optional field
    per key the code uses; a key that is absent is [None].  Only the
    administrator's dictionary is ever read or written: every handler
    returns before touching it when the sender is someone else. *)
Record session := {
  s_state : option string;                       (* 'state' *)
  s_navigation_history : option (list string);   (* 'navigation_history' *)
  s_task_text : option str;                      (* 'task_text' *)
  s_media_files : option (list (str * string));  (* 'media_files' *)
  s_selected_titles : option (list str);         (* 'selected_titles', a set *)
  s_selection_type : option string;              (* 'selection_type' *)
  s_current_group_id : option Z;                 (* 'current_group_id' *)
  s_selected_chats : option (list Z) }.          (* 'selected_chats' *)

(** [user_data.clear()] *)
Definition empty_session : session := {|
  s_state := None; s_navigation_history := None; s_task_text := None;
  s_media_files := None; s_selected_titles := None;
  s_selection_type := None; s_current_group_id := None;
  s_selected_chats := None |}.

Definition is_some {A} (o : option A) : bool :=
  match o with Some _ => true | None => false end.

(** [not user_data]: the dictionary has no key. *)
Definition session_is_empty (s : session) : bool :=
  negb (is_some (s_state s) || is_some (s_navigation_history s)
        || is_some (s_task_text s) || is_some (s_media_files s)
        || is_some (s_selected_titles s) || is_some (s_selection_type s)
        || is_some (s_current_group_id s) || is_some (s_selected_chats s)).

Definition set_state (s : session) (state : string) : session := {|
  s_state := Some state; s_navigation_history := s_navigation_history s;
  s_task_text := s_task_text s; s_media_files := s_media_files s;
  s_selected_titles := s_selected_titles s;
  s_selection_type := s_selection_type s;
  s_current_group_id := s_current_group_id s;
  s_selected_chats := s_selected_chats s |}.

Definition set_navigation_history (s : session) (h : list string) : session := {|
  s_state := s_state s; s_navigation_history := Some h;
  s_task_text := s_task_text s; s_media_files := s_media_files s;
  s_selected_titles := s_selected_titles s;
  s_selection_type := s_selection_type s;
  s_current_group_id := s_current_group_id s;
  s_selected_chats := s_selected_chats s |}.

(** ** [NavigationManager] *)

(** [get_previous_state]: the hierarchy table, ['main_menu'] by default. *)
Definition get_previous_state (current_state : string) : string :=
  if String.eqb current_state "awaiting_task_text" then "main_menu"
  else if String.eqb current_state "choosing_recipient_type"
  then "awaiting_task_text"
  else if String.eqb current_state "selecting_recipients"
  then "choosing_recipient_type"
  else if String.eqb current_state "creating_chat_group" then "main_menu"
  else if String.eqb current_state "adding_chats_to_group"
  then "creating_chat_group"
  else if String.eqb current_state "settings" then "main_menu"
  else if String.eqb current_state "statistics" then "main_menu"
  else if String.eqb current_state "viewing_tasks" then "main_menu"
  else if String.eqb current_state "viewing_chats" then "main_menu"
  else "main_menu".

(** [clear_user_state]: keep ['navigation_history'] and ['state'], drop the
    rest; nothing to do on an empty dictionary. *)
Definition clear_user_state (user_data : session) : session :=
  if session_is_empty user_data then user_data
  else {| s_state := s_state user_data;
          s_navigation_history := s_navigation_history user_data;
          s_task_text := None; s_media_files := None;
          s_selected_titles := None; s_selection_type := None;
          s_current_group_id := None; s_selected_chats := None |}.

(** [h[-n:]] *)
Definition last_n {A} (n : nat) (h : list A) : list A :=
  skipn (List.length h - n) h.

(** [add_to_history]: nothing on an empty dictionary; no state twice in a
    row; at most the last ten entries are kept. *)
Definition add_to_history (user_data : session) (state : string) : session :=
  if session_is_empty user_data then user_data
  else
    let h0 := match s_navigation_history user_data with
              | Some h => h
              | None => []
              end in
    let h1 := match rev h0 with
              | [] => h0 ++ [state]
              | latest :: _ => if String.eqb latest state then h0
                               else h0 ++ [state]
              end in
    let h2 := if (10 <? List.length h1)%nat then last_n 10 h1 else h1 in
    set_navigation_history user_data h2.

(** [get_last_state] *)
Definition get_last_state (user_data : session) : string :=
  match s_navigation_history user_data with
  | Some h => match rev h with
              | latest :: _ => latest
              | [] => "main_menu"%string
              end
  | None => "main_menu"%string
  end.

(** ** Replies of the menu handlers

    What a handler answers, by kind; texts and layout are left out, the
    buttons of a selection keyboard are kept. *)
Inductive menu_reply :=
| Silent                              (* the handler returns without answer *)
| MainMenu
| SettingsMenu
| NoActiveTasks
| ActiveTaskList (listed : list (Z * task_snapshot))
| NoChatsConnected
| ChatList (groups personal : list chat_row)
| HelpText
| UnknownCommand
| TaskTextPrompt
| TaskTextSaved
| NeedTaskTextFirst
| SendFilePrompt
| FileAttached
| RecipientOptions
| NoGroupsAvailable
| NoChatsAvailable
| SelectionKeyboard (buttons : list str)
| InvalidChoice
| GroupNamePrompt
| GroupNameTaken
| GroupCreatedNoChats
| GroupCreated (buttons : list str)
| GroupNotFound
| NoChatSelected
| GroupFilled
| ChatNotFound
| ChatSelectionKeyboard (buttons : list str)
| SelectionReply (outcome : selection_outcome)
| ChatAlreadyAdded
| ChatAdded
| DatabaseError
| ErrorReply.                         (* error_handler *)

(** ** Further statements *)

Definition q_chats_listing : statement chat_row := {|
  sql := "
                SELECT chat_id, title, is_group, added_at 
                FROM chats 
                ORDER BY is_group DESC, title ASC
            ";
  run := fun _ _ db =>
    Return (sort_by (fun a b =>
              (is_group a && negb (is_group b))
              || (Bool.eqb (is_group a) (is_group b)
                  && PyStr.leb (title a) (title b)))
              (chats db), db) |}.

Definition q_chats_by_title : statement (Z * str) := {|
  sql := "SELECT chat_id, title FROM chats ORDER BY title";
  run := fun _ _ db =>
    Return (map (fun c => (chat_id c, title c))
              (sort_by (fun a b => PyStr.leb (title a) (title b)) (chats db)),
            db) |}.

Definition q_chat_by_id (chat : Z) : statement Z := {|
  sql := "SELECT chat_id FROM chats WHERE chat_id = ?";
  run := fun _ _ db =>
    Return (map chat_id (filter (fun c => chat_id c =? chat) (chats db)), db) |}.

(** The primary key [chat_id] rejects a second row for an id. *)
Definition q_insert_chat (chat : Z) (chat_title : str) (group : bool)
  : statement Empty_set := {|
  sql := "INSERT INTO chats (chat_id, title, is_group) VALUES (?, ?, ?)";
  run := fun _ now db =>
    if existsb (fun c => chat_id c =? chat) (chats db)
    then Raise IntegrityError
    else Return ([], set_chats db
           (chats db ++ [{| chat_id := chat; title := chat_title;
                            is_group := group; added_at := now |}])) |}.

(** The next AUTOINCREMENT id of [chat_groups]: one more than the largest
    id used so far; no statement of the code deletes a row, so that is the
    largest id in the table. *)
Definition next_group_id (db : database) : Z :=
  fold_right Z.max 0 (map cg_id (chat_groups db)) + 1.

(** [name] is UNIQUE. *)
Definition q_insert_chat_group (name : str) : statement Empty_set := {|
  sql := "INSERT INTO chat_groups (name) VALUES (?)";
  run := fun _ now db =>
    if existsb (fun g => PyStr.eqb (cg_name g) name) (chat_groups db)
    then Raise IntegrityError
    else Return ([], {|
      chats := chats db;
      chat_groups := chat_groups db ++
        [{| cg_id := next_group_id db; cg_name := name;
            cg_created_at := now |}];
      group_chats := group_chats db;
      tasks := tasks db; tasks_seq := tasks_seq db;
      task_recipients := task_recipients db;
      task_media := task_media db;
      response_media := response_media db |}) |}.

(** INSERT OR IGNORE: a pair that is already a member is skipped. *)
Definition q_insert_group_chat (group_id chat : Z) : statement Empty_set := {|
  sql := "INSERT OR IGNORE INTO group_chats (group_id, chat_id) VALUES (?, ?)";
  run := fun _ _ db =>
    if existsb (fun gc => (gc_group_id gc =? group_id) && (gc_chat_id gc =? chat))
         (group_chats db)
    then Return ([], db)
    else Return ([], {|
      chats := chats db; chat_groups := chat_groups db;
      group_chats := group_chats db ++
        [{| gc_group_id := group_id; gc_chat_id := chat |}];
      tasks := tasks db; tasks_seq := tasks_seq db;
      task_recipients := task_recipients db;
      task_media := task_media db;
      response_media := response_media db |}) |}.

(** ** Screens that read the store *)

(** [show_active_tasks]: the mapping of [get_active_tasks], or the notice
    that there is none.  (The messages and files then sent per task are
    built from that mapping.) *)
Definition show_active_tasks (now : Z) (db : database) : menu_reply :=
  match fst (get_active_tasks None now db) with
  | Return [] => NoActiveTasks
  | Return listed => ActiveTaskList listed
  | Raise _ => ErrorReply
  end.

(** [show_chat_list]: group chats, then personal chats. *)
Definition show_chat_list (now : Z) (db : database) : menu_reply :=
  match fst (execute_query None now q_chats_listing db) with
  | Return (Some (c :: cs)) =>
      ChatList (filter is_group (c :: cs))
               (filter (fun x => negb (is_group x)) (c :: cs))
  | Return _ => NoChatsConnected
  | Raise _ => ErrorReply
  end.

(** ** Handlers of the conversation

    [admin] is ADMIN_ID, [user] the sender of the update. *)

(** [start_new_task] *)
Definition start_new_task (admin user : Z) (s : session)
  : menu_reply * session :=
  if negb (user =? admin) then (Silent, s)
  else (TaskTextPrompt, set_state s "awaiting_task_text").

(** [start_create_chat_group] *)
Definition start_create_chat_group (admin user : Z) (s : session)
  : menu_reply * session :=
  if negb (user =? admin) then (Silent, s)
  else (GroupNamePrompt,
        add_to_history (set_state s "creating_chat_group")
          "creating_chat_group").

(** [handle_back_button] *)
Definition handle_back_button (admin user now : Z) (s : session)
  (db : database) : menu_reply * session :=
  if negb (user =? admin) then (Silent, s)
  else
    let current_state :=
      match s_state s with Some st => st | None => "main_menu"%string end in
    if String.eqb current_state "main_menu" then (MainMenu, s)
    else
      let previous_state := get_previous_state current_state in
      let s1 := clear_user_state s in
      let s2 := set_state s1 previous_state in
      let s3 := add_to_history s2 previous_state in
      if String.eqb previous_state "main_menu" then (MainMenu, s3)
      else if String.eqb previous_state "settings" then (SettingsMenu, s3)
      else if String.eqb previous_state "viewing_tasks"
      then (show_active_tasks now db, s3)
      else if String.eqb previous_state "viewing_chats"
      then (show_chat_list now db, s3)
      else if String.eqb previous_state "creating_chat_group"
      then start_create_chat_group admin user s3
      else if String.eqb previous_state "adding_chats_to_group"
      then start_create_chat_group admin user s3
      else (MainMenu, s3).

(** [handle_task_text]; the source spells its header [asyncdef], read here
    as [async def]. *)
Definition handle_task_text (admin user : Z) (message_text : str)
  (s : session) : menu_reply * session :=
  if negb (user =? admin) then (Silent, s)
  else if PyStr.eqb message_text Menu.cancel_button
  then (MainMenu, empty_session)
  else if PyStr.eqb message_text Menu.choose_recipients_button then
    if is_some (s_task_text s)
    then (RecipientOptions, set_state s "choosing_recipient_type")
    else (NeedTaskTextFirst, s)
  else if PyStr.eqb message_text Menu.add_file_button
          || PyStr.eqb message_text Menu.add_another_file_button
  then (SendFilePrompt, s)
  else (TaskTextSaved,
        {| s_state := s_state s;
           s_navigation_history := s_navigation_history s;
           s_task_text := Some message_text;
           s_media_files := s_media_files s;
           s_selected_titles := s_selected_titles s;
           s_selection_type := s_selection_type s;
           s_current_group_id := s_current_group_id s;
           s_selected_chats := s_selected_chats s |}).

(** The session once a kind of recipients has been chosen. *)
Definition start_selection (s : session) (kind : string) : session := {|
  s_state := Some "selecting_recipients"%string;
  s_navigation_history := s_navigation_history s;
  s_task_text := s_task_text s; s_media_files := s_media_files s;
  s_selected_titles := Some [];
  s_selection_type := Some kind;
  s_current_group_id := s_current_group_id s;
  s_selected_chats := s_selected_chats s |}.

(** The keyboard of a selection: one unchecked button per title, then the
    closing buttons. *)
Definition selection_buttons (titles : list str) (closing : list str)
  : list str :=
  map (fun t => Menu.unchecked_prefix ++ t) titles ++ closing.

(** [handle_recipient_type] *)
Definition handle_recipient_type (admin user now : Z) (choice : str)
  (s : session) (db : database) : menu_reply * session :=
  if negb (user =? admin) then (Silent, s)
  else if PyStr.eqb choice Menu.cancel_button then (MainMenu, empty_session)
  else if PyStr.eqb choice Menu.chat_group_choice then
    match fst (get_chat_groups None now user db) with
    | Return [] => (NoGroupsAvailable, set_state s "choosing_recipient_type")
    | Return groups =>
        (SelectionKeyboard
           (selection_buttons (map cg_name groups)
              [Lit.confirm_button; Lit.back_button]),
         start_selection s "group")
    | Raise _ => (ErrorReply, s)
    end
  else if PyStr.eqb choice Menu.single_chats_choice then
    match fst (execute_query None now q_chats_by_title db) with
    | Return (Some (c :: cs)) =>
        (SelectionKeyboard
           (selection_buttons (map snd (c :: cs))
              [Lit.confirm_button; Lit.back_button]),
         start_selection s "chat")
    | Return _ => (NoChatsAvailable, s)
    | Raise _ => (ErrorReply, s)
    end
  else (InvalidChoice, s).

(** The part of the conversation state [handle_recipient_selection] reads,
    with the defaults of its [get] calls. *)
Definition user_data_of (s : session) : user_data := {|
  ud_task_text := s_task_text s;
  ud_media_files := match s_media_files s with Some m => m | None => [] end;
  ud_selected_titles :=
    match s_selected_titles s with Some t => t | None => [] end;
  ud_selection_type := s_selection_type s |}.

(** The conversation state [handle_recipient_selection] leaves: cleared
    after the report, the new selection after a toggle, untouched else. *)
Definition session_after_selection (s : session) (res : selection_result)
  : session :=
  match sr_outcome res with
  | DeliveryReport _ _ => empty_session
  | SelectionUpdated =>
      {| s_state := s_state s;
         s_navigation_history := s_navigation_history s;
         s_task_text := s_task_text s; s_media_files := s_media_files s;
         s_selected_titles := Some (ud_selected_titles (sr_user_data res));
         s_selection_type := s_selection_type s;
         s_current_group_id := s_current_group_id s;
         s_selected_chats := s_selected_chats s |}
  | _ => s
  end.

(** [handle_group_name] *)
Definition handle_group_name (admin user now : Z) (group_name : str)
  (s : session) (db : database) : menu_reply * session * database :=
  if negb (user =? admin) then (Silent, s, db)
  else if PyStr.eqb group_name Lit.back_button
  then (handle_back_button admin user now s db, db)
  else
    match execute_query None now (q_group_id_by_name group_name) db with
    | (Raise _, _) => (ErrorReply, s, db)
    | (Return (Some (_ :: _)), _) => (GroupNameTaken, s, db)
    | (Return _, _) =>
        match execute_query None now (q_insert_chat_group group_name) db with
        | (Raise _, db1) => (ErrorReply, s, db1)
        | (Return _, db1) =>
            match execute_query None now q_last_insert_rowid db1 with
            | (Return (Some (group_id :: _)), _) =>
                let s1 := {|
                  s_state := Some "adding_chats_to_group"%string;
                  s_navigation_history := s_navigation_history s;
                  s_task_text := s_task_text s;
                  s_media_files := s_media_files s;
                  s_selected_titles := s_selected_titles s;
                  s_selection_type := s_selection_type s;
                  s_current_group_id := Some group_id;
                  s_selected_chats := s_selected_chats s |} in
                match execute_query None now q_chats_by_title db1 with
                | (Return (Some (c :: cs)), _) =>
                    (GroupCreated
                       (selection_buttons (map snd (c :: cs))
                          [Menu.finish_button; Lit.back_button]),
                     s1, db1)
                | (Return _, _) => (GroupCreatedNoChats, s1, db1)
                | (Raise _, _) => (ErrorReply, s1, db1)
                end
            | _ => (ErrorReply, s, db1)   (* indexing the result fails *)
            end
        end
    end.

(** [selected_chats.remove(chat_id)]: the first occurrence. *)
Fixpoint remove_first (x : Z) (l : list Z) : list Z :=
  match l with
  | [] => []
  | y :: l' => if y =? x then l' else y :: remove_first x l'
  end.

(** [for chat_id in selected_chats: INSERT OR IGNORE INTO group_chats] *)
Fixpoint insert_group_chats (now group_id : Z) (selected : list Z)
  (db : database) : option exn * database :=
  match selected with
  | [] => (None, db)
  | chat :: rest =>
      match execute_query None now (q_insert_group_chat group_id chat) db with
      | (Raise e, db') => (Some e, db')
      | (Return _, db') => insert_group_chats now group_id rest db'
      end
  end.

(** [handle_chat_selection_for_group]; a group id of 0 is as good as
    none ([if not group_id]). *)
Definition handle_chat_selection_for_group (admin user now : Z)
  (message_text : str) (s : session) (db : database)
  : menu_reply * session * database :=
  if negb (user =? admin) then (Silent, s, db)
  else
    match s_current_group_id s with
    | None => (GroupNotFound, s, db)
    | Some group_id =>
        if group_id =? 0 then (GroupNotFound, s, db)
        else if PyStr.eqb message_text Lit.back_button
        then (handle_back_button admin user now s db, db)
        else if PyStr.eqb message_text Menu.finish_button then
          match s_selected_chats s with
          | Some (c :: cs) =>
              match insert_group_chats now group_id (c :: cs) db with
              | (Some _, db') => (ErrorReply, s, db')
              | (None, db') => (GroupFilled, empty_session, db')
              end
          | _ => (NoChatSelected, s, db)
          end
        else if PyStr.startswith Menu.unchecked_prefix message_text
                || PyStr.startswith Menu.checked_prefix message_text then
          let t := skipn 2 message_text in
          match execute_query None now (q_chat_id_by_title t) db with
          | (Raise _, _) => (ErrorReply, s, db)
          | (Return (Some (chat :: _)), _) =>
              let selected :=
                match s_selected_chats s with Some l => l | None => [] end in
              let present := existsb (Z.eqb chat) selected in
              let selected' :=
                if present then remove_first chat selected
                else selected ++ [chat] in
              let new_state :=
                if present then Lit.unchecked_box else Lit.checked_box in
              let s1 := {|
                s_state := s_state s;
                s_navigation_history := s_navigation_history s;
                s_task_text := s_task_text s;
                s_media_files := s_media_files s;
                s_selected_titles := s_selected_titles s;
                s_selection_type := s_selection_type s;
                s_current_group_id := s_current_group_id s;
                s_selected_chats := Some selected' |} in
              match execute_query None now q_chats_by_title db with
              | (Return (Some rows), _) =>
                  (ChatSelectionKeyboard
                     (map (fun row =>
                        (if existsb (Z.eqb (fst row)) selected'
                         then new_state else Lit.unchecked_box)
                        ++ PyStr.lit " " ++ snd row) rows
                      ++ [Menu.finish_button; Lit.back_button]),
                   s1, db)
              | _ => (ErrorReply, s1, db)   (* iterating [None] fails *)
              end
          | (Return _, _) => (ChatNotFound, s, db)
          end
        else (Silent, s, db)
    end.

(** [str(chat.id)] *)
Definition str_of_int (z : Z) : str :=
  PyStr.lit (NilZero.string_of_int (Z.to_int z)).

(** The exceptions that are [sqlite3.Error]. *)
Definition is_sqlite_error (e : exn) : bool :=
  match e with
  | OperationalError | IntegrityError => true
  | _ => false
  end.

(** [add_chat_command]: the chat of the update with its id, optional title
    and type.  [f] gives the failures of the engine at the SELECT (0) and
    at the INSERT (1); an [sqlite3.Error] is answered as a database error,
    any other exception as a command error. *)
Definition add_chat_command (admin : Z) (f : faults) (now user chat : Z)
  (chat_title : option str) (chat_type : string) (db : database)
  : menu_reply * database :=
  if negb (user =? admin) then (Silent, db)
  else
    let group := String.eqb chat_type "group"
                 || String.eqb chat_type "supergroup" in
    let failed := fun e : exn =>
      if is_sqlite_error e then DatabaseError else ErrorReply in
    match execute_query (f 0%nat) now (q_chat_by_id chat) db with
    | (Raise e, db') => (failed e, db')
    | (Return (Some (_ :: _)), db') => (ChatAlreadyAdded, db')
    | (Return _, db') =>
        let t := match nonempty chat_title with
                 | Some t => t
                 | None => str_of_int chat
                 end in
        match execute_query (f 1%nat) now (q_insert_chat chat t group) db' with
        | (Raise e, db'') => (failed e, db'')
        | (Return _, db'') => (ChatAdded, db'')
        end
    end.

(** The branch of [handle_media_message] for a file that is no reply: it is
    attached to the task being written. *)
Definition attach_task_media (admin : Z) (upd : update) (s : session)
  : menu_reply * session :=
  match media_of_update upd with
  | None => (Silent, s)
  | Some media =>
      if negb (upd_user_id upd =? admin) then (Silent, s)
      else
        match s_state s with
        | Some st =>
            if String.eqb st "awaiting_task_text" then
              (FileAttached,
               {| s_state := s_state s;
                  s_navigation_history := s_navigation_history s;
                  s_task_text := s_task_text s;
                  s_media_files :=
                    Some (match s_media_files s with
                          | Some m => m
                          | None => []
                          end ++ [media]);
                  s_selected_titles := s_selected_titles s;
                  s_selection_type := s_selection_type s;
                  s_current_group_id := s_current_group_id s;
                  s_selected_chats := s_selected_chats s |})
            else (Silent, s)
        | None => (Silent, s)
        end
  end.

(** The part of [handle_message] after the reply branch: the menu flow of
    the administrator, by conversation state first, by command second. *)
Definition handle_menu_message (admin : Z) (gw : gateway) (now user : Z)
  (message_text : str) (s : session) (db : database)
  : menu_reply * session * database :=
  if negb (user =? admin) then (Silent, s, db)
  else if PyStr.eqb message_text Lit.back_button
          || PyStr.eqb message_text Menu.cancel_button
  then (handle_back_button admin user now s db, db)
  else
    let in_state := fun name =>
      match s_state s with Some st => String.eqb st name | None => false end in
    if in_state "awaiting_task_text"%string
    then (handle_task_text admin user message_text s, db)
    else if in_state "choosing_recipient_type"%string
    then (handle_recipient_type admin user now message_text s db, db)
    else if in_state "selecting_recipients"%string then
      let res := handle_recipient_selection gw now user message_text
                   (user_data_of s) db in
      (SelectionReply (sr_outcome res), session_after_selection s res,
       sr_db res)
    else if in_state "creating_chat_group"%string
    then handle_group_name admin user now message_text s db
    else if in_state "adding_chats_to_group"%string
    then handle_chat_selection_for_group admin user now message_text s db
    else if PyStr.eqb message_text Menu.new_task_command then
      (start_new_task admin user
         (add_to_history (set_state s "awaiting_task_text")
            "awaiting_task_text"), db)
    else if PyStr.eqb message_text Menu.view_tasks_command then
      (show_active_tasks now db,
       add_to_history (set_state s "viewing_tasks") "viewing_tasks", db)
    else if PyStr.eqb message_text Menu.view_chats_command then
      (show_chat_list now db,
       add_to_history (set_state s "viewing_chats") "viewing_chats", db)
    else if PyStr.eqb message_text Menu.settings_command then
      (SettingsMenu, add_to_history (set_state s "settings") "settings", db)
    else if PyStr.eqb message_text Menu.help_command then (HelpText, s, db)
    else if PyStr.eqb message_text Menu.main_menu_command then
      (MainMenu,
       add_to_history (set_state empty_session "main_menu") "main_menu", db)
    else if PyStr.eqb message_text Menu.create_group_command
    then (start_create_chat_group admin user s, db)
    else (UnknownCommand, s, db).

(** ** The bot as a whole

    The updates the registered handlers receive, and the effect of each on
    the store and on the administrator's conversation. *)
Inductive event :=
| TextMessage (gw : gateway) (now : Z) (upd : update)   (* [handle_message] *)
| MediaMessage (now : Z) (upd : update)         (* [handle_media_message] *)
| AddChat (f : faults) (now user chat : Z) (chat_title : option str)
    (chat_type : string).                       (* [add_chat_command] *)

Record world := { w_session : session; w_db : database }.

(** The text of a text update ([filters.TEXT] lets no other pass). *)
Definition text_of_update (upd : update) : str :=
  match upd_text upd with Some t => t | None => [] end.

Definition bot_step (admin bot : Z) (ev : event) (w : world) : world :=
  match ev with
  | TextMessage gw now upd =>
      match handle_message bot upd (w_db w) with
      | (ToMenuFlow, _) =>
          let '(_, s', db') :=
            handle_menu_message admin gw now (upd_user_id upd)
              (text_of_update upd) (w_session w) (w_db w) in
          {| w_session := s'; w_db := db' |}
      | (_, db') => {| w_session := w_session w; w_db := db' |}
      end
  | MediaMessage now upd =>
      match handle_media_message bot upd (w_db w) with
      | (ToTaskCreation, _) =>
          {| w_session := snd (attach_task_media admin upd (w_session w));
             w_db := w_db w |}
      | (_, db') => {| w_session := w_session w; w_db := db' |}
      end
  | AddChat f now user chat chat_title chat_type =>
      {| w_session := w_session w;
         w_db := snd (add_chat_command admin f now user chat chat_title
                        chat_type (w_db w)) |}
  end.

Definition bot_run (admin bot : Z) (events : list event) (w : world) : world :=
  fold_left (fun w' ev => bot_step admin bot ev w') events w.

(** The bot right after [init_database] on a new file. *)
Definition initial_world : world :=
  {| w_session := empty_session; w_db := empty_database |}.

(** ** Predicates on conversations *)

(** The state a handler takes the conversation to be in
    ([user_data.get('state', 'main_menu')]). *)
Definition state_or_main (s : session) : string :=
  match s_state s with Some st => st | None => "main_menu"%string end.

(** The history [add_to_history] computes from an old one. *)
Definition pushed (h0 : list string) (st : string) : list string :=
  let h1 := match rev h0 with
            | [] => h0 ++ [st]
            | latest :: _ => if String.eqb latest st then h0 else h0 ++ [st]
            end in
  if (10 <? List.length h1)%nat then last_n 10 h1 else h1.

(** ** Predicates on the store *)

(** From [db] to [db'] nothing but [task_recipients] differs, and that
    table has only gained pending rows of task [task_id]. *)
Definition registers_under (task_id : Z) (db db' : database) : Prop :=
  same_but_recipients db db' /\ tasks_seq db' = tasks_seq db
  /\ exists ext,
       task_recipients db' = task_recipients db ++ ext
       /\ Forall (fun r => tr_task_id r = task_id
                           /\ tr_status r = "pending"%string) ext.

(** What a bot started on a new database file keeps true of its store:
    every recipient row is pending and carries task id 0, every task is
    active with a positive id, and no group has a member. *)
Definition store_invariant (db : database) : Prop :=
  Forall (fun r => tr_task_id r = 0 /\ tr_status r = "pending"%string)
    (task_recipients db)
  /\ Forall (fun t => 0 < t_id t /\ t_status t = "active"%string) (tasks db)
  /\ 0 <= tasks_seq db
  /\ group_chats db = [].

(** The group being filled is absent or has the id 0. *)
Definition no_group_id (s : session) : Prop :=
  s_current_group_id s = None \/ s_current_group_id s = Some 0.

Definition bot_invariant (w : world) : Prop :=
  store_invariant (w_db w) /\ no_group_id (w_session w).

(** The effect of a call of [handle_recipient_selection] on the store. *)
Definition selection_effect (db db' : database) : Prop :=
  chats db' = chats db /\ chat_groups db' = chat_groups db
  /\ group_chats db' = group_chats db
  /\ ((tasks db' = tasks db /\ tasks_seq db' = tasks_seq db)
      \/ (exists t, tasks db' = tasks db ++ [t]
                    /\ t_id t = tasks_seq db + 1
                    /\ t_status t = "active"%string
                    /\ tasks_seq db' = tasks_seq db + 1))
  /\ exists ext,
       task_recipients db' = task_recipients db ++ ext
       /\ Forall (fun r => tr_task_id r = 0
                           /\ tr_status r = "pending"%string) ext.

(** The four parts of the store the invariant speaks of are the same. *)
Definition same_tracking (db db' : database) : Prop :=
  task_recipients db' = task_recipients db /\ tasks db' = tasks db
  /\ tasks_seq db' = tasks_seq db /\ group_chats db' = group_chats db.

(** The selection names groups ([selection_type == "group"]). *)
Definition selects_groups (ud : user_data) : bool :=
  match ud_selection_type ud with
  | Some ty => String.eqb ty "group"
  | None => false
  end.

(** A scenario: the administrator (user 1) registers chat 7 under the
    title A, writes a task, selects the chat and confirms. *)
Module Scenario.

Definition gateway_up : gateway :=
  {| get_chat_ok := fun _ => true; send_message_ok := fun _ _ => true;
     send_photo_ok := fun _ _ => true; send_document_ok := fun _ _ => true |}.

Definition says (user : Z) (text : str) : event :=
  TextMessage gateway_up 1
    {| upd_user_id := user; upd_chat_id := user; upd_text := Some text;
       upd_reply_to := None; upd_photo := []; upd_document := None |}.

Definition register_chat : event :=
  AddChat no_fault 0 1 7 (Some (PyStr.lit "A")) "group".

Definition send_task : list event :=
  [says 1 Menu.new_task_command; says 1 Sample.buy_milk;
   says 1 Menu.choose_recipients_button; says 1 Menu.single_chats_choice;
   says 1 (Menu.unchecked_prefix ++ PyStr.lit "A");
   says 1 Lit.confirm_button].

Definition create_group : list event :=
  [says 1 Menu.create_group_command; says 1 (PyStr.lit "G");
   says 1 (Menu.unchecked_prefix ++ PyStr.lit "A");
   says 1 Menu.finish_button].

(** The conversation just before the second confirmation of the same
    selection. *)
Definition second_selection : user_data :=
  {| ud_task_text := Some Sample.buy_milk; ud_media_files := [];
     ud_selected_titles := [PyStr.lit "A"];
     ud_selection_type := Some "chat"%string |}.

(** The conversation while the group with id 3 is being filled, chats 7
    and 8 ticked. *)
Definition filling_group : session :=
  {| s_state := Some "adding_chats_to_group"%string;
     s_navigation_history := Some ["creating_chat_group"%string];
     s_task_text := None; s_media_files := None;
     s_selected_titles := None; s_selection_type := None;
     s_current_group_id := Some 3; s_selected_chats := Some [7; 8] |}.

End Scenario.

(** ** Predicates on updates *)

(** The update answers a message of the bot itself. *)
Definition replies_to_bot (bot : Z) (upd : update) : bool :=
  match upd_reply_to upd with
  | Some re => re_from_user re =? bot
  | None => false
  end.

(** The chat has a row in [chats]. *)
Definition registered (chat : Z) (db : database) : bool :=
  existsb (fun c => chat_id c =? chat) (chats db).

(** The primary key of [chats]. *)
Definition chats_key_unique (db : database) : Prop :=
  NoDup (map chat_id (chats db)).

(** ** Predicates on events *)

Definition event_sender (ev : event) : Z :=
  match ev with
  | TextMessage _ _ upd => upd_user_id upd
  | MediaMessage _ upd => upd_user_id upd
  | AddChat _ _ user _ _ _ => user
  end.

Definition event_replies_to_bot (bot : Z) (ev : event) : bool :=
  match ev with
  | TextMessage _ _ upd => replies_to_bot bot upd
  | MediaMessage _ upd => replies_to_bot bot upd
  | AddChat _ _ _ _ _ _ => false
  end.

(** The announcement [send_task_to_chat] sends for a task text. *)
Definition announcement_of (task_text : str) : str :=
  Lit.new_task_marker ++ PyStr.lit " " ++ task_text.

(** ** The dialogue that creates a task *)

(** [context.user_data['task_text'] = text] *)
Definition with_task_text (s : session) (text : str) : session :=
  {| s_state := s_state s;
     s_navigation_history := s_navigation_history s;
     s_task_text := Some text;
     s_media_files := s_media_files s;
     s_selected_titles := s_selected_titles s;
     s_selection_type := s_selection_type s;
     s_current_group_id := s_current_group_id s;
     s_selected_chats := s_selected_chats s |}.

(** [context.user_data['selected_titles'] = titles] *)
Definition with_selected_titles (s : session) (titles : list str) : session :=
  {| s_state := s_state s;
     s_navigation_history := s_navigation_history s;
     s_task_text := s_task_text s;
     s_media_files := s_media_files s;
     s_selected_titles := Some titles;
     s_selection_type := s_selection_type s;
     s_current_group_id := s_current_group_id s;
     s_selected_chats := s_selected_chats s |}.

(** A text message of the administrator that answers no message. *)
Definition admin_text (admin : Z) (gw : gateway) (now : Z) (text : str)
  : event :=
  TextMessage gw now
    {| upd_user_id := admin; upd_chat_id := admin; upd_text := Some text;
       upd_reply_to := None; upd_photo := []; upd_document := None |}.

(** The administrator, asked for the task text, types it, asks for the
    recipients, chooses single chats, ticks one chat and confirms. *)
Definition task_dialogue (admin : Z) (gw : gateway) (now : Z)
  (task_text chat_title : str) : list event :=
  map (admin_text admin gw now)
    [task_text; Menu.choose_recipients_button; Menu.single_chats_choice;
     Menu.unchecked_prefix ++ chat_title; Lit.confirm_button].

(** [context.user_data.get('media_files', [])] *)
Definition session_media (s : session) : list (str * string) :=
  match s_media_files s with Some m => m | None => [] end.

(** ** Keys of the schema *)

(** PRIMARY KEY (task_id, chat_id) of [task_recipients]. *)
Definition recipient_key (r : task_recipient_row) : Z * Z :=
  (tr_task_id r, tr_chat_id r).

(** PRIMARY KEY (group_id, chat_id) of [group_chats]. *)
Definition member_key (gc : group_chat_row) : Z * Z :=
  (gc_group_id gc, gc_chat_id gc).

(** The PRIMARY KEY and UNIQUE constraints of the schema, and AUTOINCREMENT
    of [tasks]: no id above the sequence. *)
Definition keys_wf (db : database) : Prop :=
  NoDup (map chat_id (chats db))
  /\ NoDup (map t_id (tasks db))
  /\ Forall (fun i => i <= tasks_seq db) (map t_id (tasks db))
  /\ NoDup (map recipient_key (task_recipients db))
  /\ NoDup (map cg_id (chat_groups db))
  /\ NoDup (map cg_name (chat_groups db))
  /\ NoDup (map member_key (group_chats db)).

(** The keys of every table are the same in both stores. *)
Definition keys_same (db db' : database) : Prop :=
  chats db' = chats db
  /\ map t_id (tasks db') = map t_id (tasks db)
  /\ tasks_seq db' = tasks_seq db
  /\ map recipient_key (task_recipients db')
     = map recipient_key (task_recipients db)
  /\ chat_groups db' = chat_groups db
  /\ group_chats db' = group_chats db.

(** * Properties *)

(** ** Strings *)

Lemma str_eqb_eq (a b : str) : PyStr.eqb a b = true <-> a = b.
Proof.
  unfold PyStr.eqb. destruct (list_eq_dec N.eq_dec a b); split; congruence.
Qed.

Lemma str_eqb_refl (a : str) : PyStr.eqb a a = true.
Proof. now apply str_eqb_eq. Qed.

Lemma partition_aux_at_start (sep acc s : str) :
  PyStr.startswith sep s = true ->
  PyStr.partition_aux sep acc s = Some (rev acc, skipn (List.length sep) s).
Proof.
  intros H. destruct s; cbn [PyStr.partition_aux]; now rewrite H.
Qed.

Lemma split1_at_start (sep s : str) :
  PyStr.startswith sep s = true ->
  PyStr.split1 sep s = [[]; skipn (List.length sep) s].
Proof.
  intros H. unfold PyStr.split1. now rewrite (partition_aux_at_start _ [] _ H).
Qed.

Lemma startswith_marker_nonempty (s : str) :
  PyStr.startswith Lit.new_task_marker s = true -> nonempty (Some s) = Some s.
Proof. destruct s; [discriminate | reflexivity]. Qed.

(** ** Lists *)

Lemma filter_none {A} (f : A -> bool) (l : list A) :
  (forall x, In x l -> f x = false) -> filter f l = [].
Proof.
  induction l as [|a l IH]; intros H; [reflexivity|].
  cbn. rewrite (H a (or_introl eq_refl)). apply IH.
  intros x Hx. apply H. now right.
Qed.

Lemma filter_length_all {A} (f : A -> bool) (l : list A) :
  List.length (filter f l) = List.length l <-> forallb f l = true.
Proof.
  induction l as [|a l IH]; cbn; [tauto|].
  pose proof (filter_length_le f l) as Hle.
  destruct (f a); cbn.
  - rewrite <- IH. split; intros H; lia.
  - split; [intros H; lia | discriminate].
Qed.

Lemma In_insert_sorted {A} (le : A -> A -> bool) (x y : A) (l : list A) :
  In y (insert_sorted le x l) <-> y = x \/ In y l.
Proof.
  induction l as [|a l IH]; cbn.
  - intuition.
  - destruct (le x a); cbn; [intuition|]. rewrite IH. intuition.
Qed.

Lemma In_sort_by {A} (le : A -> A -> bool) (y : A) (l : list A) :
  In y (sort_by le l) <-> In y l.
Proof.
  induction l as [|a l IH]; cbn; [tauto|].
  rewrite In_insert_sorted, IH. intuition.
Qed.

(** ** The store engine *)

(** The transaction of [update_task_status] never gets past its first
    statement on the schema [init_database] creates. *)
Lemma update_task_status_raises (task_id chat : Z) (status : string)
  (db : database) :
  update_task_status task_id chat status db = (Raise OperationalError, db).
Proof. reflexivity. Qed.

Lemma execute_query_fault {A} (e : exn) (now : Z) (q : statement A)
  (db : database) :
  execute_query (Some e) now q db = (Raise e, db).
Proof. reflexivity. Qed.

Lemma execute_query_raise_unchanged {A} (fault : option exn) (now : Z)
  (q : statement A) (db : database) (e : exn) :
  fst (execute_query fault now q db) = Raise e ->
  snd (execute_query fault now q db) = db.
Proof.
  unfold execute_query. destruct fault; [reflexivity|].
  destruct (run q get_connection now db) as [[rows db']|e']; [|reflexivity].
  destruct (is_select (sql q)); [reflexivity | discriminate].
Qed.

Lemma create_task_healthy (now : Z) (text : str) (user : Z) (db : database) :
  create_task no_fault now text user db =
  (Return 0, snd (execute_query None now (q_insert_task text user) db)).
Proof. reflexivity. Qed.

(** ** Registration check of the reply handlers *)

(** C10. A text reply to a task announcement from a chat that has no row in
    [chats] is answered with "chat not registered" and changes nothing,
    whatever rows [task_recipients] holds for that chat; the media handler
    does not read [chats] at all: its outcome and its writes are the same
    whatever that table contains. *)
Theorem unregistered_chat_rejected_in_text_path_only
  (bot : Z) (upd : update) (db : database) (re : replied_message)
  (original : str) :
  upd_reply_to upd = Some re ->
  re_from_user re = bot ->
  re_text re = Some original ->
  PyStr.startswith Lit.new_task_marker original = true ->
  (forall c, In c (chats db) -> chat_id c <> upd_chat_id upd) ->
  handle_message bot upd db = (ChatNotRegistered, db)
  /\ (forall cs,
        fst (handle_media_message bot upd (set_chats db cs))
          = fst (handle_media_message bot upd db)
        /\ snd (handle_media_message bot upd (set_chats db cs))
          = set_chats (snd (handle_media_message bot upd db)) cs).
Proof.
  intros Hre Hbot Htext Hstart Hchats. split.
  - unfold handle_message. rewrite Hre, Hbot, Z.eqb_refl, Htext.
    rewrite (startswith_marker_nonempty _ Hstart), Hstart. cbn [negb].
    rewrite (split1_at_start _ _ Hstart).
    rewrite filter_none; [reflexivity|].
    intros c Hc. apply Z.eqb_neq. now apply Hchats.
  - intros cs. unfold handle_media_message.
    destruct (media_of_update upd) as [[fid ftype]|]; [|now split].
    rewrite Hre, Hbot, Z.eqb_refl.
    destruct (match nonempty (re_text re) with
              | Some t => Some t
              | None => nonempty (re_caption re)
              end) as [om|]; [|now split].
    destruct (nonempty (extract_task_text om)) as [task_text|]; [|now split].
    unfold find_task_for_media, open_rows_for_chat. cbn [tasks task_recipients set_chats].
    destruct (hd_error _) as [task|]; [|now split].
    split; [reflexivity|].
    unfold complete_and_recount, sql_count_recipients, sql_update_recipient_status,
      sql_insert_response_media, sql_complete_task, set_task_recipients, set_tasks,
      set_chats; cbn.
    now destruct (stats_equal _).
Qed.

(** At [Sample.unregistered] chat 7 holds a pending row but no row in
    [chats]: the text reply is refused. *)
Lemma unregistered_chat_rejected_witness :
  handle_message Sample.bot
    (Sample.text_reply 7 (Sample.announcement Sample.buy_milk))
    Sample.unregistered = (ChatNotRegistered, Sample.unregistered)
  /\ fst (handle_media_message Sample.bot
            (Sample.photo_reply 7 (Sample.announcement Sample.buy_milk))
            Sample.unregistered) = MediaAccepted 1.
Proof.
  split.
  - apply (unregistered_chat_rejected_in_text_path_only Sample.bot
             (Sample.text_reply 7 (Sample.announcement Sample.buy_milk))
             Sample.unregistered
             {| re_from_user := Sample.bot;
                re_text := Some (Sample.announcement Sample.buy_milk);
                re_caption := None |}
             (Sample.announcement Sample.buy_milk));
      try reflexivity.
    intros c [Hc|[]]. subst c. cbn. lia.
  - vm_compute. reflexivity.
Defined.

(** ** [update_task_status] when nothing is pending *)







(** ** Validation of the task text *)

(** C8 (as the code has it). The empty-text check is made by
    [handle_recipient_selection], not by [create_task]: on "confirm" with
    a missing or empty task text the handler answers with the error at
    once, calls no send and leaves the store as it was (no task row, no
    media row, no recipient row); [create_task] itself stores whatever text
    it is given, the empty one included. *)
Theorem empty_task_text_rejected_by_handler
  (gw : gateway) (now user : Z) (ud : user_data) (db : database) :
  nonempty (ud_task_text ud) = None ->
  handle_recipient_selection gw now user Lit.confirm_button ud db
    = {| sr_outcome := TaskTextMissing; sr_attempted := [];
         sr_user_data := ud; sr_db := db |}
  /\ tasks (snd (create_task no_fault now [] user db))
     = tasks db ++ [{| t_id := tasks_seq db + 1; t_text := [];
                       t_status := "active"; t_created_by := user;
                       t_created_at := now |}].
Proof.
  intros H. split; [|reflexivity].
  unfold handle_recipient_selection. rewrite str_eqb_refl. now rewrite H.
Qed.

Lemma empty_task_text_rejected_witness :
  sr_db (handle_recipient_selection
           {| get_chat_ok := fun _ => true; send_message_ok := fun _ _ => true;
              send_photo_ok := fun _ _ => true;
              send_document_ok := fun _ _ => true |}
           0 1 Lit.confirm_button
           {| ud_task_text := Some []; ud_media_files := [];
              ud_selected_titles := [PyStr.lit "A"];
              ud_selection_type := Some "chat"%string |}
           Sample.one_left) = Sample.one_left.
Proof.
  now rewrite (proj1 (empty_task_text_rejected_by_handler
    {| get_chat_ok := fun _ => true; send_message_ok := fun _ _ => true;
       send_photo_ok := fun _ _ => true; send_document_ok := fun _ _ => true |}
    0 1
    {| ud_task_text := Some []; ud_media_files := [];
       ud_selected_titles := [PyStr.lit "A"];
       ud_selection_type := Some "chat"%string |}
    Sample.one_left eq_refl)).
Defined.

(** C8 (as the specification words it) fails: [create_task] with the empty text returns
    normally and has stored a task row. *)
Lemma create_task_accepts_empty_text :
  create_task no_fault 5 [] 1 empty_database
  = (Return 0,
     {| chats := []; chat_groups := []; group_chats := [];
        tasks := [{| t_id := 1; t_text := []; t_status := "active";
                     t_created_by := 1; t_created_at := 5 |}];
        tasks_seq := 1; task_recipients := [];
        task_media := []; response_media := [] |}).
Proof. reflexivity. Qed.

(** ** Storage failures *)

(** C9 (as the code has it). A storage failure inside one [execute_query] call is
    re-raised to the caller and leaves the store as it was before that
    call; [create_task] and [add_task_recipient] pass it on;
    [update_task_status] re-raises after rolling back its transaction.
    The roll-back covers the failing statement only: when the second
    statement of [create_task] fails, the row inserted by the first stays.
    [get_active_tasks] does not pass the failure on: it returns an empty
    mapping. *)
Theorem storage_failure_handling
  (e : exn) (now : Z) (text : str) (user task_id chat : Z)
  (group_id : option Z) (status : string) (db : database) :
  (forall A (q : statement A), execute_query (Some e) now q db = (Raise e, db))
  /\ (forall A (q : statement A) fault,
        is_raise (fst (execute_query fault now q db)) = false
        \/ snd (execute_query fault now q db) = db)
  /\ create_task (fault_at 0 e) now text user db = (Raise e, db)
  /\ create_task (fault_at 1 e) now text user db
     = (Raise e, snd (execute_query None now (q_insert_task text user) db))
  /\ add_task_recipient (fault_at 0 e) now task_id chat group_id db
     = (Raise e, db)
  /\ update_task_status task_id chat status db = (Raise OperationalError, db)
  /\ get_active_tasks (Some e) now db = (Return [], db).
Proof.
  repeat split; try reflexivity.
  intros A q fault.
  destruct (fst (execute_query fault now q db)) eqn:H; [now left|right].
  now apply (execute_query_raise_unchanged _ _ _ _ _ H).
Qed.

(** C9 (as the specification words it) fails twice: a failing engine makes
    [get_active_tasks] return the empty mapping instead of raising, and a
    failure in the second statement of [create_task] leaves the task row
    of the first statement in the store. *)
Lemma storage_failure_swallowed_or_partial :
  get_active_tasks (Some OperationalError) 0 Sample.one_left
    = (Return [], Sample.one_left)
  /\ fst (create_task (fault_at 1 OperationalError) 5 Sample.buy_milk 1
            empty_database) = Raise OperationalError
  /\ tasks (snd (create_task (fault_at 1 OperationalError) 5 Sample.buy_milk 1
                   empty_database))
     = [Sample.task 1 Sample.buy_milk "active" 5].
Proof. repeat split. Qed.

(** ** Completion of a task *)

Lemma open_rows_In (chat : Z) (db : database) (x : task_row)
  (r : task_recipient_row) :
  In (x, r) (open_rows_for_chat chat db) ->
  In r (task_recipients db) /\ In x (tasks db)
  /\ tr_chat_id r = chat /\ tr_status r <> "completed"%string
  /\ t_id x = tr_task_id r /\ t_status x = "active"%string.
Proof.
  unfold open_rows_for_chat. intros H. apply in_flat_map in H.
  destruct H as [r' [Hr H]].
  destruct ((tr_chat_id r' =? chat)
            && negb (String.eqb (tr_status r') "completed")) eqn:Hc; [|destruct H].
  apply in_map_iff in H. destruct H as [x' [Heq Hx]].
  inversion Heq; subst x' r'. apply filter_In in Hx. destruct Hx as [Hx Hf].
  apply andb_true_iff in Hc, Hf. destruct Hc as [Hc Hs], Hf as [Hi Ha].
  apply Z.eqb_eq in Hc, Hi. apply String.eqb_eq in Ha.
  apply negb_true_iff, String.eqb_neq in Hs. tauto.
Qed.

Lemma stats_equal_iff (task_id : Z) (db : database) :
  stats_equal (sql_count_recipients task_id db) = true
  <-> recipients_of db task_id <> [] /\ all_completed db task_id = true.
Proof.
  unfold stats_equal, sql_count_recipients, all_completed, recipients_of.
  cbn [fst snd].
  destruct (filter (fun r => tr_task_id r =? task_id) (task_recipients db))
    as [|r rs] eqn:Hrows.
  - split; [discriminate | intros [H _]; now destruct H].
  - rewrite Z.eqb_eq, <- filter_length_all. split.
    + intros H. split; [discriminate | lia].
    + intros [_ H]. lia.
Qed.

Lemma task_status_unique (db : database) (x : task_row) :
  tasks_key_unique db -> In x (tasks db) ->
  task_status db (t_id x) = Some (t_status x).
Proof.
  unfold tasks_key_unique, task_status.
  induction (tasks db) as [|y ts IH]; intros Hnd Hin; [destruct Hin|].
  cbn [map] in Hnd. inversion Hnd as [|? ? Hnotin Hnd']; subst.
  cbn [find]. destruct Hin as [->|Hin].
  - now rewrite Z.eqb_refl.
  - destruct (t_id y =? t_id x) eqn:E.
    + apply Z.eqb_eq in E. exfalso. apply Hnotin. rewrite E.
      now apply in_map.
    + now apply IH.
Qed.

Lemma task_status_complete_task (db : database) (x : task_row) :
  In x (tasks db) ->
  task_status (sql_complete_task (t_id x) db) (t_id x) = Some "completed"%string.
Proof.
  unfold task_status, sql_complete_task. cbn [tasks set_tasks].
  induction (tasks db) as [|y ts IH]; intros Hin; [destruct Hin|].
  cbn [map find]. destruct (t_id y =? t_id x) eqn:E.
  - cbn [t_id]. now rewrite E.
  - rewrite E. destruct Hin as [->|Hin]; [now rewrite Z.eqb_refl in E|].
    now apply IH.
Qed.

Lemma recipients_complete_and_recount (task_id chat : Z) (db : database) :
  task_recipients (complete_and_recount task_id chat db)
  = task_recipients (sql_update_recipient_status "completed" task_id chat db).
Proof.
  unfold complete_and_recount. now destruct (stats_equal _).
Qed.

Lemma all_completed_eq (db1 db2 : database) (task_id : Z) :
  task_recipients db1 = task_recipients db2 ->
  all_completed db1 task_id = all_completed db2 task_id
  /\ recipients_of db1 task_id = recipients_of db2 task_id.
Proof. unfold all_completed, recipients_of. now intros ->. Qed.

(** What the three statements of a completion transaction achieve for the
    pair [(x, chat)], [x] an active task with a row for [chat]. *)
Lemma complete_and_recount_spec (chat : Z) (db : database) (x : task_row)
  (r : task_recipient_row) :
  tasks_key_unique db ->
  In x (tasks db) -> t_status x = "active"%string ->
  In r (task_recipients db) -> tr_task_id r = t_id x -> tr_chat_id r = chat ->
  let db' := complete_and_recount (t_id x) chat db in
  (forall r', In r' (task_recipients db') ->
      tr_task_id r' = t_id x -> tr_chat_id r' = chat ->
      tr_status r' = "completed"%string)
  /\ recipients_of db' (t_id x) <> []
  /\ (task_status db' (t_id x) = Some "completed"%string
      <-> all_completed db' (t_id x) = true)
  /\ ((forall r', In r' (task_recipients db) -> tr_task_id r' = t_id x ->
         tr_chat_id r' <> chat -> tr_status r' = "completed"%string) ->
      task_status db' (t_id x) = Some "completed"%string).
Proof.
  intros Huniq Hx Hact Hr Hrt Hrc db'.
  set (db1 := sql_update_recipient_status "completed" (t_id x) chat db).
  assert (Hrec : task_recipients db' = task_recipients db1)
    by apply recipients_complete_and_recount.
  destruct (all_completed_eq db' db1 (t_id x) Hrec) as [Hall Hof].
  assert (Hmarked : forall r', In r' (task_recipients db1) ->
            tr_task_id r' = t_id x -> tr_chat_id r' = chat ->
            tr_status r' = "completed"%string).
  { intros r' Hin Ht Hc. unfold db1, sql_update_recipient_status in Hin.
    cbn [task_recipients set_task_recipients] in Hin.
    apply in_map_iff in Hin. destruct Hin as [r0 [Heq _]].
    destruct ((tr_task_id r0 =? t_id x) && (tr_chat_id r0 =? chat)) eqn:E.
    - now subst r'.
    - subst r'. rewrite Ht, Hc, !Z.eqb_refl in E. discriminate. }
  assert (Hne : recipients_of db1 (t_id x) <> []).
  { unfold recipients_of, db1, sql_update_recipient_status.
    cbn [task_recipients set_task_recipients]. intros Hnil.
    assert (Hin : In {| tr_task_id := tr_task_id r; tr_chat_id := tr_chat_id r;
                        tr_group_id := tr_group_id r;
                        tr_status := "completed" |}
                    (filter (fun r0 => tr_task_id r0 =? t_id x)
                       (map (fun r0 =>
                          if (tr_task_id r0 =? t_id x) && (tr_chat_id r0 =? chat)
                          then {| tr_task_id := tr_task_id r0;
                                  tr_chat_id := tr_chat_id r0;
                                  tr_group_id := tr_group_id r0;
                                  tr_status := "completed" |}
                          else r0) (task_recipients db)))).
    { apply filter_In. split; [|cbn; rewrite Hrt; apply Z.eqb_refl].
      apply in_map_iff. exists r. split; [|exact Hr].
      now rewrite Hrt, Hrc, !Z.eqb_refl. }
    rewrite Hnil in Hin. destruct Hin. }
  assert (Hiff : task_status db' (t_id x) = Some "completed"%string
                 <-> all_completed db1 (t_id x) = true).
  { unfold db', complete_and_recount. fold db1.
    destruct (stats_equal (sql_count_recipients (t_id x) db1)) eqn:Hs.
    - apply stats_equal_iff in Hs. destruct Hs as [_ Hs]. split; [now intros _|].
      intros _. apply (task_status_complete_task db1 x). exact Hx.
    - split.
      + intros Hst. rewrite (task_status_unique db1 x Huniq Hx), Hact in Hst.
        discriminate.
      + intros Hs'. assert (Ht : stats_equal
                     (sql_count_recipients (t_id x) db1) = true)
          by (apply stats_equal_iff; now split).
        rewrite Ht in Hs. discriminate. }
  split; [now rewrite Hrec|]. split; [now rewrite Hof|].
  split; [now rewrite Hall|].
  intros Hothers. apply Hiff. unfold all_completed, recipients_of.
  apply forallb_forall. intros r' Hin. apply filter_In in Hin.
  destruct Hin as [Hin Ht]. apply Z.eqb_eq in Ht. apply String.eqb_eq.
  destruct (Z.eq_dec (tr_chat_id r') chat) as [Hc|Hc]; [now apply Hmarked|].
  unfold db1, sql_update_recipient_status in Hin.
  cbn [task_recipients set_task_recipients] in Hin.
  apply in_map_iff in Hin. destruct Hin as [r0 [Heq Hin0]].
  destruct ((tr_task_id r0 =? t_id x) && (tr_chat_id r0 =? chat)) eqn:E.
  - subst r'. cbn in Hc. apply andb_true_iff in E. destruct E as [_ E].
    apply Z.eqb_eq in E. contradiction.
  - subst r'. now apply Hothers.
Qed.

(** An accepted text reply stems from a row of the chat's open rows. *)
Lemma handle_message_accepted (bot : Z) (upd : update) (db db' : database)
  (task_id : Z) :
  handle_message bot upd db = (ReplyAccepted task_id, db') ->
  exists task rest,
    matching_task (PyStr.strip rest)
      (active_tasks_for_chat (upd_chat_id upd) db) = Some task
    /\ In task (open_rows_for_chat (upd_chat_id upd) db)
    /\ t_id (fst task) = task_id
    /\ db' = complete_and_recount task_id (upd_chat_id upd) db.
Proof.
  unfold handle_message. intros H. split_matches H.
  inversion H; subst. eexists; eexists. split; [eassumption|].
  split; [|now split].
  match goal with
  | Hm : matching_task _ _ = Some _ |- _ =>
      apply find_some in Hm; destruct Hm as [Hm _];
      now apply In_sort_by in Hm
  end.
Qed.

(** An accepted media reply stems from a row of the chat's open rows. *)
Lemma handle_media_message_accepted (bot : Z) (upd : update)
  (db db' : database) (task_id : Z) :
  handle_media_message bot upd db = (MediaAccepted task_id, db') ->
  exists task task_text fid ftype,
    find_task_for_media (upd_chat_id upd) task_text db = Some task
    /\ In task (open_rows_for_chat (upd_chat_id upd) db)
    /\ t_id (fst task) = task_id
    /\ db' = complete_and_recount task_id (upd_chat_id upd)
               (sql_insert_response_media task_id (upd_chat_id upd) fid ftype db).
Proof.
  unfold handle_media_message. intros H. split_matches H.
  inversion H; subst. do 4 eexists. split; [eassumption|].
  split; [|now split].
  match goal with
  | Hm : find_task_for_media _ _ _ = Some _ |- _ =>
      unfold find_task_for_media in Hm;
      destruct (filter _ (open_rows_for_chat _ _)) eqn:Hf in Hm;
      [discriminate|]; cbn in Hm; inversion Hm; subst;
      match goal with
      | Hf : filter ?f ?l = ?p :: _ |- _ =>
          assert (Hin : In p (filter f l)) by (rewrite Hf; now left);
          now apply filter_In in Hin
      end
  end.
Qed.

(** C1. Whenever a completion operation marks the recipient of a task (an
    accepted text reply, an accepted media reply, or the transaction of
    [update_task_status] as written), then in the store it leaves the task
    has at least one recipient, the marked recipient is completed, and the
    task is completed if and only if every one of its recipients is
    completed; in particular, when all other recipients were completed
    already, this same operation completes the task. *)
Theorem task_completed_iff_all_recipients_completed
  (chat task_id : Z) (db db' : database) :
  tasks_key_unique db ->
  marks chat task_id db db' ->
  (forall r, In r (task_recipients db') ->
      tr_task_id r = task_id -> tr_chat_id r = chat ->
      tr_status r = "completed"%string)
  /\ recipients_of db' task_id <> []
  /\ (task_status db' task_id = Some "completed"%string
      <-> all_completed db' task_id = true)
  /\ ((forall r, In r (task_recipients db) -> tr_task_id r = task_id ->
         tr_chat_id r <> chat -> tr_status r = "completed"%string) ->
      task_status db' task_id = Some "completed"%string).
Proof.
  intros Huniq [bot upd Hchat H | bot upd Hchat H | Hpending H].
  - apply handle_message_accepted in H.
    destruct H as [[x r] [rest [_ [Hin [Hid ->]]]]]. cbn [fst] in Hid.
    rewrite Hchat in *. apply open_rows_In in Hin.
    destruct Hin as [Hr [Hx [Hc [_ [Hi Ha]]]]]. subst task_id.
    now apply (complete_and_recount_spec chat db x r).
  - apply handle_media_message_accepted in H.
    destruct H as [[x r] [text [fid [ftype [_ [Hin [Hid ->]]]]]]].
    cbn [fst] in Hid. rewrite Hchat in *. apply open_rows_In in Hin.
    destruct Hin as [Hr [Hx [Hc [_ [Hi Ha]]]]]. subst task_id.
    now apply (complete_and_recount_spec chat
                 (sql_insert_response_media (t_id x) chat fid ftype db) x r).
  - unfold update_task_status_body in H. unfold nothing_pending in Hpending.
    destruct (filter (fun p => t_id (fst p) =? task_id)
                (open_rows_for_chat chat db)) as [|[x r] l] eqn:Hf;
      [now destruct Hpending|].
    assert (Hin : In (x, r) (filter (fun p => t_id (fst p) =? task_id)
                               (open_rows_for_chat chat db)))
      by (rewrite Hf; now left).
    apply filter_In in Hin. destruct Hin as [Hin Hid]. cbn [fst] in Hid.
    apply Z.eqb_eq in Hid. apply open_rows_In in Hin.
    destruct Hin as [Hr [Hx [Hc [_ [Hi Ha]]]]]. subst task_id.
    inversion H as [H']. 
    now apply (complete_and_recount_spec chat db x r).
Qed.

(** At [Sample.one_left] chat 7 is the last open recipient of task 1: its
    text reply completes the task. *)
Lemma task_completed_witness :
  tasks_key_unique Sample.one_left
  /\ task_status
       (snd (handle_message Sample.bot
               (Sample.text_reply 7 (Sample.announcement Sample.buy_milk))
               Sample.one_left)) 1 = Some "completed"%string.
Proof.
  assert (Hu : tasks_key_unique Sample.one_left).
  { unfold tasks_key_unique. cbn. constructor; [intros []|constructor]. }
  split; [exact Hu|].
  refine (proj2 (proj2 (proj2 (task_completed_iff_all_recipients_completed 7 1
    Sample.one_left
    (snd (handle_message Sample.bot
            (Sample.text_reply 7 (Sample.announcement Sample.buy_milk))
            Sample.one_left)) Hu
    (marks_text_reply 7 1 Sample.one_left
       (snd (handle_message Sample.bot
               (Sample.text_reply 7 (Sample.announcement Sample.buy_milk))
               Sample.one_left))
       Sample.bot
       (Sample.text_reply 7 (Sample.announcement Sample.buy_milk))
       eq_refl eq_refl)))) _).
  intros r [<-|[<-|[]]] _ Hc; [now cbn in Hc | reflexivity].
Defined.

(** ** Matching of a reply against the stored task text *)

(** The text path compares the two trimmed texts for equality: the row it
    finds has a stored text that equals the extracted one after trimming,
    and a row with that property is never missed. *)
Lemma matching_task_exact (rest : str)
  (rows : list (task_row * task_recipient_row)) :
  (forall task, matching_task (PyStr.strip rest) rows = Some task ->
      PyStr.strip (t_text (fst task)) = PyStr.strip rest)
  /\ (matching_task (PyStr.strip rest) rows = None ->
      forall task, In task rows ->
        PyStr.strip (t_text (fst task)) <> PyStr.strip rest).
Proof.
  unfold matching_task. split.
  - intros task H. apply find_some in H. now apply str_eqb_eq.
  - intros H task Hin Heq. apply (find_none _ _ H) in Hin.
    apply str_eqb_eq in Heq. congruence.
Qed.

Lemma insert_sorted_newest_first (x : task_row * task_recipient_row)
  (l : list (task_row * task_recipient_row)) :
  StronglySorted not_older l ->
  StronglySorted not_older (insert_sorted newest_first x l).
Proof.
  induction 1 as [|a l Hs IH Hall]; cbn.
  - repeat constructor.
  - destruct (newest_first x a) eqn:E; unfold newest_first in E.
    + apply Z.leb_le in E. constructor; [now constructor|].
      constructor; [exact E|].
      apply Forall_forall. intros z Hz.
      rewrite Forall_forall in Hall. specialize (Hall z Hz).
      unfold not_older in *. lia.
    + apply Z.leb_gt in E. constructor; [exact IH|].
      apply Forall_forall. intros z Hz. apply In_insert_sorted in Hz.
      destruct Hz as [->|Hz]; [unfold not_older; lia|].
      rewrite Forall_forall in Hall. now apply Hall.
Qed.

Lemma sort_by_newest_first (l : list (task_row * task_recipient_row)) :
  StronglySorted not_older (sort_by newest_first l).
Proof.
  induction l; cbn; [constructor | now apply insert_sorted_newest_first].
Qed.

Lemma find_first_of_sorted {A} (R : A -> A -> Prop) (p : A -> bool)
  (l : list A) (x : A) :
  (forall a, R a a) -> StronglySorted R l -> find p l = Some x ->
  forall y, In y l -> p y = true -> R x y.
Proof.
  intros Hrefl Hs. induction Hs as [|a l Hs IH Hall]; [discriminate|].
  cbn [find]. destruct (p a) eqn:Hp; intros Hf y Hin Hy.
  - inversion Hf; subst. destruct Hin as [->|Hin]; [apply Hrefl|].
    rewrite Forall_forall in Hall. now apply Hall.
  - destruct Hin as [->|Hin]; [congruence | now apply IH].
Qed.

(** In the text path the accepted task is a most recently created one
    among the open rows of the chat whose trimmed text equals the
    extracted text. *)
Lemma text_reply_prefers_newest (bot : Z) (upd : update) (db db' : database)
  (task_id : Z) :
  handle_message bot upd db = (ReplyAccepted task_id, db') ->
  exists task rest,
    In task (open_rows_for_chat (upd_chat_id upd) db)
    /\ t_id (fst task) = task_id
    /\ PyStr.strip (t_text (fst task)) = PyStr.strip rest
    /\ forall other, In other (open_rows_for_chat (upd_chat_id upd) db) ->
         PyStr.strip (t_text (fst other)) = PyStr.strip rest ->
         t_created_at (fst other) <= t_created_at (fst task).
Proof.
  intros H. apply handle_message_accepted in H.
  destruct H as [task [rest [Hm [Hin [Hid _]]]]].
  exists task, rest. split; [exact Hin|]. split; [exact Hid|].
  split; [now apply (proj1 (matching_task_exact rest _) task Hm)|].
  intros other Hother Htext. unfold matching_task in Hm.
  apply (find_first_of_sorted not_older _ _ task
           ltac:(intros a; unfold not_older; lia)
           (sort_by_newest_first _) Hm other).
  - now apply In_sort_by.
  - now apply str_eqb_eq.
Qed.

(** The two sample stores arise from calls of [create_task] and
    [add_task_recipient] on a store that knows chat 7. *)
Example same_text_twice_reachable :
  exec_all [OpCreateTask no_fault 10 Sample.buy_milk 1;
            OpCreateTask no_fault 20 Sample.buy_milk 1;
            OpAddTaskRecipient no_fault 20 1 7 None;
            OpAddTaskRecipient no_fault 20 2 7 None]
    (Sample.store [Sample.chat 7 "A"] [] []) = Sample.same_text_twice.
Proof. reflexivity. Qed.

Example trailing_blank_reachable :
  exec_all [OpCreateTask no_fault 10 (PyStr.lit "Buy milk ") 1;
            OpAddTaskRecipient no_fault 10 1 7 None]
    (Sample.store [Sample.chat 7 "A"] [] []) = Sample.trailing_blank.
Proof. reflexivity. Qed.

(** C5. Two open tasks of equal text for one chat: the text reply is
    resolved to the most recently created task (task 2), the media reply,
    whose query has no ORDER BY, to the first row of the scan, the older
    task 1. *)
Theorem media_reply_resolves_to_oldest_task :
  fst (handle_message Sample.bot
         (Sample.text_reply 7 (Sample.announcement Sample.buy_milk))
         Sample.same_text_twice) = ReplyAccepted 2
  /\ fst (handle_media_message Sample.bot
            (Sample.photo_reply 7 (Sample.announcement Sample.buy_milk))
            Sample.same_text_twice) = MediaAccepted 1.
Proof. split; vm_compute; reflexivity. Qed.

(** C3. A stored task text with a trailing blank: the text path trims the
    stored text and accepts the reply; the media path compares the stored
    text untrimmed with the trimmed extracted text, finds no task and
    changes nothing.  A text in another letter case matches in neither
    path. *)
Theorem media_reply_compares_untrimmed_stored_text :
  fst (handle_message Sample.bot
         (Sample.text_reply 7 (Sample.announcement (PyStr.lit "Buy milk ")))
         Sample.trailing_blank) = ReplyAccepted 1
  /\ handle_media_message Sample.bot
       (Sample.photo_reply 7 (Sample.announcement (PyStr.lit "Buy milk ")))
       Sample.trailing_blank = (NoActiveTask, Sample.trailing_blank)
  /\ fst (handle_message Sample.bot
            (Sample.text_reply 7 (Sample.announcement (PyStr.lit "buy milk")))
            Sample.one_left) = NoActiveTaskFound [Sample.buy_milk]
  /\ fst (handle_media_message Sample.bot
            (Sample.photo_reply 7 (Sample.announcement (PyStr.lit "buy milk")))
            Sample.one_left) = NoActiveTask.
Proof. repeat split; vm_compute; reflexivity. Qed.

(** ** Status transitions *)

Lemma recipients_evolve_refl l : recipients_evolve l l.
Proof. intros i r H. exists r. tauto. Qed.

Lemma tasks_evolve_refl l : tasks_evolve l l.
Proof. intros i t H. exists t. tauto. Qed.

Lemma recipients_evolve_trans l1 l2 l3 :
  recipients_evolve l1 l2 -> recipients_evolve l2 l3 -> recipients_evolve l1 l3.
Proof.
  intros H12 H23 i r Hr. destruct (H12 i r Hr) as [r2 [Hn2 [Ht2 [Hc2 Hs2]]]].
  destruct (H23 i r2 Hn2) as [r3 [Hn3 [Ht3 [Hc3 Hs3]]]].
  exists r3. split; [exact Hn3|]. split; [congruence|]. split; [congruence|].
  destruct Hs2 as [->|[Hp Hc]]; [exact Hs3|].
  destruct Hs3 as [->|[Hp' _]]; [now right | congruence].
Qed.

Lemma tasks_evolve_trans l1 l2 l3 :
  tasks_evolve l1 l2 -> tasks_evolve l2 l3 -> tasks_evolve l1 l3.
Proof.
  intros H12 H23 i t Ht. destruct (H12 i t Ht) as [t2 [Hn2 [Hi2 Hs2]]].
  destruct (H23 i t2 Hn2) as [t3 [Hn3 [Hi3 Hs3]]].
  exists t3. split; [exact Hn3|]. split; [congruence|].
  destruct Hs2 as [->|[Hp Hc]]; [exact Hs3|].
  destruct Hs3 as [->|[Hp' _]]; [now right | congruence].
Qed.

Lemma steps_refl db : steps db db.
Proof.
  intros H. split; [exact H | apply recipients_evolve_refl
                            | apply tasks_evolve_refl].
Qed.

Lemma steps_trans db1 db2 db3 : steps db1 db2 -> steps db2 db3 -> steps db1 db3.
Proof.
  intros H12 H23 Hwf. destruct (H12 Hwf) as [Hwf2 Hr2 Ht2].
  destruct (H23 Hwf2) as [Hwf3 Hr3 Ht3]. split; [exact Hwf3| |].
  - eapply recipients_evolve_trans; eassumption.
  - eapply tasks_evolve_trans; eassumption.
Qed.

(** A step that leaves both tables as they are. *)
Lemma steps_same_tables db db' :
  task_recipients db' = task_recipients db -> tasks db' = tasks db ->
  steps db db'.
Proof.
  intros Hr Ht [Hw1 Hw2]. split.
  - unfold status_wf. now rewrite Hr, Ht.
  - rewrite Hr. apply recipients_evolve_refl.
  - rewrite Ht. apply tasks_evolve_refl.
Qed.

Lemma steps_update_recipient_status task_id chat db :
  steps db (sql_update_recipient_status "completed" task_id chat db).
Proof.
  intros [Hr Ht]. unfold sql_update_recipient_status. split.
  - split; [|exact Ht]. cbn [task_recipients set_task_recipients].
    apply Forall_map. eapply Forall_impl; [|exact Hr]. intros r Hs.
    destruct ((tr_task_id r =? task_id) && (tr_chat_id r =? chat));
      [now right | exact Hs].
  - cbn [task_recipients set_task_recipients]. intros i r Hi.
    rewrite nth_error_map, Hi. cbn [option_map].
    eexists. split; [reflexivity|].
    rewrite Forall_forall in Hr. specialize (Hr r (nth_error_In _ _ Hi)).
    destruct ((tr_task_id r =? task_id) && (tr_chat_id r =? chat)).
    + cbn. split; [reflexivity|]. split; [reflexivity|].
      destruct Hr as [Hp|Hc]; [now right|left].
      destruct r; cbn in *; now subst.
    + tauto.
  - apply tasks_evolve_refl.
Qed.

Lemma steps_complete_task task_id db : steps db (sql_complete_task task_id db).
Proof.
  intros [Hr Ht]. unfold sql_complete_task. split.
  - split; [exact Hr|]. cbn [tasks set_tasks].
    apply Forall_map. eapply Forall_impl; [|exact Ht]. intros t Hs.
    destruct (t_id t =? task_id); [now right | exact Hs].
  - apply recipients_evolve_refl.
  - cbn [tasks set_tasks]. intros i t Hi.
    rewrite nth_error_map, Hi. cbn [option_map].
    eexists. split; [reflexivity|].
    rewrite Forall_forall in Ht. specialize (Ht t (nth_error_In _ _ Hi)).
    destruct (t_id t =? task_id).
    + cbn. split; [reflexivity|].
      destruct Ht as [Hp|Hc]; [now right|left].
      destruct t; cbn in *; now subst.
    + tauto.
Qed.

Lemma steps_complete_and_recount task_id chat db :
  steps db (complete_and_recount task_id chat db).
Proof.
  unfold complete_and_recount. destruct (stats_equal _).
  - eapply steps_trans; [apply steps_update_recipient_status
                        | apply steps_complete_task].
  - apply steps_update_recipient_status.
Qed.

Lemma recipients_evolve_app l ext : recipients_evolve l (l ++ ext).
Proof.
  intros i r Hi. exists r. split; [|tauto].
  rewrite nth_error_app1; [exact Hi|]. apply nth_error_Some. congruence.
Qed.

Lemma tasks_evolve_app l ext : tasks_evolve l (l ++ ext).
Proof.
  intros i t Hi. exists t. split; [|tauto].
  rewrite nth_error_app1; [exact Hi|]. apply nth_error_Some. congruence.
Qed.

(** *** The statements under a healthy engine *)

Lemma add_task_recipient_healthy now task_id chat group_id db :
  add_task_recipient no_fault now task_id chat group_id db
  = if has_recipient task_id chat db
    then (Raise IntegrityError, db)
    else (Return tt,
          set_task_recipients db
            (task_recipients db ++ [pending_row task_id chat group_id])).
Proof.
  unfold add_task_recipient, execute_query, no_fault, has_recipient.
  cbn [run q_insert_task_recipient]. now destruct (existsb _ _).
Qed.

Lemma chat_id_by_title_healthy now t db :
  execute_query None now (q_chat_id_by_title t) db
  = (Return (Some (map chat_id
               (filter (fun c => PyStr.eqb (title c) t) (chats db)))), db).
Proof. reflexivity. Qed.

Lemma group_id_by_name_healthy now name db :
  execute_query None now (q_group_id_by_name name) db
  = (Return (Some (map cg_id
               (filter (fun g => PyStr.eqb (cg_name g) name)
                  (chat_groups db)))), db).
Proof. reflexivity. Qed.


Lemma insert_task_media_healthy now task_id fid ftype db :
  exists db', execute_query None now (q_insert_task_media task_id fid ftype) db
              = (Return None, db')
    /\ task_recipients db' = task_recipients db /\ tasks db' = tasks db
    /\ chats db' = chats db /\ chat_groups db' = chat_groups db
    /\ group_chats db' = group_chats db.
Proof. eexists. split; [reflexivity|]. now repeat split. Qed.

Lemma get_active_tasks_result fault now db :
  get_active_tasks fault now db = (Return [], db).
Proof. now destruct fault. Qed.

(** *** Every operation steps along permitted transitions *)

Lemma steps_insert_recipient task_id chat group_id db :
  steps db (set_task_recipients db
              (task_recipients db ++ [pending_row task_id chat group_id])).
Proof.
  intros [Hr Ht]. split.
  - split; [|exact Ht]. cbn [task_recipients set_task_recipients].
    apply Forall_app. split; [exact Hr|]. constructor; [now left|constructor].
  - apply recipients_evolve_app.
  - apply tasks_evolve_refl.
Qed.

Lemma steps_insert_task now text user db :
  steps db (snd (execute_query None now (q_insert_task text user) db)).
Proof.
  intros [Hr Ht]. split.
  - split; [exact Hr|]. cbn. apply Forall_app. split; [exact Ht|].
    constructor; [now left|constructor].
  - apply recipients_evolve_refl.
  - apply tasks_evolve_app.
Qed.

Lemma steps_handle_message bot upd db :
  steps db (snd (handle_message bot upd db)).
Proof.
  unfold handle_message.
  repeat match goal with
         | |- context [match ?x with _ => _ end] => destruct x
         end; cbn [snd];
    solve [apply steps_refl | apply steps_complete_and_recount].
Qed.

Lemma steps_handle_media_message bot upd db :
  steps db (snd (handle_media_message bot upd db)).
Proof.
  unfold handle_media_message.
  repeat match goal with
         | |- context [match ?x with _ => _ end] => destruct x
         end; cbn [snd]; try apply steps_refl.
  eapply steps_trans; [|apply steps_complete_and_recount].
  now apply steps_same_tables.
Qed.

Lemma steps_create_task f now text user db :
  steps db (snd (create_task f now text user db)).
Proof.
  unfold create_task.
  destruct (f 0%nat) as [e|] eqn:F0.
  - rewrite execute_query_fault. apply steps_refl.
  - pose proof (steps_insert_task now text user db) as Hs.
    destruct (execute_query None now (q_insert_task text user) db)
      as [[x|e] db1] eqn:E; cbn [snd] in *.
    + destruct (f 1%nat) as [e|]; [now rewrite execute_query_fault|].
      exact Hs.
    + assert (Hdb : db1 = db).
      { change db1 with (snd (Raise (A:=option (list Empty_set)) e, db1)).
        rewrite <- E. apply (execute_query_raise_unchanged _ _ _ _ e).
        now rewrite E. }
      subst db1. apply steps_refl.
Qed.

Lemma steps_add_task_recipient f now task_id chat group_id db :
  steps db (snd (add_task_recipient f now task_id chat group_id db)).
Proof.
  unfold add_task_recipient. destruct (f 0%nat) as [e|] eqn:F0.
  - rewrite execute_query_fault. apply steps_refl.
  - pose proof (add_task_recipient_healthy now task_id chat group_id db) as H.
    unfold add_task_recipient, no_fault in H. rewrite H.
    destruct (has_recipient task_id chat db); cbn [snd];
      [apply steps_refl | apply steps_insert_recipient].
Qed.

(** ** Fan-out *)




Lemma resolve_chats_same titles db db' :
  chats db' = chats db -> resolve_chats titles db' = resolve_chats titles db.
Proof. intros H. unfold resolve_chats, chat_of_title. now rewrite H. Qed.

Lemma resolve_groups_same names db db' :
  same_but_recipients db db' ->
  resolve_groups names db' = resolve_groups names db.
Proof.
  intros [Hc [Hg [Hgc _]]].
  unfold resolve_groups, group_of_name, chats_of_group. now rewrite Hc, Hg, Hgc.
Qed.



Lemma insert_media_files_healthy now task_id media db :
  exists db', insert_media_files now task_id media db = (None, db')
    /\ task_recipients db' = task_recipients db /\ tasks db' = tasks db
    /\ chats db' = chats db /\ chat_groups db' = chat_groups db
    /\ group_chats db' = group_chats db.
Proof.
  revert db. induction media as [|m rest IH]; intros db.
  - exists db. now repeat split.
  - cbn [insert_media_files].
    destruct (insert_task_media_healthy now task_id (fst m) (snd m) db)
      as [db1 [-> [Hr [Ht [Hc [Hg Hgc]]]]]].
    destruct (IH db1) as [db2 [-> [Hr' [Ht' [Hc' [Hg' Hgc']]]]]].
    exists db2. repeat split; congruence.
Qed.

Lemma steps_send_to_chats gw now task_id task_text media group_id targets st :
  steps (fs_db st)
    (fs_db (snd (send_to_chats gw now task_id task_text media group_id
                   targets st))).
Proof.
  revert st. induction targets as [|c rest IH]; intros st; [apply steps_refl|].
  cbn [send_to_chats]. destruct (send_task_to_chat gw c task_text media).
  - rewrite add_task_recipient_healthy.
    destruct (has_recipient task_id c (fs_db st)); [apply steps_refl|].
    eapply steps_trans; [|apply IH]. apply steps_insert_recipient.
  - apply (IH {| fs_db := fs_db st; fs_success := fs_success st;
                 fs_total := fs_total st + 1;
                 fs_attempted := fs_attempted st ++ [c] |}).
Qed.

Lemma steps_fanout_chats gw now task_id task_text media titles st :
  steps (fs_db st)
    (fs_db (snd (fanout_chats gw now task_id task_text media titles st))).
Proof.
  revert st. induction titles as [|t rest IH]; intros st; [apply steps_refl|].
  cbn [fanout_chats]. rewrite chat_id_by_title_healthy.
  destruct (map chat_id _) as [|c cs]; [apply IH|].
  pose proof (steps_send_to_chats gw now task_id task_text media None [c] st)
    as Hs.
  destruct (send_to_chats gw now task_id task_text media None [c] st)
    as [[e|] st1]; cbn [snd] in *; [exact Hs|].
  eapply steps_trans; [exact Hs | apply IH].
Qed.

Lemma steps_fanout_groups gw now task_id task_text media names st :
  steps (fs_db st)
    (fs_db (snd (fanout_groups gw now task_id task_text media names st))).
Proof.
  revert st. induction names as [|n rest IH]; intros st; [apply steps_refl|].
  cbn [fanout_groups]. rewrite group_id_by_name_healthy.
  destruct (map cg_id _) as [|g gs]; [apply IH|].
  destruct (get_group_chats None now g (fs_db st)) as [[rows|e] dbg];
    [|apply steps_refl].
  pose proof (steps_send_to_chats gw now task_id task_text media (Some g)
                (map chat_id rows) st) as Hs.
  destruct (send_to_chats gw now task_id task_text media (Some g)
              (map chat_id rows) st) as [[e|] st1]; cbn [snd] in *;
    [exact Hs|].
  eapply steps_trans; [exact Hs | apply IH].
Qed.

Lemma steps_handle_recipient_selection gw now user message_text ud db :
  steps db (sr_db (handle_recipient_selection gw now user message_text ud db)).
Proof.
  unfold handle_recipient_selection.
  destruct (PyStr.eqb message_text Lit.confirm_button);
    [|destruct (negb _); apply steps_refl].
  destruct (nonempty (ud_task_text ud)) as [task_text|]; [|apply steps_refl].
  rewrite create_task_healthy.
  pose proof (steps_insert_task now task_text user db) as H1.
  set (db1 := snd (execute_query None now (q_insert_task task_text user) db)) in *.
  destruct (insert_media_files_healthy now 0 (ud_media_files ud) db1)
    as [db2 [-> [Hr [Ht _]]]].
  assert (H2 : steps db1 db2) by now apply steps_same_tables.
  assert (H12 : steps db db2) by (eapply steps_trans; eassumption).
  set (st0 := {| fs_db := db2; fs_success := 0; fs_total := 0;
                 fs_attempted := [] |}).
  assert (Hloop : forall loop,
            (loop = fanout_groups \/ loop = fanout_chats) ->
            steps db (fs_db (snd (loop gw now 0 task_text (ud_media_files ud)
                                    (ud_selected_titles ud) st0)))).
  { intros loop [->| ->]; (eapply steps_trans; [exact H12|]).
    - apply (steps_fanout_groups gw now 0 task_text _ _ st0).
    - apply (steps_fanout_chats gw now 0 task_text _ _ st0). }
  match goal with
  | |- context [?l gw now 0 task_text (ud_media_files ud)
                  (ud_selected_titles ud) st0] =>
      assert (Hl : l = fanout_groups \/ l = fanout_chats)
        by (destruct (ud_selection_type ud) as [ty|];
            [destruct (String.eqb ty "group")|]; tauto);
      specialize (Hloop l Hl);
      destruct (l gw now 0 task_text (ud_media_files ud)
                  (ud_selected_titles ud) st0) as [[e|] st]
  end; exact Hloop.
Qed.

Lemma steps_exec op db : steps db (exec op db).
Proof.
  destruct op; cbn [exec].
  - apply steps_handle_message.
  - apply steps_handle_media_message.
  - rewrite update_task_status_raises. apply steps_refl.
  - apply steps_create_task.
  - apply steps_add_task_recipient.
  - rewrite get_active_tasks_result. apply steps_refl.
  - apply steps_handle_recipient_selection.
Qed.

(** C7. Along every sequence of operations on a store whose statuses are
    the values of their columns, every recipient row keeps its key and is
    either unchanged or has gone from pending to completed, every task row
    keeps its id and is either unchanged or has gone from active to
    completed; a row that is completed stays completed. *)
Theorem status_transitions_are_one_way (ops : list operation) (db : database) :
  status_wf db ->
  status_wf (exec_all ops db)
  /\ recipients_evolve (task_recipients db) (task_recipients (exec_all ops db))
  /\ tasks_evolve (tasks db) (tasks (exec_all ops db))
  /\ (forall i r, nth_error (task_recipients db) i = Some r ->
        tr_status r = "completed"%string ->
        nth_error (task_recipients (exec_all ops db)) i = Some r)
  /\ (forall i t, nth_error (tasks db) i = Some t ->
        t_status t = "completed"%string ->
        nth_error (tasks (exec_all ops db)) i = Some t).
Proof.
  intros Hwf.
  assert (Hs : steps db (exec_all ops db)).
  { clear Hwf. revert db. induction ops as [|op ops IH]; intros db;
      [apply steps_refl|].
    cbn. eapply steps_trans; [apply steps_exec | apply IH]. }
  destruct (Hs Hwf) as [Hwf' Hr Ht].
  split; [exact Hwf'|]. split; [exact Hr|]. split; [exact Ht|]. split.
  - intros i r Hi Hc. destruct (Hr i r Hi) as [r' [Hn [_ [_ [->|[Hp _]]]]]];
      [exact Hn | congruence].
  - intros i t Hi Hc. destruct (Ht i t Hi) as [t' [Hn [_ [->|[Hp _]]]]];
      [exact Hn | congruence].
Qed.

Lemma status_transitions_witness :
  status_wf Sample.one_left
  /\ nth_error
       (task_recipients
          (exec_all
             [OpTextReply Sample.bot
                (Sample.text_reply 7 (Sample.announcement Sample.buy_milk));
              OpUpdateTaskStatus 1 8 "pending";
              OpAddTaskRecipient no_fault 0 1 9 None]
             Sample.one_left)) 1
     = Some (Sample.recipient 1 8 "completed").
Proof.
  assert (Hwf : status_wf Sample.one_left).
  { split; repeat constructor; cbn; tauto. }
  split; [exact Hwf|].
  apply (proj1 (proj2 (proj2 (proj2
    (status_transitions_are_one_way
       [OpTextReply Sample.bot
          (Sample.text_reply 7 (Sample.announcement Sample.buy_milk));
        OpUpdateTaskStatus 1 8 "pending";
        OpAddTaskRecipient no_fault 0 1 9 None]
       Sample.one_left Hwf))))); reflexivity.
Defined.

(** ** The delivery report *)

Lemma resolve_targets_same ud db db' :
  same_but_recipients db db' ->
  resolve_targets ud db' = resolve_targets ud db.
Proof.
  intros H. unfold resolve_targets.
  destruct (ud_selection_type ud) as [ty|];
    [destruct (String.eqb ty "group")|];
    try apply (resolve_groups_same _ _ _ H);
    apply resolve_chats_same; apply H.
Qed.




(** * Navigation and the conversation *)

Lemma add_to_history_state (s : session) (st : string) :
  s_state (add_to_history s st) = s_state s.
Proof. unfold add_to_history. now destruct (session_is_empty s). Qed.

Lemma set_state_not_empty (s : session) (st : string) :
  session_is_empty (set_state s st) = false.
Proof. reflexivity. Qed.

Lemma set_navigation_history_not_empty (s : session) (h : list string) :
  session_is_empty (set_navigation_history s h) = false.
Proof.
  unfold session_is_empty, set_navigation_history. cbn.
  now destruct (s_state s).
Qed.

Lemma last_n_length {A} (n : nat) (h : list A) :
  (List.length (last_n n h) <= n)%nat.
Proof. unfold last_n. rewrite length_skipn. lia. Qed.

Lemma rev_skipn_head {A} (k : nat) (h : list A) (x : A) (r : list A) :
  rev h = x :: r -> (k < List.length h)%nat ->
  exists r', rev (skipn k h) = x :: r'.
Proof.
  intros Hrev Hk.
  assert (Hh : h = rev r ++ [x]).
  { rewrite <- (rev_involutive h), Hrev. reflexivity. }
  subst h. rewrite length_app in Hk. cbn in Hk.
  rewrite skipn_app.
  replace (k - List.length (rev r))%nat with 0%nat by lia. cbn [skipn].
  rewrite rev_app_distr. cbn. eauto.
Qed.

Lemma add_to_history_pushed (s : session) (st : string) :
  session_is_empty s = false ->
  add_to_history s st
  = set_navigation_history s
      (pushed (match s_navigation_history s with Some h => h | None => [] end)
         st).
Proof. intros H. unfold add_to_history. now rewrite H. Qed.

Lemma pushed_last (h0 : list string) (st : string) :
  exists r, rev (pushed h0 st) = st :: r.
Proof.
  unfold pushed.
  set (h1 := match rev h0 with
             | [] => h0 ++ [st]
             | latest :: _ => if String.eqb latest st then h0 else h0 ++ [st]
             end).
  assert (H1 : exists r, rev h1 = st :: r).
  { subst h1. destruct (rev h0) as [|latest r0] eqn:Hr.
    - rewrite rev_app_distr. cbn. eauto.
    - destruct (String.eqb latest st) eqn:E.
      + apply String.eqb_eq in E. subst. rewrite Hr. eauto.
      + rewrite rev_app_distr. cbn. eauto. }
  destruct H1 as [r Hr].
  destruct (10 <? List.length h1)%nat eqn:E; [|eauto].
  apply Nat.ltb_lt in E. unfold last_n.
  apply (rev_skipn_head _ _ _ _ Hr). lia.
Qed.

Lemma pushed_length (h0 : list string) (st : string) :
  (List.length (pushed h0 st) <= 10)%nat.
Proof.
  unfold pushed. destruct (10 <? _)%nat eqn:E.
  - apply last_n_length.
  - now apply Nat.ltb_ge in E.
Qed.

Lemma add_to_history_last (s : session) (st : string) :
  session_is_empty s = false -> get_last_state (add_to_history s st) = st.
Proof.
  intros H. rewrite (add_to_history_pushed s st H).
  unfold get_last_state, set_navigation_history. cbn.
  destruct (pushed_last
              (match s_navigation_history s with Some h => h | None => [] end)
              st) as [r Hr].
  now rewrite Hr.
Qed.

Lemma add_to_history_keeps (s : session) (st : string) :
  let s' := add_to_history s st in
  s_state s' = s_state s /\ s_task_text s' = s_task_text s
  /\ s_media_files s' = s_media_files s
  /\ s_selected_titles s' = s_selected_titles s
  /\ s_selection_type s' = s_selection_type s
  /\ s_current_group_id s' = s_current_group_id s
  /\ s_selected_chats s' = s_selected_chats s.
Proof.
  cbv zeta. unfold add_to_history.
  destruct (session_is_empty s); now repeat split.
Qed.

(** X1. On a conversation state that holds any key, [add_to_history] makes
    the given state the last entry of the history, keeps at most ten
    entries and touches no other key; so [get_last_state] then returns
    that state. *)
Theorem add_to_history_records_state (s : session) (st : string) :
  session_is_empty s = false ->
  let s' := add_to_history s st in
  get_last_state s' = st
  /\ (exists h, s_navigation_history s' = Some h
                /\ (List.length h <= 10)%nat)
  /\ s_state s' = s_state s /\ s_task_text s' = s_task_text s
  /\ s_media_files s' = s_media_files s
  /\ s_selected_titles s' = s_selected_titles s
  /\ s_selection_type s' = s_selection_type s
  /\ s_current_group_id s' = s_current_group_id s
  /\ s_selected_chats s' = s_selected_chats s.
Proof.
  intros H s'. subst s'.
  split; [now apply add_to_history_last|].
  split; [|apply add_to_history_keeps].
  rewrite (add_to_history_pushed s st H).
  eexists. split; [reflexivity | apply pushed_length].
Qed.

Lemma add_to_history_records_state_witness :
  get_last_state
    (add_to_history
       (set_navigation_history (set_state empty_session "settings")
          ["a"; "b"; "c"; "d"; "e"; "f"; "g"; "h"; "i"; "j"]%string)
       "settings") = "settings"%string.
Proof.
  apply (add_to_history_records_state
           (set_navigation_history (set_state empty_session "settings")
              ["a"; "b"; "c"; "d"; "e"; "f"; "g"; "h"; "i"; "j"]%string)
           "settings" eq_refl).
Defined.

(** X2. Recording the same state twice in a row is the same as recording
    it once, and on a conversation state without any key nothing is
    recorded at all. *)
Theorem add_to_history_idempotent (s : session) (st : string) :
  add_to_history (add_to_history s st) st = add_to_history s st
  /\ add_to_history empty_session st = empty_session.
Proof.
  split; [|reflexivity].
  destruct (session_is_empty s) eqn:He.
  - unfold add_to_history. now rewrite !He.
  - rewrite (add_to_history_pushed s st He).
    set (h := pushed _ st).
    rewrite add_to_history_pushed;
      [|apply set_navigation_history_not_empty].
    cbn [s_navigation_history set_navigation_history].
    unfold set_navigation_history. cbn. f_equal. f_equal.
    subst h. set (h0 := match s_navigation_history s with
                        | Some h => h | None => [] end).
    destruct (pushed_last h0 st) as [r Hr].
    pose proof (pushed_length h0 st) as Hl.
    unfold pushed at 1. rewrite Hr, String.eqb_refl.
    destruct (10 <? List.length (pushed h0 st))%nat eqn:E; [|reflexivity].
    apply Nat.ltb_lt in E. lia.
Qed.

Lemma get_previous_state_values (st : string) :
  get_previous_state st = "main_menu"%string
  \/ get_previous_state st = "awaiting_task_text"%string
  \/ get_previous_state st = "choosing_recipient_type"%string
  \/ get_previous_state st = "creating_chat_group"%string.
Proof.
  unfold get_previous_state.
  repeat match goal with
         | |- context [if String.eqb st ?c then _ else _] =>
             destruct (String.eqb st c)
         end; tauto.
Qed.

Lemma get_previous_state_thrice (st : string) :
  get_previous_state (get_previous_state (get_previous_state st))
  = "main_menu"%string.
Proof.
  destruct (get_previous_state_values st) as [H|[H|[H|H]]]; now rewrite H.
Qed.

Lemma state_or_main_clear (s : session) :
  s_state (clear_user_state s) = s_state s
  /\ s_navigation_history (clear_user_state s) = s_navigation_history s.
Proof. unfold clear_user_state. now destruct (session_is_empty s). Qed.

(** The session [handle_back_button] builds before it shows a screen. *)
Lemma back_session_fields (s : session) (st prev : string) :
  s_state s = Some st ->
  let s3 := add_to_history (set_state (clear_user_state s) prev) prev in
  s_state s3 = Some prev /\ get_last_state s3 = prev
  /\ s_task_text s3 = None /\ s_media_files s3 = None
  /\ s_selected_titles s3 = None /\ s_selection_type s3 = None
  /\ s_current_group_id s3 = None /\ s_selected_chats s3 = None.
Proof.
  intros Hst s3.
  assert (Hne : session_is_empty s = false).
  { unfold session_is_empty. now rewrite Hst. }
  pose proof (add_to_history_last (set_state (clear_user_state s) prev) prev
                (set_state_not_empty _ _)) as Hl.
  destruct (add_to_history_keeps (set_state (clear_user_state s) prev) prev)
    as [H1 [H2 [H3 [H4 [H5 [H6 H7]]]]]].
  fold s3 in Hl, H1, H2, H3, H4, H5, H6, H7.
  unfold clear_user_state in H2, H3, H4, H5, H6, H7.
  rewrite Hne in H2, H3, H4, H5, H6, H7. cbn in *. tauto.
Qed.

(** The session after Back, for the administrator in a state other than
    the main menu. *)
Lemma back_button_fields (admin now : Z) (s : session) (db : database) :
  state_or_main s <> "main_menu"%string ->
  let s' := snd (handle_back_button admin admin now s db) in
  s_state s' = Some (get_previous_state (state_or_main s))
  /\ get_last_state s' = get_previous_state (state_or_main s)
  /\ s_task_text s' = None /\ s_media_files s' = None
  /\ s_selected_titles s' = None /\ s_selection_type s' = None
  /\ s_current_group_id s' = None /\ s_selected_chats s' = None.
Proof.
  intros Hmain s'. subst s'. unfold handle_back_button.
  rewrite Z.eqb_refl. cbn [negb]. fold (state_or_main s).
  destruct (String.eqb (state_or_main s) "main_menu") eqn:E;
    [apply String.eqb_eq in E; contradiction|].
  destruct (s_state s) as [st|] eqn:Hst;
    [|unfold state_or_main in Hmain; rewrite Hst in Hmain; contradiction].
  assert (Hsm : state_or_main s = st) by (unfold state_or_main; now rewrite Hst).
  rewrite Hsm.
  pose proof (back_session_fields s st (get_previous_state st) Hst) as Hf.
  cbv zeta in Hf.
  destruct (get_previous_state_values st) as [H|[H|[H|H]]];
    rewrite H in *; cbn [String.eqb Ascii.eqb Bool.eqb snd]; try exact Hf.
  unfold start_create_chat_group. rewrite Z.eqb_refl. cbn [negb snd].
  set (s3 := add_to_history
               (set_state (clear_user_state s) "creating_chat_group")
               "creating_chat_group") in *.
  pose proof (add_to_history_last
                (set_state s3 "creating_chat_group") "creating_chat_group"
                (set_state_not_empty _ _)) as Hl.
  destruct (add_to_history_keeps
              (set_state s3 "creating_chat_group") "creating_chat_group")
    as [H1 [H2 [H3 [H4 [H5 [H6 H7]]]]]].
  rewrite Hl, H1, H2, H3, H4, H5, H6, H7. cbn. tauto.
Qed.

(** X3. For the administrator in any state but the main menu, Back moves
    the conversation to the predecessor of its state in the hierarchy,
    records that state as the last entry of the history, and drops the
    task text, the attached files, the selection and the group being
    filled. *)
Theorem back_button_returns_and_clears
  (admin now : Z) (s : session) (db : database) :
  state_or_main s <> "main_menu"%string ->
  let s' := snd (handle_back_button admin admin now s db) in
  s_state s' = Some (get_previous_state (state_or_main s))
  /\ get_last_state s' = get_previous_state (state_or_main s)
  /\ s_task_text s' = None /\ s_media_files s' = None
  /\ s_selected_titles s' = None /\ s_selection_type s' = None
  /\ s_current_group_id s' = None /\ s_selected_chats s' = None.
Proof. exact (back_button_fields admin now s db). Qed.

Lemma back_button_witness :
  s_state
    (snd (handle_back_button 1 1 0
            {| s_state := Some "selecting_recipients"%string;
               s_navigation_history := Some ["main_menu"%string];
               s_task_text := Some Sample.buy_milk;
               s_media_files := None; s_selected_titles := Some [];
               s_selection_type := Some "chat"%string;
               s_current_group_id := None; s_selected_chats := None |}
            empty_database)) = Some "choosing_recipient_type"%string.
Proof.
  apply (back_button_returns_and_clears 1 0
           {| s_state := Some "selecting_recipients"%string;
              s_navigation_history := Some ["main_menu"%string];
              s_task_text := Some Sample.buy_milk;
              s_media_files := None; s_selected_titles := Some [];
              s_selection_type := Some "chat"%string;
              s_current_group_id := None; s_selected_chats := None |}
           empty_database).
  discriminate.
Defined.

Lemma back_state (admin now : Z) (s : session) (db : database) :
  state_or_main (snd (handle_back_button admin admin now s db))
  = get_previous_state (state_or_main s).
Proof.
  destruct (String.eqb (state_or_main s) "main_menu") eqn:E.
  - unfold handle_back_button. rewrite Z.eqb_refl. cbn [negb].
    fold (state_or_main s). rewrite E. cbn [snd].
    apply String.eqb_eq in E. now rewrite E.
  - apply String.eqb_neq in E.
    destruct (back_button_fields admin now s db E) as [H _].
    unfold state_or_main at 1. now rewrite H.
Qed.

(** X4. Pressed three times by the administrator, Back leads to the main
    menu from every state; pressed by anyone else it changes nothing and
    answers nothing. *)
Theorem back_button_reaches_main_menu
  (admin user n1 n2 n3 : Z) (s : session) (d1 d2 d3 : database) :
  state_or_main
    (snd (handle_back_button admin admin n3
            (snd (handle_back_button admin admin n2
                    (snd (handle_back_button admin admin n1 s d1)) d2)) d3))
  = "main_menu"%string
  /\ (if user =? admin then True
      else handle_back_button admin user n1 s d1 = (Silent, s)).
Proof.
  split.
  - rewrite !back_state. apply get_previous_state_thrice.
  - unfold handle_back_button. now destruct (user =? admin).
Qed.

(** * The bot on a new database *)

Lemma flat_map_nil {A B} (f : A -> list B) (l : list A) :
  (forall x, In x l -> f x = []) -> flat_map f l = [].
Proof.
  induction l as [|a l IH]; intros H; [reflexivity|].
  cbn. rewrite (H a (or_introl eq_refl)). apply IH.
  intros x Hx. apply H. now right.
Qed.

Lemma no_open_rows (chat : Z) (db : database) :
  store_invariant db -> open_rows_for_chat chat db = [].
Proof.
  intros [Hr [Ht _]]. unfold open_rows_for_chat.
  apply flat_map_nil. intros r Hin.
  rewrite Forall_forall in Hr, Ht. destruct (Hr r Hin) as [Hid _].
  destruct ((tr_chat_id r =? chat)
            && negb (String.eqb (tr_status r) "completed")); [|reflexivity].
  rewrite filter_none; [reflexivity|].
  intros t Hin'. destruct (Ht t Hin') as [Hpos _].
  rewrite Hid. apply andb_false_iff. left. apply Z.eqb_neq. lia.
Qed.

Lemma handle_message_no_open_rows (bot : Z) (upd : update) (db : database) :
  open_rows_for_chat (upd_chat_id upd) db = [] ->
  snd (handle_message bot upd db) = db
  /\ forall task_id, fst (handle_message bot upd db) <> ReplyAccepted task_id.
Proof.
  intros H. unfold handle_message, active_tasks_for_chat. rewrite H. cbn.
  repeat match goal with
         | |- context [match ?x with _ => _ end] => destruct x
         end; cbn; split; try reflexivity; intros; discriminate.
Qed.

Lemma handle_media_message_no_open_rows (bot : Z) (upd : update)
  (db : database) :
  open_rows_for_chat (upd_chat_id upd) db = [] ->
  snd (handle_media_message bot upd db) = db
  /\ forall task_id,
       fst (handle_media_message bot upd db) <> MediaAccepted task_id.
Proof.
  intros H. unfold handle_media_message, find_task_for_media. rewrite H. cbn.
  repeat match goal with
         | |- context [match ?x with _ => _ end] => destruct x
         end; cbn; split; try reflexivity; intros; discriminate.
Qed.

Lemma registers_under_refl task_id db : registers_under task_id db db.
Proof.
  split; [now repeat split|]. split; [reflexivity|].
  exists []. now rewrite app_nil_r.
Qed.

Lemma registers_under_trans task_id db1 db2 db3 :
  registers_under task_id db1 db2 -> registers_under task_id db2 db3 ->
  registers_under task_id db1 db3.
Proof.
  intros [S1 [Q1 [e1 [E1 F1]]]] [S2 [Q2 [e2 [E2 F2]]]].
  split; [unfold same_but_recipients in *; intuition congruence|].
  split; [congruence|].
  exists (e1 ++ e2). split; [now rewrite E2, E1, app_assoc|].
  apply Forall_app. now split.
Qed.

Lemma registers_under_insert task_id chat group_id db :
  registers_under task_id db
    (set_task_recipients db
       (task_recipients db ++ [pending_row task_id chat group_id])).
Proof.
  split; [now repeat split|]. split; [reflexivity|].
  eexists. split; [reflexivity|]. now repeat constructor.
Qed.

Lemma send_to_chats_registers gw now task_id task_text media group_id
  targets st :
  registers_under task_id (fs_db st)
    (fs_db (snd (send_to_chats gw now task_id task_text media group_id
                   targets st))).
Proof.
  revert st. induction targets as [|c rest IH]; intros st;
    [apply registers_under_refl|].
  cbn [send_to_chats]. destruct (send_task_to_chat gw c task_text media).
  - rewrite add_task_recipient_healthy.
    destruct (has_recipient task_id c (fs_db st));
      [apply registers_under_refl|].
    eapply registers_under_trans; [|apply IH].
    apply registers_under_insert.
  - apply (IH {| fs_db := fs_db st; fs_success := fs_success st;
                 fs_total := fs_total st + 1;
                 fs_attempted := fs_attempted st ++ [c] |}).
Qed.

Lemma fanout_chats_registers gw now task_id task_text media titles st :
  registers_under task_id (fs_db st)
    (fs_db (snd (fanout_chats gw now task_id task_text media titles st))).
Proof.
  revert st. induction titles as [|t rest IH]; intros st;
    [apply registers_under_refl|].
  cbn [fanout_chats]. rewrite chat_id_by_title_healthy.
  destruct (map chat_id _) as [|c cs]; [apply IH|].
  pose proof (send_to_chats_registers gw now task_id task_text media None
                [c] st) as Hs.
  destruct (send_to_chats gw now task_id task_text media None [c] st)
    as [[e|] st1]; cbn [snd] in *; [exact Hs|].
  eapply registers_under_trans; [exact Hs | apply IH].
Qed.

Lemma fanout_groups_registers gw now task_id task_text media names st :
  registers_under task_id (fs_db st)
    (fs_db (snd (fanout_groups gw now task_id task_text media names st))).
Proof.
  revert st. induction names as [|n rest IH]; intros st;
    [apply registers_under_refl|].
  cbn [fanout_groups]. rewrite group_id_by_name_healthy.
  destruct (map cg_id _) as [|g gs]; [apply IH|].
  destruct (get_group_chats None now g (fs_db st)) as [[rows|e] dbg];
    [|apply registers_under_refl].
  pose proof (send_to_chats_registers gw now task_id task_text media (Some g)
                (map chat_id rows) st) as Hs.
  destruct (send_to_chats gw now task_id task_text media (Some g)
              (map chat_id rows) st) as [[e|] st1]; cbn [snd] in *;
    [exact Hs|].
  eapply registers_under_trans; [exact Hs | apply IH].
Qed.

Lemma selection_effect_refl db : selection_effect db db.
Proof.
  repeat split; try reflexivity; [now left|].
  exists []. now rewrite app_nil_r.
Qed.

Lemma insert_media_files_frame now task_id media db :
  exists db', insert_media_files now task_id media db = (None, db')
    /\ tasks_seq db' = tasks_seq db
    /\ task_recipients db' = task_recipients db /\ tasks db' = tasks db
    /\ chats db' = chats db /\ chat_groups db' = chat_groups db
    /\ group_chats db' = group_chats db.
Proof.
  revert db. induction media as [|m rest IH]; intros db.
  - exists db. now repeat split.
  - cbn [insert_media_files].
    change (execute_query None now
              (q_insert_task_media task_id (fst m) (snd m)) db)
      with (Return (A:=option (list Empty_set)) None,
            {| chats := chats db; chat_groups := chat_groups db;
               group_chats := group_chats db;
               tasks := tasks db; tasks_seq := tasks_seq db;
               task_recipients := task_recipients db;
               task_media := task_media db ++
                 [{| tm_task_id := task_id; tm_file_id := fst m;
                     tm_file_type := snd m |}];
               response_media := response_media db |}).
    cbv iota beta.
    match goal with
    | |- context [insert_media_files now task_id rest ?d] =>
        destruct (IH d) as [db2 [-> H]]
    end.
    exists db2. cbn in H. split; [reflexivity | exact H].
Qed.

Lemma handle_recipient_selection_effect
  (gw : gateway) (now user : Z) (message_text : str) (ud : user_data)
  (db : database) :
  selection_effect db
    (sr_db (handle_recipient_selection gw now user message_text ud db)).
Proof.
  unfold handle_recipient_selection.
  destruct (PyStr.eqb message_text Lit.confirm_button);
    [|destruct (negb _); apply selection_effect_refl].
  destruct (nonempty (ud_task_text ud)) as [task_text|];
    [|apply selection_effect_refl].
  rewrite create_task_healthy.
  set (db1 := snd (execute_query None now (q_insert_task task_text user) db)).
  destruct (insert_media_files_frame now 0 (ud_media_files ud) db1)
    as [db2 [-> [Hq [Hr [Ht [Hc [Hg Hgc]]]]]]].
  set (st0 := {| fs_db := db2; fs_success := 0; fs_total := 0;
                 fs_attempted := [] |}).
  assert (Hfin : forall db3, registers_under 0 db2 db3 ->
                             selection_effect db db3).
  { intros db3 [[Sc [Sg [Sgc [St _]]]] [Sq [ext [He Hf]]]].
    unfold selection_effect.
    rewrite Sc, Sg, Sgc, St, Sq, He, Hc, Hg, Hgc, Ht, Hq, Hr.
    split; [reflexivity|]. split; [reflexivity|]. split; [reflexivity|].
    split; [|now exists ext].
    right. eexists. split; [reflexivity|]. now repeat split. }
  assert (Hloop : forall loop,
            (loop = fanout_groups \/ loop = fanout_chats) ->
            selection_effect db
              (fs_db (snd (loop gw now 0 task_text (ud_media_files ud)
                             (ud_selected_titles ud) st0)))).
  { intros loop [->| ->]; apply Hfin.
    - apply (fanout_groups_registers gw now 0 task_text _ _ st0).
    - apply (fanout_chats_registers gw now 0 task_text _ _ st0). }
  match goal with
  | |- context [?l gw now 0 task_text (ud_media_files ud)
                  (ud_selected_titles ud) st0] =>
      assert (Hl : l = fanout_groups \/ l = fanout_chats)
        by (destruct (ud_selection_type ud) as [ty|];
            [destruct (String.eqb ty "group")|]; tauto);
      specialize (Hloop l Hl);
      destruct (l gw now 0 task_text (ud_media_files ud)
                  (ud_selected_titles ud) st0) as [[e|] st]
  end; exact Hloop.
Qed.


Lemma store_invariant_same db db' :
  same_tracking db db' -> store_invariant db -> store_invariant db'.
Proof.
  intros [Hr [Ht [Hq Hg]]]. unfold store_invariant. now rewrite Hr, Ht, Hq, Hg.
Qed.

Lemma same_tracking_refl db : same_tracking db db.
Proof. now repeat split. Qed.

Lemma store_invariant_selection db db' :
  selection_effect db db' -> store_invariant db -> store_invariant db'.
Proof.
  intros [_ [_ [Hgc [Ht [ext [He Hf]]]]]] [Ir [It [Iq Ig]]].
  unfold store_invariant. rewrite He, Hgc.
  split; [apply Forall_app; now split|].
  destruct Ht as [[Ht Hq]|[t [Ht [Hid [Hs Hq]]]]]; rewrite Ht, Hq.
  - now repeat split.
  - split; [|split; [lia | exact Ig]].
    apply Forall_app. split; [exact It|].
    constructor; [split; [lia | exact Hs] | constructor].
Qed.

Lemma no_group_id_empty : no_group_id empty_session.
Proof. now left. Qed.

Lemma no_group_id_set_state s st : no_group_id s -> no_group_id (set_state s st).
Proof. exact (fun H => H). Qed.

Lemma no_group_id_add_to_history s st :
  no_group_id s -> no_group_id (add_to_history s st).
Proof.
  unfold add_to_history. now destruct (session_is_empty s).
Qed.

Lemma no_group_id_clear s : no_group_id s -> no_group_id (clear_user_state s).
Proof.
  unfold clear_user_state. destruct (session_is_empty s); [easy|]. now left.
Qed.

Lemma no_group_id_start_create admin user s :
  no_group_id s -> no_group_id (snd (start_create_chat_group admin user s)).
Proof.
  intros H. unfold start_create_chat_group.
  destruct (negb (user =? admin)); cbn [snd]; [exact H|].
  now apply no_group_id_add_to_history, no_group_id_set_state.
Qed.

Lemma no_group_id_back admin user now s db :
  no_group_id s -> no_group_id (snd (handle_back_button admin user now s db)).
Proof.
  intros H. unfold handle_back_button.
  assert (H3 : forall st,
            no_group_id (add_to_history (set_state (clear_user_state s) st) st)).
  { intros st. now apply no_group_id_add_to_history, no_group_id_set_state,
      no_group_id_clear. }
  repeat match goal with
         | |- context [if ?c then _ else _] => destruct c
         end; cbn [snd]; try exact H; try apply H3;
    now apply no_group_id_start_create.
Qed.

Lemma no_group_id_task_text admin user text s :
  no_group_id s -> no_group_id (snd (handle_task_text admin user text s)).
Proof.
  intros H. unfold handle_task_text.
  repeat match goal with
         | |- context [if ?c then _ else _] => destruct c
         end; cbn [snd]; try exact H; now left.
Qed.

Lemma no_group_id_recipient_type admin user now choice s db :
  no_group_id s ->
  no_group_id (snd (handle_recipient_type admin user now choice s db)).
Proof.
  intros H. unfold handle_recipient_type.
  repeat match goal with
         | |- context [if ?c then _ else _] => destruct c
         | |- context [match ?x with _ => _ end] => destruct x
         end; cbn [snd]; try exact H; now left.
Qed.

Lemma no_group_id_after_selection s res :
  no_group_id s -> no_group_id (session_after_selection s res).
Proof.
  intros H. unfold session_after_selection.
  destruct (sr_outcome res); try exact H. now left.
Qed.

Lemma last_insert_rowid_healthy now db :
  execute_query None now q_last_insert_rowid db = (Return (Some [0]), db).
Proof. reflexivity. Qed.

Lemma chats_by_title_healthy now db :
  exists rows,
    execute_query None now q_chats_by_title db = (Return (Some rows), db).
Proof. eexists. reflexivity. Qed.

Lemma insert_chat_group_healthy now name db :
  same_tracking db
    (snd (execute_query None now (q_insert_chat_group name) db))
  /\ chats (snd (execute_query None now (q_insert_chat_group name) db))
     = chats db.
Proof.
  unfold execute_query. cbn [run q_insert_chat_group].
  destruct (existsb _ _); cbn; now repeat split.
Qed.

Lemma group_name_invariant admin user now group_name s db :
  no_group_id s ->
  let '(_, s', db') := handle_group_name admin user now group_name s db in
  no_group_id s' /\ same_tracking db db'.
Proof.
  intros H. unfold handle_group_name.
  destruct (negb (user =? admin)); [split; [exact H | apply same_tracking_refl]|].
  destruct (PyStr.eqb group_name Lit.back_button).
  { pose proof (no_group_id_back admin user now s db H) as Hb.
    destruct (handle_back_button admin user now s db) as [r s'].
    split; [exact Hb | apply same_tracking_refl]. }
  rewrite group_id_by_name_healthy.
  destruct (map cg_id _) as [|g gs];
    [|split; [exact H | apply same_tracking_refl]].
  pose proof (insert_chat_group_healthy now group_name db) as [Hsame _].
  destruct (execute_query None now (q_insert_chat_group group_name) db)
    as [[x|e] db1]; cbn [snd] in Hsame; [|now split].
  rewrite last_insert_rowid_healthy.
  destruct (chats_by_title_healthy now db1) as [rows ->].
  destruct rows; (split; [now right | exact Hsame]).
Qed.

Lemma chat_selection_for_group_not_found admin now text s db :
  no_group_id s ->
  handle_chat_selection_for_group admin admin now text s db
  = (GroupNotFound, s, db).
Proof.
  intros [H|H]; unfold handle_chat_selection_for_group;
    rewrite Z.eqb_refl, H; reflexivity.
Qed.

Lemma chat_selection_for_group_invariant admin user now text s db :
  no_group_id s ->
  handle_chat_selection_for_group admin user now text s db
  = (fst (fst (handle_chat_selection_for_group admin user now text s db)),
     s, db).
Proof.
  intros [H|H]; unfold handle_chat_selection_for_group;
    destruct (negb (user =? admin)); rewrite ?H; reflexivity.
Qed.

Lemma menu_message_invariant admin gw now user text s db :
  store_invariant db -> no_group_id s ->
  let '(_, s', db') := handle_menu_message admin gw now user text s db in
  store_invariant db' /\ no_group_id s'.
Proof.
  intros Hd Hs. unfold handle_menu_message.
  destruct (negb (user =? admin)); [now split|].
  destruct (_ || _).
  { pose proof (no_group_id_back admin user now s db Hs) as Hb.
    destruct (handle_back_button admin user now s db) as [r s']. now split. }
  destruct (match s_state s with
            | Some st => String.eqb st "awaiting_task_text"
            | None => false end).
  { pose proof (no_group_id_task_text admin user text s Hs) as Hb.
    destruct (handle_task_text admin user text s) as [r s']. now split. }
  destruct (match s_state s with
            | Some st => String.eqb st "choosing_recipient_type"
            | None => false end).
  { pose proof (no_group_id_recipient_type admin user now text s db Hs) as Hb.
    destruct (handle_recipient_type admin user now text s db) as [r s'].
    now split. }
  destruct (match s_state s with
            | Some st => String.eqb st "selecting_recipients"
            | None => false end).
  { cbv zeta. split.
    - eapply store_invariant_selection;
        [apply handle_recipient_selection_effect|].
      exact Hd.
    - now apply no_group_id_after_selection. }
  destruct (match s_state s with
            | Some st => String.eqb st "creating_chat_group"
            | None => false end).
  { pose proof (group_name_invariant admin user now text s db Hs) as Hg.
    destruct (handle_group_name admin user now text s db) as [[r s'] db'].
    destruct Hg as [Hg1 Hg2]. split; [|exact Hg1].
    now apply (store_invariant_same db db'). }
  destruct (match s_state s with
            | Some st => String.eqb st "adding_chats_to_group"
            | None => false end).
  { rewrite (chat_selection_for_group_invariant admin user now text s db Hs).
    now split. }
  pose proof (no_group_id_add_to_history _ "awaiting_task_text"
                (no_group_id_set_state s "awaiting_task_text" Hs)) as Hn.
  assert (Hn' : no_group_id
                  (snd (start_new_task admin user
                          (add_to_history (set_state s "awaiting_task_text")
                             "awaiting_task_text")))).
  { unfold start_new_task. destruct (negb (user =? admin)); exact Hn. }
  pose proof (no_group_id_start_create admin user s Hs) as Hc.
  destruct (start_new_task admin user _) as [rn sn].
  destruct (start_create_chat_group admin user s) as [rc sc].
  cbn [snd] in Hn', Hc.
  repeat match goal with
         | |- context [if ?c then _ else _] => destruct c
         end;
    cbv beta iota; (split; [exact Hd|]);
    first [ exact Hs | exact Hn' | exact Hc
          | apply no_group_id_add_to_history, no_group_id_set_state;
            first [exact Hs | apply no_group_id_empty] ].
Qed.

Lemma add_chat_command_tracking admin f now user chat chat_title chat_type db :
  same_tracking db
    (snd (add_chat_command admin f now user chat chat_title chat_type db)).
Proof.
  unfold add_chat_command.
  destruct (negb (user =? admin)); [apply same_tracking_refl|].
  unfold execute_query. destruct (f 0%nat); [apply same_tracking_refl|].
  cbn [run q_chat_by_id].
  change (is_select (sql (q_chat_by_id chat))) with true. cbv iota.
  destruct (map chat_id _); [|apply same_tracking_refl].
  destruct (f 1%nat); [apply same_tracking_refl|].
  cbn [run q_insert_chat]. destruct (existsb _ _); cbn; now repeat split.
Qed.

Lemma no_group_id_attach admin upd s :
  no_group_id s -> no_group_id (snd (attach_task_media admin upd s)).
Proof.
  intros H. unfold attach_task_media.
  repeat match goal with
         | |- context [match ?x with _ => _ end] => destruct x
         end; cbn [snd]; exact H.
Qed.

Lemma bot_step_invariant admin bot ev w :
  bot_invariant w -> bot_invariant (bot_step admin bot ev w).
Proof.
  intros [Hd Hs]. destruct ev as [gw now upd | now upd | f now user chat t ty];
    cbn [bot_step].
  - destruct (handle_message_no_open_rows bot upd (w_db w)
                (no_open_rows _ _ Hd)) as [Hdb _].
    destruct (handle_message bot upd (w_db w)) as [out db'] eqn:E.
    cbn [snd] in Hdb. subst db'.
    destruct out; try (split; [exact Hd | exact Hs]).
    pose proof (menu_message_invariant admin gw now (upd_user_id upd)
                  (text_of_update upd) (w_session w) (w_db w) Hd Hs) as Hm.
    destruct (handle_menu_message admin gw now (upd_user_id upd)
                (text_of_update upd) (w_session w) (w_db w)) as [[r s'] db'].
    exact Hm.
  - destruct (handle_media_message_no_open_rows bot upd (w_db w)
                (no_open_rows _ _ Hd)) as [Hdb _].
    destruct (handle_media_message bot upd (w_db w)) as [out db'] eqn:E.
    cbn [snd] in Hdb. subst db'.
    destruct out; try (split; [exact Hd | exact Hs]).
    split; [exact Hd|]. now apply no_group_id_attach.
  - split; [|exact Hs]. cbn [w_db].
    eapply store_invariant_same; [apply add_chat_command_tracking | exact Hd].
Qed.

Lemma bot_run_invariant admin bot events w :
  bot_invariant w -> bot_invariant (bot_run admin bot events w).
Proof.
  revert w. induction events as [|ev events IH]; intros w H; [exact H|].
  cbn. apply IH. now apply bot_step_invariant.
Qed.

Lemma initial_world_invariant : bot_invariant initial_world.
Proof.
  split; [|now left]. repeat split; try constructor. cbn. lia.
Qed.

(** X6. A bot started on a new database file never records a completion:
    after any sequence of text messages, media messages and /addchat
    commands, every recipient row is pending and carries the task id 0,
    every task is active under a positive id, and no text or media reply,
    from whatever chat and to whatever message, is accepted or changes the
    store. *)
Theorem bot_never_accepts_a_reply
  (admin bot : Z) (events : list event) (upd : update) :
  let db := w_db (bot_run admin bot events initial_world) in
  Forall (fun r => tr_task_id r = 0 /\ tr_status r = "pending"%string)
    (task_recipients db)
  /\ Forall (fun t => 0 < t_id t /\ t_status t = "active"%string) (tasks db)
  /\ handle_message bot upd db = (fst (handle_message bot upd db), db)
  /\ handle_media_message bot upd db
     = (fst (handle_media_message bot upd db), db)
  /\ (forall task_id,
        fst (handle_message bot upd db) <> ReplyAccepted task_id
        /\ fst (handle_media_message bot upd db) <> MediaAccepted task_id).
Proof.
  intros db.
  destruct (bot_run_invariant admin bot events initial_world
              initial_world_invariant) as [Hd _].
  fold db in Hd.
  destruct (handle_message_no_open_rows bot upd db (no_open_rows _ _ Hd))
    as [H1 H2].
  destruct (handle_media_message_no_open_rows bot upd db (no_open_rows _ _ Hd))
    as [H3 H4].
  destruct Hd as [Hr [Ht _]].
  split; [exact Hr|]. split; [exact Ht|].
  split; [rewrite <- H1 at 3; apply surjective_pairing|].
  split; [rewrite <- H3 at 3; apply surjective_pairing|].
  intros task_id. split; [apply H2 | apply H4].
Qed.

(** X7. On a bot started on a new database file no group ever gets a
    member: the group id the conversation holds is absent or 0 (what
    [last_insert_rowid()] gives on the connection of its own), so every
    message of the administrator to [handle_chat_selection_for_group] is
    answered "group not found" and changes neither the store nor the
    conversation, and the membership table stays empty. *)
Theorem bot_never_fills_a_group
  (admin bot now : Z) (events : list event) (message_text : str) :
  let w := bot_run admin bot events initial_world in
  group_chats (w_db w) = []
  /\ handle_chat_selection_for_group admin admin now message_text
       (w_session w) (w_db w)
     = (GroupNotFound, w_session w, w_db w).
Proof.
  intros w.
  destruct (bot_run_invariant admin bot events initial_world
              initial_world_invariant) as [[_ [_ [_ Hg]]] Hs].
  fold w in Hg, Hs. split; [exact Hg|].
  now apply chat_selection_for_group_not_found.
Qed.

(** The scenario on a new database: the task gets the id 1, its recipient
    row the task id 0; the reply of chat 7 to the announcement finds no
    active task. *)
Example scenario_send_and_reply :
  let db := w_db (bot_run 1 99 (Scenario.register_chat :: Scenario.send_task)
                    initial_world) in
  map t_id (tasks db) = [1]
  /\ task_recipients db = [pending_row 0 7 None]
  /\ fst (handle_message 99
            (Sample.text_reply 7 (Sample.announcement Sample.buy_milk)) db)
     = NoActiveTaskFound [].
Proof. vm_compute. repeat split. Qed.

(** * A second fan-out to the same chat *)

Lemma has_recipient_app task_id chat db db' ext :
  task_recipients db' = task_recipients db ++ ext ->
  has_recipient task_id chat db = true -> has_recipient task_id chat db' = true.
Proof.
  unfold has_recipient. intros -> H. rewrite existsb_app, H. reflexivity.
Qed.

Lemma send_to_chats_conflict gw now task_id task_text media group_id
  targets st chat :
  In chat targets ->
  send_task_to_chat gw chat task_text media = true ->
  has_recipient task_id chat (fs_db st) = true ->
  fst (send_to_chats gw now task_id task_text media group_id targets st)
  = Some IntegrityError.
Proof.
  revert st. induction targets as [|c rest IH]; intros st Hin Hok Hhas;
    [destruct Hin|].
  cbn [send_to_chats].
  destruct (send_task_to_chat gw c task_text media) eqn:Hc.
  - rewrite add_task_recipient_healthy.
    destruct (has_recipient task_id c (fs_db st)) eqn:Hh; [reflexivity|].
    destruct Hin as [->|Hin]; [congruence|].
    apply IH; [exact Hin | exact Hok|]. cbn [fs_db].
    eapply has_recipient_app; [|exact Hhas]. reflexivity.
  - destruct Hin as [->|Hin]; [congruence|]. now apply IH.
Qed.

Lemma send_to_chats_raises gw now task_id task_text media group_id
  targets st e :
  fst (send_to_chats gw now task_id task_text media group_id targets st)
  = Some e -> e = IntegrityError.
Proof.
  revert st. induction targets as [|c rest IH]; intros st; [discriminate|].
  cbn [send_to_chats].
  destruct (send_task_to_chat gw c task_text media); [|apply IH].
  rewrite add_task_recipient_healthy.
  destruct (has_recipient task_id c (fs_db st)); [cbn; congruence | apply IH].
Qed.

Lemma fanout_chats_conflict gw now task_id task_text media titles st t chat :
  In t titles ->
  chat_of_title t (fs_db st) = Some chat ->
  send_task_to_chat gw chat task_text media = true ->
  has_recipient task_id chat (fs_db st) = true ->
  fst (fanout_chats gw now task_id task_text media titles st)
  = Some IntegrityError.
Proof.
  revert st. induction titles as [|t0 rest IH]; intros st Hin Hres Hok Hhas;
    [destruct Hin|].
  cbn [fanout_chats]. rewrite chat_id_by_title_healthy.
  destruct Hin as [->|Hin].
  - unfold chat_of_title in Hres.
    destruct (map chat_id _) as [|c cs]; [discriminate|].
    cbn in Hres. inversion Hres; subst c.
    pose proof (send_to_chats_conflict gw now task_id task_text media None
                  [chat] st chat (or_introl eq_refl) Hok Hhas) as Hc.
    destruct (send_to_chats gw now task_id task_text media None [chat] st)
      as [[e|] st1]; cbn [fst] in *; [exact Hc | discriminate].
  - destruct (map chat_id _) as [|c cs]; [now apply IH|].
    pose proof (send_to_chats_raises gw now task_id task_text media None
                  [c] st) as Hr.
    pose proof (send_to_chats_registers gw now task_id task_text media None
                  [c] st) as Hreg.
    destruct (send_to_chats gw now task_id task_text media None [c] st)
      as [[e|] st1]; cbn [fst snd] in *.
    + now rewrite (Hr e eq_refl).
    + destruct Hreg as [[Hc _] [_ [ext [He _]]]].
      apply IH; [exact Hin| | exact Hok|].
      * unfold chat_of_title in *. now rewrite Hc.
      * eapply has_recipient_app; eassumption.
Qed.

(** X8. When the selection names single chats and one of the chosen titles
    resolves to a chat that the gateway reaches and that already has a
    recipient row under task id 0, the fan-out does not end with a report:
    an INSERT hits the primary key, the handler answers with the general
    error and does not clear the conversation, yet the new task row has
    been committed. *)
Theorem repeated_fanout_fails
  (gw : gateway) (now user : Z) (ud : user_data) (db : database)
  (task_text t : str) (chat : Z) :
  nonempty (ud_task_text ud) = Some task_text ->
  selects_groups ud = false ->
  In t (ud_selected_titles ud) ->
  chat_of_title t db = Some chat ->
  send_task_to_chat gw chat task_text (ud_media_files ud) = true ->
  has_recipient 0 chat db = true ->
  let res := handle_recipient_selection gw now user Lit.confirm_button ud db in
  sr_outcome res = HandlerError IntegrityError
  /\ sr_user_data res = ud
  /\ List.length (tasks (sr_db res)) = S (List.length (tasks db)).
Proof.
  intros Htext Hsel Hin Hres Hok Hhas res. subst res.
  unfold handle_recipient_selection. rewrite str_eqb_refl, Htext.
  rewrite create_task_healthy.
  set (db1 := snd (execute_query None now (q_insert_task task_text user) db)).
  destruct (insert_media_files_frame now 0 (ud_media_files ud) db1)
    as [db2 [-> [Hq [Hr [Ht [Hc [Hg Hgc]]]]]]].
  set (st0 := {| fs_db := db2; fs_success := 0; fs_total := 0;
                 fs_attempted := [] |}).
  assert (Hloop : match ud_selection_type ud with
                  | Some ty => if String.eqb ty "group" then fanout_groups
                               else fanout_chats
                  | None => fanout_chats
                  end = fanout_chats).
  { unfold selects_groups in Hsel. destruct (ud_selection_type ud) as [ty|];
      [now rewrite Hsel | reflexivity]. }
  rewrite Hloop.
  assert (Hhas2 : has_recipient 0 chat (fs_db st0) = true).
  { unfold has_recipient in *. cbn [fs_db st0]. now rewrite Hr. }
  assert (Hres2 : chat_of_title t (fs_db st0) = Some chat).
  { unfold chat_of_title in *. cbn [fs_db st0]. now rewrite Hc. }
  pose proof (fanout_chats_conflict gw now 0 task_text (ud_media_files ud)
                (ud_selected_titles ud) st0 t chat Hin Hres2 Hok Hhas2) as Hf.
  pose proof (fanout_chats_registers gw now 0 task_text (ud_media_files ud)
                (ud_selected_titles ud) st0) as Hreg.
  destruct (fanout_chats gw now 0 task_text (ud_media_files ud)
              (ud_selected_titles ud) st0) as [[e|] st]; cbn [fst snd] in *;
    [|discriminate].
  inversion Hf; subst e. cbn [sr_outcome sr_user_data sr_db].
  split; [reflexivity|]. split; [reflexivity|].
  destruct Hreg as [[_ [_ [_ [Hts _]]]] [_ [ext [He Hfa]]]].
  cbn [fs_db st0] in *.
  rewrite Hts, Ht. subst db1. cbn. rewrite length_app. cbn. lia.
Qed.

Lemma repeated_fanout_witness :
  sr_outcome
    (handle_recipient_selection Scenario.gateway_up 2 1 Lit.confirm_button
       Scenario.second_selection
       (w_db (bot_run 1 99 (Scenario.register_chat :: Scenario.send_task)
                initial_world)))
  = HandlerError IntegrityError.
Proof.
  apply (repeated_fanout_fails Scenario.gateway_up 2 1
           Scenario.second_selection
           (w_db (bot_run 1 99 (Scenario.register_chat :: Scenario.send_task)
                    initial_world))
           Sample.buy_milk (PyStr.lit "A") 7);
    try reflexivity.
  now left.
Defined.

(** * The list of active tasks *)

(** X9. [get_active_tasks] returns the empty mapping for every store, with
    or without a failure of the engine: the text of its query begins with
    WITH, so [execute_query] commits and returns [None] instead of the
    rows; hence [show_active_tasks] always reports that there is no active
    task, whatever rows the query has. *)
Theorem active_tasks_are_never_listed
  (fault : option exn) (now : Z) (db : database) :
  get_active_tasks fault now db = (Return [], db)
  /\ show_active_tasks now db = NoActiveTasks
  /\ execute_query None now q_active_tasks db = (Return None, db)
  /\ is_select (sql q_active_tasks) = false.
Proof.
  split; [apply get_active_tasks_result|].
  split; [unfold show_active_tasks; now rewrite get_active_tasks_result|].
  split; reflexivity.
Qed.

(** * Registration of chats *)

Lemma chat_by_id_healthy now chat db :
  execute_query None now (q_chat_by_id chat) db
  = (Return (Some (map chat_id (filter (fun c => chat_id c =? chat) (chats db)))),
     db).
Proof. reflexivity. Qed.

Lemma registered_filter chat db :
  registered chat db = true
  <-> filter (fun c => chat_id c =? chat) (chats db) <> [].
Proof.
  unfold registered. induction (chats db) as [|c cs IH]; cbn.
  - split; [discriminate | intros H; now destruct H].
  - destruct (chat_id c =? chat); cbn; [split; [discriminate | reflexivity]|].
    exact IH.
Qed.

(** The store of a healthy [add_chat_command] sent by the administrator. *)
Lemma add_chat_command_healthy admin now chat chat_title chat_type db :
  add_chat_command admin no_fault now admin chat chat_title chat_type db
  = if registered chat db then (ChatAlreadyAdded, db)
    else (ChatAdded,
          set_chats db
            (chats db ++
               [{| chat_id := chat;
                   title := match nonempty chat_title with
                            | Some t => t
                            | None => str_of_int chat
                            end;
                   is_group := String.eqb chat_type "group"
                               || String.eqb chat_type "supergroup";
                   added_at := now |}])).
Proof.
  unfold add_chat_command, no_fault. rewrite Z.eqb_refl. cbn [negb].
  rewrite chat_by_id_healthy.
  destruct (registered chat db) eqn:Hreg.
  - apply registered_filter in Hreg.
    destruct (filter _ (chats db)); [now destruct Hreg | reflexivity].
  - assert (Hf : filter (fun c => chat_id c =? chat) (chats db) = []).
    { destruct (filter _ (chats db)) eqn:E; [reflexivity|].
      assert (registered chat db = true)
        by (apply registered_filter; rewrite E; discriminate).
      congruence. }
    rewrite Hf. cbn [map]. unfold execute_query. cbn [run q_insert_chat].
    fold (registered chat db). rewrite Hreg. reflexivity.
Qed.

(** X10. /addchat sent by the administrator registers the chat once: after
    the command the chat has a row, a repetition answers "already added"
    and changes nothing, every row there was is kept in place, and chat ids
    stay unique.  Sent by anyone else the command does nothing. *)
Theorem add_chat_command_registers_once
  (admin user now now' chat : Z) (chat_title title' : option str)
  (chat_type type' : string) (db : database) :
  chats_key_unique db ->
  let db' := snd (add_chat_command admin no_fault now admin chat chat_title
                    chat_type db) in
  registered chat db' = true
  /\ chats_key_unique db'
  /\ (exists added, chats db' = chats db ++ added)
  /\ add_chat_command admin no_fault now' admin chat title' type' db'
     = (ChatAlreadyAdded, db')
  /\ (if user =? admin then True
      else forall f, add_chat_command admin f now user chat chat_title
                       chat_type db = (Silent, db)).
Proof.
  intros Huniq db'. subst db'. rewrite add_chat_command_healthy.
  destruct (registered chat db) eqn:Hreg; cbn [snd].
  - split; [exact Hreg|]. split; [exact Huniq|].
    split; [exists []; now rewrite app_nil_r|].
    split; [rewrite add_chat_command_healthy; now rewrite Hreg|].
    unfold add_chat_command. now destruct (user =? admin).
  - set (row := {| chat_id := chat; title := _; is_group := _;
                   added_at := now |}).
    assert (Hreg' : registered chat (set_chats db (chats db ++ [row])) = true).
    { unfold registered. cbn [chats set_chats]. rewrite existsb_app. cbn.
      rewrite Z.eqb_refl. now rewrite orb_true_r. }
    split; [exact Hreg'|]. split.
    + unfold chats_key_unique in *. cbn [chats set_chats].
      rewrite map_app. cbn [map].
      apply NoDup_app; [exact Huniq | repeat constructor; intros []|].
      intros x Hx [Hy|[]]. cbn in Hy. subst x.
      apply in_map_iff in Hx. destruct Hx as [c [Hc Hin]].
      unfold registered in Hreg.
      assert (existsb (fun c0 => chat_id c0 =? chat) (chats db) = true).
      { apply existsb_exists. exists c. split; [exact Hin|].
        now apply Z.eqb_eq. }
      congruence.
    + split; [now exists [row]|].
      split; [rewrite add_chat_command_healthy; now rewrite Hreg'|].
      unfold add_chat_command. now destruct (user =? admin).
Qed.

Lemma add_chat_command_witness :
  registered 7
    (snd (add_chat_command 1 no_fault 0 1 7 None "supergroup" empty_database))
  = true.
Proof.
  apply (add_chat_command_registers_once 1 1 0 0 7 None None
           "supergroup" "supergroup" empty_database).
  constructor.
Defined.

(** X11. Once /addchat has run for a chat, a text reply from that chat is
    no longer turned away as coming from an unregistered chat, whatever the
    store held before. *)
Theorem registered_chat_passes_the_check
  (admin bot now : Z) (chat_title : option str) (chat_type : string)
  (upd : update) (db : database) :
  let db' := snd (add_chat_command admin no_fault now admin (upd_chat_id upd)
                    chat_title chat_type db) in
  fst (handle_message bot upd db') <> ChatNotRegistered.
Proof.
  intros db'.
  assert (Hreg : registered (upd_chat_id upd) db' = true).
  { subst db'. rewrite add_chat_command_healthy.
    destruct (registered (upd_chat_id upd) db) eqn:E; cbn [snd]; [exact E|].
    unfold registered. cbn [chats set_chats]. rewrite existsb_app. cbn.
    rewrite Z.eqb_refl. now rewrite orb_true_r. }
  apply registered_filter in Hreg. unfold handle_message.
  repeat match goal with
         | |- context [match ?x with _ => _ end] =>
             destruct x eqn:?; cbn [fst]; try discriminate
         end.
  contradiction.
Qed.

(** * Who can change what *)

(** X12. An update of someone who is not the administrator and that does
    not answer a message of the bot changes nothing: neither the store nor
    the conversation, whatever the text, the file or the command. *)
Theorem non_admin_changes_nothing
  (admin bot : Z) (ev : event) (w : world) :
  event_sender ev <> admin ->
  event_replies_to_bot bot ev = false ->
  bot_step admin bot ev w = w.
Proof.
  intros Hsender Hreply. destruct w as [s db].
  apply Z.eqb_neq in Hsender.
  destruct ev as [gw now upd | now upd | f now user chat t ty];
    cbn [event_sender event_replies_to_bot] in *; cbn [bot_step w_db w_session].
  - assert (Hm : handle_message bot upd db = (ToMenuFlow, db)).
    { unfold handle_message. unfold replies_to_bot in Hreply.
      destruct (upd_reply_to upd); [now rewrite Hreply | reflexivity]. }
    rewrite Hm. unfold handle_menu_message. now rewrite Hsender.
  - unfold handle_media_message, attach_task_media.
    unfold replies_to_bot in Hreply.
    destruct (media_of_update upd) as [[fid ftype]|]; [|reflexivity].
    destruct (upd_reply_to upd); [rewrite Hreply|]; now rewrite Hsender.
  - unfold add_chat_command. now rewrite Hsender.
Qed.

Lemma non_admin_changes_nothing_witness :
  bot_step 1 99 (Scenario.says 2 Lit.confirm_button)
    (bot_run 1 99 (Scenario.register_chat :: firstn 5 Scenario.send_task)
       initial_world)
  = bot_run 1 99 (Scenario.register_chat :: firstn 5 Scenario.send_task)
      initial_world.
Proof.
  apply (non_admin_changes_nothing 1 99 (Scenario.says 2 Lit.confirm_button));
    [discriminate | reflexivity].
Defined.

(** * Announcement and extraction *)

Lemma startswith_app (p s : str) : PyStr.startswith p (p ++ s) = true.
Proof.
  induction p as [|a p IH]; cbn; [reflexivity|]. now rewrite N.eqb_refl.
Qed.

Lemma skipn_length_app {A} (p s : list A) : skipn (List.length p) (p ++ s) = s.
Proof. induction p; cbn; auto. Qed.

Lemma strip_leading_blank (s : str) :
  PyStr.strip (PyStr.lit " " ++ s) = PyStr.strip s.
Proof. reflexivity. Qed.

Lemma announcement_parts (task_text : str) :
  PyStr.startswith Lit.new_task_marker (announcement_of task_text) = true
  /\ PyStr.split1 Lit.new_task_marker (announcement_of task_text)
     = [[]; PyStr.lit " " ++ task_text].
Proof.
  unfold announcement_of.
  pose proof (startswith_app Lit.new_task_marker (PyStr.lit " " ++ task_text))
    as Hs.
  pose proof (split1_at_start _ _ Hs) as Hsp.
  rewrite skipn_length_app in Hsp. now split.
Qed.

(** X13. From the announcement [send_task_to_chat] sends for a task, the
    extraction of the media path gives back the text of the task, trimmed;
    the split of the text path gives, as its second part, a blank and the
    text, which that path then trims. *)
Theorem announcement_round_trip (task_text : str) :
  extract_task_text (announcement_of task_text) = Some (PyStr.strip task_text)
  /\ nth 1 (PyStr.split1 Lit.new_task_marker (announcement_of task_text)) []
     = PyStr.lit " " ++ task_text.
Proof.
  destruct (announcement_parts task_text) as [Hs Hsp].
  split; [|now rewrite Hsp].
  unfold extract_task_text, PyStr.contains.
  unfold announcement_of in *.
  rewrite (partition_aux_at_start _ [] _ Hs), Hsp.
  now rewrite strip_leading_blank.
Qed.

(** X14. A text reply to the announcement of a task is accepted whenever
    the chat is registered and has an open row of an active task whose
    stored text, trimmed, equals the trimmed text of the announcement; the
    task that is marked has that same trimmed text. *)
Theorem text_reply_to_open_task_is_accepted
  (bot : Z) (upd : update) (re : replied_message) (db : database)
  (task_text : str) (x : task_row) (r : task_recipient_row) :
  upd_reply_to upd = Some re ->
  re_from_user re = bot ->
  re_text re = Some (announcement_of task_text) ->
  registered (upd_chat_id upd) db = true ->
  In (x, r) (open_rows_for_chat (upd_chat_id upd) db) ->
  PyStr.strip (t_text x) = PyStr.strip task_text ->
  exists y r',
    In (y, r') (open_rows_for_chat (upd_chat_id upd) db)
    /\ PyStr.strip (t_text y) = PyStr.strip task_text
    /\ handle_message bot upd db
       = (ReplyAccepted (t_id y),
          complete_and_recount (t_id y) (upd_chat_id upd) db).
Proof.
  intros Hre Hbot Htext Hreg Hin Hstrip.
  destruct (announcement_parts task_text) as [Hs Hsp].
  unfold handle_message. rewrite Hre, Hbot, Z.eqb_refl, Htext.
  rewrite (startswith_marker_nonempty _ Hs), Hs. cbn [negb]. rewrite Hsp.
  apply registered_filter in Hreg.
  destruct (filter _ (chats db)) as [|c cs]; [now destruct Hreg|].
  rewrite strip_leading_blank.
  destruct (matching_task (PyStr.strip task_text)
              (active_tasks_for_chat (upd_chat_id upd) db))
    as [[y r']|] eqn:Hm.
  - exists y, r'. pose proof Hm as Hm'. unfold matching_task in Hm'.
    apply find_some in Hm'. destruct Hm' as [Hy Heq].
    apply In_sort_by in Hy. apply str_eqb_eq in Heq.
    split; [exact Hy|]. split; [exact Heq | reflexivity].
  - exfalso.
    apply (proj2 (matching_task_exact task_text _) Hm (x, r));
      [now apply In_sort_by | exact Hstrip].
Qed.

Lemma text_reply_to_open_task_witness :
  exists y r',
    In (y, r') (open_rows_for_chat 7 Sample.trailing_blank)
    /\ PyStr.strip (t_text y) = PyStr.strip (PyStr.lit "Buy milk ")
    /\ handle_message Sample.bot
         (Sample.text_reply 7 (announcement_of (PyStr.lit "Buy milk ")))
         Sample.trailing_blank
       = (ReplyAccepted (t_id y),
          complete_and_recount (t_id y) 7 Sample.trailing_blank).
Proof.
  apply (text_reply_to_open_task_is_accepted Sample.bot
           (Sample.text_reply 7 (announcement_of (PyStr.lit "Buy milk ")))
           {| re_from_user := Sample.bot;
              re_text := Some (announcement_of (PyStr.lit "Buy milk "));
              re_caption := None |}
           Sample.trailing_blank (PyStr.lit "Buy milk ")
           (Sample.task 1 (PyStr.lit "Buy milk ") "active" 10)
           (Sample.recipient 1 7 "pending"));
    try reflexivity.
  now left.
Defined.

(** * Groups of chats *)




(** * Selections *)

Lemma existsb_str_In (t : str) (l : list str) :
  existsb (PyStr.eqb t) l = true <-> In t l.
Proof.
  rewrite existsb_exists. split.
  - intros [x [Hx E]]. apply str_eqb_eq in E. now subst.
  - intros H. exists t. split; [exact H | apply str_eqb_refl].
Qed.

Lemma toggle_title_In (t : str) (selected : list str) (x : str) :
  In x (toggle_title t selected)
  <-> if PyStr.eqb t x then ~ In t selected else In x selected.
Proof.
  unfold toggle_title.
  destruct (existsb (PyStr.eqb t) selected) eqn:E.
  - apply existsb_str_In in E. rewrite filter_In.
    destruct (PyStr.eqb t x) eqn:Ex; cbn [negb].
    + split; [intros [_ H]; discriminate | intros H; contradiction].
    + tauto.
  - assert (Hn : ~ In t selected).
    { intros H. apply existsb_str_In in H. congruence. }
    rewrite in_app_iff. cbn [In].
    destruct (PyStr.eqb t x) eqn:Ex.
    + apply str_eqb_eq in Ex. subst x. tauto.
    + split; [intros [H|[H|[]]]; [exact H|] | tauto].
      subst x. rewrite str_eqb_refl in Ex. discriminate.
Qed.

Lemma toggle_title_NoDup (t : str) (selected : list str) :
  NoDup selected -> NoDup (toggle_title t selected).
Proof.
  intros H. unfold toggle_title.
  destruct (existsb (PyStr.eqb t) selected) eqn:E.
  - now apply NoDup_filter.
  - apply NoDup_app; [exact H | repeat constructor; intros [] |].
    intros x Hx [Ht|[]]. subst x. apply existsb_str_In in Hx. congruence.
Qed.

(** X16. A button of the recipient keyboard, "unchecked title" or "checked
    title" (any but Confirm), toggles that title in the selection: the
    title is selected afterwards exactly when it was not before, every
    other title keeps its place in or out of the selection, no title is
    held twice, and neither the store nor the task being written changes
    and nothing is sent. *)
Theorem recipient_button_toggles
  (gw : gateway) (now user : Z) (box t : str) (ud : user_data)
  (db : database) :
  box = Menu.unchecked_prefix \/ box = Menu.checked_prefix ->
  PyStr.eqb (box ++ t) Lit.confirm_button = false ->
  let res := handle_recipient_selection gw now user (box ++ t) ud db in
  let selected := ud_selected_titles (sr_user_data res) in
  sr_db res = db /\ sr_attempted res = []
  /\ ud_task_text (sr_user_data res) = ud_task_text ud
  /\ ud_media_files (sr_user_data res) = ud_media_files ud
  /\ (forall x, In x selected
                <-> if PyStr.eqb t x then ~ In t (ud_selected_titles ud)
                    else In x (ud_selected_titles ud))
  /\ (NoDup (ud_selected_titles ud) -> NoDup selected).
Proof.
  intros Hbox Hconfirm. cbv zeta. unfold handle_recipient_selection.
  rewrite Hconfirm.
  assert (Hback : PyStr.eqb (box ++ t) Lit.back_button = false).
  { destruct (PyStr.eqb (box ++ t) Lit.back_button) eqn:E; [|reflexivity].
    apply str_eqb_eq in E. destruct Hbox; subst box; discriminate. }
  rewrite Hback. cbn [negb].
  assert (Hskip : (if PyStr.startswith Lit.unchecked_box (box ++ t)
                      || PyStr.startswith Lit.checked_box (box ++ t)
                   then skipn 2 (box ++ t) else box ++ t) = t).
  { destruct Hbox; subst box; reflexivity. }
  rewrite Hskip. cbn [sr_db sr_attempted sr_user_data ud_task_text
                        ud_media_files ud_selected_titles].
  repeat split; try reflexivity;
    first [apply toggle_title_In | apply toggle_title_NoDup].
Qed.

Lemma recipient_button_toggles_witness :
  ud_selected_titles
    (sr_user_data
       (handle_recipient_selection Scenario.gateway_up 0 1
          (Menu.checked_prefix ++ PyStr.lit "A") Scenario.second_selection
          Sample.one_left)) = [].
Proof.
  pose proof (recipient_button_toggles Scenario.gateway_up 0 1
                Menu.checked_prefix (PyStr.lit "A") Scenario.second_selection
                Sample.one_left (or_intror eq_refl) eq_refl) as H.
  cbv zeta in H. destruct H as [_ [_ [_ [_ [H _]]]]].
  destruct (ud_selected_titles _) as [|x l]; [reflexivity|].
  exfalso. pose proof (proj1 (H x) (or_introl eq_refl)) as Hx.
  destruct (PyStr.eqb (PyStr.lit "A") x) eqn:E.
  - apply Hx. now left.
  - destruct Hx as [Hx|[]]. subst x. discriminate.
Defined.

Lemma existsb_Z_In (x : Z) (l : list Z) : existsb (Z.eqb x) l = true <-> In x l.
Proof.
  rewrite existsb_exists. split.
  - intros [y [Hy E]]. apply Z.eqb_eq in E. now subst.
  - intros H. exists x. split; [exact H | apply Z.eqb_refl].
Qed.

Lemma remove_first_In (x y : Z) (l : list Z) :
  NoDup l -> (In y (remove_first x l) <-> In y l /\ y <> x).
Proof.
  induction 1 as [|a l Ha Hl IH]; cbn; [tauto|].
  destruct (a =? x) eqn:E.
  - apply Z.eqb_eq in E. subst a. split.
    + intros H. split; [now right | intros ->; contradiction].
    + intros [[H|H] Hn]; [congruence | exact H].
  - apply Z.eqb_neq in E. cbn. rewrite IH. split.
    + intros [H|[H Hn]]; [subst y; split; [now left | exact E] | tauto].
    + intros [[H|H] Hn]; [now left | right; tauto].
Qed.

Lemma remove_first_NoDup (x : Z) (l : list Z) :
  NoDup l -> NoDup (remove_first x l).
Proof.
  induction 1 as [|a l Ha Hl IH]; cbn; [constructor|].
  destruct (a =? x); [exact Hl|].
  constructor; [|exact IH].
  intros H. apply remove_first_In in H; tauto.
Qed.

(** X17. While a group is being filled, the button of a registered chat
    toggles that chat in the selection (selected afterwards exactly when
    it was not before, the others untouched, none held twice) and leaves
    the store alone.  After a chat has been taken out, the keyboard shows
    every chat unchecked, also those that are still selected. *)
Theorem group_chat_button_toggles
  (admin now g chat : Z) (box t : str) (s : session) (db : database) :
  s_current_group_id s = Some g -> g <> 0 ->
  box = Menu.unchecked_prefix \/ box = Menu.checked_prefix ->
  PyStr.eqb (box ++ t) Menu.finish_button = false ->
  chat_of_title t db = Some chat ->
  let selected := match s_selected_chats s with Some l => l | None => [] end in
  NoDup selected ->
  let '(reply, s', db') :=
    handle_chat_selection_for_group admin admin now (box ++ t) s db in
  db' = db
  /\ (exists selected',
        s_selected_chats s' = Some selected' /\ NoDup selected'
        /\ forall c, In c selected'
                     <-> if c =? chat then ~ In chat selected
                         else In c selected)
  /\ (In chat selected ->
      reply = ChatSelectionKeyboard
                (map (fun c => Menu.unchecked_prefix ++ title c)
                   (sort_by (fun a b => PyStr.leb (title a) (title b))
                      (chats db))
                 ++ [Menu.finish_button; Lit.back_button])).
Proof.
  intros Hg Hg0 Hbox Hfin Hchat selected Hnd.
  unfold handle_chat_selection_for_group.
  rewrite Z.eqb_refl, Hg. cbn [negb].
  apply Z.eqb_neq in Hg0. rewrite Hg0.
  assert (Hback : PyStr.eqb (box ++ t) Lit.back_button = false).
  { destruct (PyStr.eqb (box ++ t) Lit.back_button) eqn:E; [|reflexivity].
    apply str_eqb_eq in E. destruct Hbox; subst box; discriminate. }
  rewrite Hback, Hfin.
  assert (Hpre : PyStr.startswith Menu.unchecked_prefix (box ++ t)
                 || PyStr.startswith Menu.checked_prefix (box ++ t) = true)
    by (destruct Hbox; subst box; reflexivity).
  rewrite Hpre.
  assert (Hskip : skipn 2 (box ++ t) = t)
    by (destruct Hbox; subst box; reflexivity).
  rewrite Hskip, chat_id_by_title_healthy.
  unfold chat_of_title in Hchat.
  destruct (map chat_id _) as [|c0 rest]; [discriminate|].
  injection Hchat as ->.
  fold selected.
  change (execute_query None now q_chats_by_title db)
    with (Return (Some (map (fun c => (chat_id c, title c))
                          (sort_by (fun a b => PyStr.leb (title a) (title b))
                             (chats db)))), db).
  cbv iota beta. split; [reflexivity|]. cbn [s_selected_chats]. split.
  - eexists. split; [reflexivity|].
    destruct (existsb (Z.eqb chat) selected) eqn:E.
    + apply existsb_Z_In in E. split; [now apply remove_first_NoDup|].
      intros c. rewrite (remove_first_In chat c selected Hnd).
      destruct (c =? chat) eqn:Ec.
      * apply Z.eqb_eq in Ec. subst c. tauto.
      * apply Z.eqb_neq in Ec. tauto.
    + assert (Hn : ~ In chat selected).
      { intros H. apply existsb_Z_In in H. congruence. }
      split.
      * apply NoDup_app; [exact Hnd | repeat constructor; intros [] |].
        intros x Hx [Hc|[]]. now subst x.
      * intros c. rewrite in_app_iff. cbn [In].
        destruct (c =? chat) eqn:Ec.
        -- apply Z.eqb_eq in Ec. subst c.
           split; [intros _; exact Hn | intros _; right; now left].
        -- apply Z.eqb_neq in Ec. split; [intros [H|[H|[]]]|]; try tauto.
           congruence.
  - intros Hin. apply existsb_Z_In in Hin. rewrite Hin.
    f_equal. f_equal. rewrite map_map. apply map_ext. intros c.
    cbn [fst snd]. destruct (existsb _ (remove_first chat selected)); reflexivity.
Qed.

Lemma group_chat_button_toggles_witness :
  let '(reply, s', db') :=
    handle_chat_selection_for_group 1 1 0
      (Menu.checked_prefix ++ PyStr.lit "A") Scenario.filling_group
      Sample.one_left in
  db' = Sample.one_left
  /\ (exists selected',
        s_selected_chats s' = Some selected' /\ NoDup selected'
        /\ forall c, In c selected'
                     <-> if c =? 7 then ~ In 7 [7; 8] else In c [7; 8])
  /\ (In 7 [7; 8] ->
      reply = ChatSelectionKeyboard
                (map (fun c => Menu.unchecked_prefix ++ title c)
                   (sort_by (fun a b => PyStr.leb (title a) (title b))
                      (chats Sample.one_left))
                 ++ [Menu.finish_button; Lit.back_button])).
Proof.
  apply (group_chat_button_toggles 1 0 3 7 Menu.checked_prefix (PyStr.lit "A")
           Scenario.filling_group Sample.one_left eq_refl).
  - discriminate.
  - now right.
  - reflexivity.
  - reflexivity.
  - repeat constructor; cbn; intuition discriminate.
Defined.

(** * The task that Confirm stores *)

Lemma insert_media_files_rows now task_id media db :
  exists db', insert_media_files now task_id media db = (None, db')
    /\ task_media db'
       = task_media db
         ++ map (fun m => {| tm_task_id := task_id; tm_file_id := fst m;
                             tm_file_type := snd m |}) media
    /\ tasks db' = tasks db /\ response_media db' = response_media db.
Proof.
  revert db. induction media as [|m rest IH]; intros db.
  - exists db. cbn. now rewrite app_nil_r.
  - cbn [insert_media_files].
    change (execute_query None now
              (q_insert_task_media task_id (fst m) (snd m)) db)
      with (Return (A:=option (list Empty_set)) None,
            {| chats := chats db; chat_groups := chat_groups db;
               group_chats := group_chats db;
               tasks := tasks db; tasks_seq := tasks_seq db;
               task_recipients := task_recipients db;
               task_media := task_media db ++
                 [{| tm_task_id := task_id; tm_file_id := fst m;
                     tm_file_type := snd m |}];
               response_media := response_media db |}).
    cbv iota beta.
    match goal with
    | |- context [insert_media_files now task_id rest ?d] =>
        destruct (IH d) as [db2 [-> [Hm [Ht Hr]]]]
    end.
    exists db2. cbn in Hm, Ht, Hr. split; [reflexivity|].
    split; [|now split]. rewrite Hm, <- app_assoc. reflexivity.
Qed.

(** X18. On Confirm with a task text the handler stores exactly one new
    task: the text as it was typed, active, created by the sender, under
    the next id of the sequence; every attached file is stored in
    [task_media] under task id 0, not under the id of that task; no
    response file is touched.  This holds however the fan-out ends. *)
Theorem confirm_stores_the_task
  (gw : gateway) (now user : Z) (task_text : str) (ud : user_data)
  (db : database) :
  nonempty (ud_task_text ud) = Some task_text ->
  let db' :=
    sr_db (handle_recipient_selection gw now user Lit.confirm_button ud db) in
  tasks db'
  = tasks db ++ [{| t_id := tasks_seq db + 1; t_text := task_text;
                    t_status := "active"; t_created_by := user;
                    t_created_at := now |}]
  /\ task_media db'
     = task_media db
       ++ map (fun m => {| tm_task_id := 0; tm_file_id := fst m;
                           tm_file_type := snd m |}) (ud_media_files ud)
  /\ response_media db' = response_media db.
Proof.
  intros Htext. cbv zeta. unfold handle_recipient_selection.
  rewrite str_eqb_refl, Htext, create_task_healthy.
  set (db1 := snd (execute_query None now (q_insert_task task_text user) db)).
  destruct (insert_media_files_rows now 0 (ud_media_files ud) db1)
    as [db2 [-> [Hm [Ht Hr]]]].
  set (st0 := {| fs_db := db2; fs_success := 0; fs_total := 0;
                 fs_attempted := [] |}).
  assert (Hfin : forall db3, registers_under 0 db2 db3 ->
            tasks db3
            = tasks db ++ [{| t_id := tasks_seq db + 1; t_text := task_text;
                              t_status := "active"; t_created_by := user;
                              t_created_at := now |}]
            /\ task_media db3
               = task_media db
                 ++ map (fun m => {| tm_task_id := 0; tm_file_id := fst m;
                                     tm_file_type := snd m |})
                      (ud_media_files ud)
            /\ response_media db3 = response_media db).
  { intros db3 [[_ [_ [_ [St [Sm Sr]]]]] _].
    rewrite St, Sm, Sr, Ht, Hm, Hr. now repeat split. }
  assert (Hloop : forall loop,
            (loop = fanout_groups \/ loop = fanout_chats) ->
            registers_under 0 db2
              (fs_db (snd (loop gw now 0 task_text (ud_media_files ud)
                             (ud_selected_titles ud) st0)))).
  { intros loop [->| ->].
    - apply (fanout_groups_registers gw now 0 task_text _ _ st0).
    - apply (fanout_chats_registers gw now 0 task_text _ _ st0). }
  match goal with
  | |- context [?l gw now 0 task_text (ud_media_files ud)
                  (ud_selected_titles ud) st0] =>
      assert (Hl : l = fanout_groups \/ l = fanout_chats)
        by (destruct (ud_selection_type ud) as [ty|];
            [destruct (String.eqb ty "group")|]; tauto);
      specialize (Hloop l Hl);
      destruct (l gw now 0 task_text (ud_media_files ud)
                  (ud_selected_titles ud) st0) as [[e|] st]
  end; apply Hfin; exact Hloop.
Qed.

Lemma confirm_stores_the_task_witness :
  tasks (sr_db (handle_recipient_selection Scenario.gateway_up 5 1
                  Lit.confirm_button Scenario.second_selection
                  Sample.one_left))
  = [Sample.task 1 Sample.buy_milk "active" 10;
     {| t_id := 2; t_text := Sample.buy_milk; t_status := "active";
        t_created_by := 1; t_created_at := 5 |}].
Proof.
  apply (confirm_stores_the_task Scenario.gateway_up 5 1 Sample.buy_milk
           Scenario.second_selection Sample.one_left eq_refl).
Defined.

(** * The dialogue that creates a task *)

Lemma bot_step_admin_text admin bot gw now text w :
  bot_step admin bot (admin_text admin gw now text) w
  = let '(_, s', db') :=
      handle_menu_message admin gw now admin text (w_session w) (w_db w) in
    {| w_session := s'; w_db := db' |}.
Proof. reflexivity. Qed.

Lemma sort_by_nonempty {A} (le : A -> A -> bool) (l : list A) (x : A) :
  In x l -> sort_by le l <> [].
Proof.
  intros H E. apply (In_sort_by le) in H. rewrite E in H. exact H.
Qed.


Lemma says_task_text admin bot gw now text s db :
  s_state s = Some "awaiting_task_text"%string ->
  ~ In text [Lit.back_button; Menu.cancel_button;
             Menu.choose_recipients_button; Menu.add_file_button;
             Menu.add_another_file_button] ->
  bot_step admin bot (admin_text admin gw now text)
    {| w_session := s; w_db := db |}
  = {| w_session := with_task_text s text; w_db := db |}.
Proof.
  intros Hstate Hbuttons.
  assert (Hb : forall b, In b [Lit.back_button; Menu.cancel_button;
                  Menu.choose_recipients_button; Menu.add_file_button;
                  Menu.add_another_file_button] ->
               PyStr.eqb text b = false).
  { intros b Hin. destruct (PyStr.eqb text b) eqn:E; [|reflexivity].
    apply str_eqb_eq in E. subst b. contradiction. }
  rewrite bot_step_admin_text. cbn [w_session w_db].
  unfold handle_menu_message, handle_task_text.
  rewrite Z.eqb_refl, Hstate. cbn [negb].
  rewrite !Hb by (cbn; tauto).
  unfold with_task_text. rewrite Hstate. reflexivity.
Qed.

Lemma says_choose_recipients admin bot gw now text s db :
  s_state s = Some "awaiting_task_text"%string ->
  s_task_text s = Some text ->
  bot_step admin bot (admin_text admin gw now Menu.choose_recipients_button)
    {| w_session := s; w_db := db |}
  = {| w_session := set_state s "choosing_recipient_type"; w_db := db |}.
Proof.
  intros Hstate Htext.
  rewrite bot_step_admin_text. cbn [w_session w_db].
  unfold handle_menu_message, handle_task_text.
  rewrite Z.eqb_refl, Hstate, Htext.
  unfold set_state. reflexivity.
Qed.

Lemma says_single_chats admin bot gw now s db c :
  s_state s = Some "choosing_recipient_type"%string ->
  In c (chats db) ->
  bot_step admin bot (admin_text admin gw now Menu.single_chats_choice)
    {| w_session := s; w_db := db |}
  = {| w_session := start_selection s "chat"; w_db := db |}.
Proof.
  intros Hstate Hin.
  rewrite bot_step_admin_text. cbn [w_session w_db].
  unfold handle_menu_message, handle_recipient_type.
  rewrite Z.eqb_refl, Hstate.
  change (execute_query None now q_chats_by_title db)
    with (Return (Some (map (fun c => (chat_id c, title c))
                          (sort_by (fun a b => PyStr.leb (title a) (title b))
                             (chats db)))), db).
  pose proof (sort_by_nonempty (fun a b => PyStr.leb (title a) (title b))
                (chats db) c Hin) as Hn.
  destruct (sort_by _ (chats db)) as [|x xs]; [contradiction|]. reflexivity.
Qed.

Lemma says_unchecked_title admin bot gw now t s db :
  s_state s = Some "selecting_recipients"%string ->
  s_selected_titles s = Some [] ->
  bot_step admin bot (admin_text admin gw now (Menu.unchecked_prefix ++ t))
    {| w_session := s; w_db := db |}
  = {| w_session := with_selected_titles s [t]; w_db := db |}.
Proof.
  intros Hstate Hsel.
  rewrite bot_step_admin_text. cbn [w_session w_db].
  unfold handle_menu_message. rewrite Z.eqb_refl, Hstate.
  assert (H1 : PyStr.eqb (Menu.unchecked_prefix ++ t) Lit.back_button = false).
  { destruct (PyStr.eqb _ Lit.back_button) eqn:E; [|reflexivity].
    apply str_eqb_eq in E. discriminate. }
  assert (H2 : PyStr.eqb (Menu.unchecked_prefix ++ t) Menu.cancel_button = false).
  { destruct (PyStr.eqb _ Menu.cancel_button) eqn:E; [|reflexivity].
    apply str_eqb_eq in E. discriminate. }
  assert (H3 : PyStr.eqb (Menu.unchecked_prefix ++ t) Lit.confirm_button = false).
  { destruct (PyStr.eqb _ Lit.confirm_button) eqn:E; [|reflexivity].
    apply str_eqb_eq in E. discriminate. }
  rewrite H1, H2. cbn [negb orb String.eqb Ascii.eqb Bool.eqb].
  unfold handle_recipient_selection. rewrite H3, H1. cbn [negb].
  unfold session_after_selection, user_data_of.
  cbn [sr_outcome sr_user_data sr_db ud_selected_titles].
  rewrite Hsel. reflexivity.
Qed.

Lemma confirm_single_chat (gw : gateway) (now user : Z) (task_text : str)
  (media : list (str * string)) (t : str) (chat : Z) (db : database) :
  task_text <> [] ->
  chat_of_title t db = Some chat ->
  has_recipient 0 chat db = false ->
  send_task_to_chat gw chat task_text media = true ->
  let res := handle_recipient_selection gw now user Lit.confirm_button
               {| ud_task_text := Some task_text; ud_media_files := media;
                  ud_selected_titles := [t];
                  ud_selection_type := Some "chat"%string |} db in
  sr_outcome res = DeliveryReport 1 1
  /\ tasks (sr_db res)
     = tasks db ++ [{| t_id := tasks_seq db + 1; t_text := task_text;
                       t_status := "active"; t_created_by := user;
                       t_created_at := now |}]
  /\ task_recipients (sr_db res)
     = task_recipients db ++ [pending_row 0 chat None]
  /\ chats (sr_db res) = chats db
  /\ task_media (sr_db res)
     = task_media db
       ++ map (fun m => {| tm_task_id := 0; tm_file_id := fst m;
                           tm_file_type := snd m |}) media.
Proof.
  intros Hne Hchat Hnew Hsend. cbv zeta. unfold handle_recipient_selection.
  rewrite str_eqb_refl. cbn [ud_task_text ud_media_files ud_selected_titles
                               ud_selection_type].
  assert (Hn : nonempty (Some task_text) = Some task_text)
    by (destruct task_text; [contradiction | reflexivity]).
  rewrite Hn, create_task_healthy.
  set (db1 := snd (execute_query None now (q_insert_task task_text user) db)).
  destruct (insert_media_files_rows now 0 media db1)
    as [db2' [Hrows [Hm _]]].
  destruct (insert_media_files_frame now 0 media db1)
    as [db2 [E [Hq [Hr [Ht [Hc [Hg Hgc]]]]]]].
  rewrite E in Hrows. injection Hrows as <-. rewrite E. clear E.
  cbn [String.eqb Ascii.eqb Bool.eqb fanout_chats fs_db].
  rewrite chat_id_by_title_healthy.
  unfold chat_of_title in Hchat. rewrite Hc.
  change (chats db1) with (chats db).
  destruct (map chat_id _) as [|c0 rest]; [discriminate|].
  injection Hchat as ->.
  cbn [send_to_chats fs_db fs_success fs_total fs_attempted].
  rewrite Hsend, add_task_recipient_healthy.
  unfold has_recipient in *. rewrite Hr.
  change (task_recipients db1) with (task_recipients db). rewrite Hnew.
  cbn [sr_outcome sr_db fs_db fs_success fs_total task_recipients tasks chats
       task_media set_task_recipients].
  rewrite Ht, Hc, Hm. now repeat split.
Qed.

(** X19. The dialogue as a whole: the administrator, asked for the task
    text, types a text that is no button, asks for the recipients, chooses
    single chats, ticks a registered chat that has no row of task id 0 yet,
    and confirms; the gateway delivers.  Then the store holds one more
    task, with the text as typed, and one more recipient row, pending, for
    that chat under task id 0; the files attached before are stored, in
    order, under task id 0 as well; the chats are as before and the
    conversation is empty again. *)
Theorem task_dialogue_sends_the_task
  (admin bot : Z) (gw : gateway) (now : Z) (task_text chat_title : str)
  (chat : Z) (w : world) :
  s_state (w_session w) = Some "awaiting_task_text"%string ->
  task_text <> [] ->
  ~ In task_text [Lit.back_button; Menu.cancel_button;
                  Menu.choose_recipients_button; Menu.add_file_button;
                  Menu.add_another_file_button] ->
  chat_of_title chat_title (w_db w) = Some chat ->
  has_recipient 0 chat (w_db w) = false ->
  send_task_to_chat gw chat task_text (session_media (w_session w)) = true ->
  let w' := bot_run admin bot
              (task_dialogue admin gw now task_text chat_title) w in
  tasks (w_db w')
  = tasks (w_db w)
    ++ [{| t_id := tasks_seq (w_db w) + 1; t_text := task_text;
           t_status := "active"; t_created_by := admin;
           t_created_at := now |}]
  /\ task_recipients (w_db w')
     = task_recipients (w_db w) ++ [pending_row 0 chat None]
  /\ chats (w_db w') = chats (w_db w)
  /\ task_media (w_db w')
     = task_media (w_db w)
       ++ map (fun m => {| tm_task_id := 0; tm_file_id := fst m;
                           tm_file_type := snd m |})
            (session_media (w_session w))
  /\ w_session w' = empty_session.
Proof.
  destruct w as [s db]. cbn [w_session w_db].
  intros Hstate Hne Hbuttons Hchat Hnew Hsend.
  unfold task_dialogue, bot_run. cbn [map fold_left].
  rewrite (says_task_text admin bot gw now task_text s db Hstate Hbuttons).
  rewrite (says_choose_recipients admin bot gw now task_text
             (with_task_text s task_text) db Hstate eq_refl).
  assert (Hin : exists c, In c (chats db)).
  { unfold chat_of_title in Hchat.
    destruct (filter _ (chats db)) as [|c cs] eqn:F; [discriminate|].
    exists c. assert (H : In c (c :: cs)) by now left.
    rewrite <- F in H. now apply filter_In in H. }
  destruct Hin as [c Hin].
  set (s2 := set_state (with_task_text s task_text) "choosing_recipient_type").
  rewrite (says_single_chats admin bot gw now s2 db c eq_refl Hin).
  rewrite (says_unchecked_title admin bot gw now chat_title
             (start_selection s2 "chat") db eq_refl eq_refl).
  subst s2.
  rewrite bot_step_admin_text. cbn [w_session w_db].
  unfold handle_menu_message. rewrite Z.eqb_refl.
  cbn [negb with_selected_titles start_selection set_state with_task_text
       s_state String.eqb Ascii.eqb Bool.eqb].
  change (PyStr.eqb Lit.confirm_button Lit.back_button
          || PyStr.eqb Lit.confirm_button Menu.cancel_button) with false.
  cbv iota. cbn [w_db w_session].
  destruct (confirm_single_chat gw now admin task_text (session_media s)
              chat_title chat db Hne Hchat Hnew Hsend)
    as [Ho [Ht [Hr [Hc Hm]]]].
  unfold session_after_selection.
  change (user_data_of _)
    with {| ud_task_text := Some task_text;
            ud_media_files := session_media s;
            ud_selected_titles := [chat_title];
            ud_selection_type := Some "chat"%string |}.
  rewrite Ho. now repeat split.
Qed.

Lemma task_dialogue_witness :
  let w := {| w_session := set_state empty_session "awaiting_task_text";
              w_db := Sample.one_left |} in
  let w' := bot_run 1 99
              (task_dialogue 1 Scenario.gateway_up 5 (PyStr.lit "Sweep")
                 (PyStr.lit "A")) w in
  tasks (w_db w')
  = tasks (w_db w)
    ++ [{| t_id := tasks_seq (w_db w) + 1; t_text := PyStr.lit "Sweep";
           t_status := "active"; t_created_by := 1; t_created_at := 5 |}]
  /\ task_recipients (w_db w')
     = task_recipients (w_db w) ++ [pending_row 0 7 None]
  /\ chats (w_db w') = chats (w_db w)
  /\ task_media (w_db w')
     = task_media (w_db w)
       ++ map (fun m => {| tm_task_id := 0; tm_file_id := fst m;
                           tm_file_type := snd m |})
            (session_media (w_session w))
  /\ w_session w' = empty_session.
Proof.
  apply (task_dialogue_sends_the_task 1 99 Scenario.gateway_up 5
           (PyStr.lit "Sweep") (PyStr.lit "A") 7
           {| w_session := set_state empty_session "awaiting_task_text";
              w_db := Sample.one_left |}).
  - reflexivity.
  - discriminate.
  - cbn. intuition discriminate.
  - reflexivity.
  - reflexivity.
  - reflexivity.
Defined.

(** * Keys of the schema *)

Lemma keys_same_refl db : keys_same db db.
Proof. now repeat split. Qed.

Lemma keys_same_trans db1 db2 db3 :
  keys_same db1 db2 -> keys_same db2 db3 -> keys_same db1 db3.
Proof.
  intros [A1 [A2 [A3 [A4 [A5 A6]]]]] [B1 [B2 [B3 [B4 [B5 B6]]]]].
  repeat split; congruence.
Qed.

Lemma keys_wf_same db db' : keys_same db db' -> keys_wf db -> keys_wf db'.
Proof.
  intros [A1 [A2 [A3 [A4 [A5 A6]]]]]. unfold keys_wf.
  now rewrite A1, A2, A3, A4, A5, A6.
Qed.

Lemma keys_same_update_recipient status task_id chat db :
  keys_same db (sql_update_recipient_status status task_id chat db).
Proof.
  repeat split. cbn. rewrite map_map. apply map_ext. intros r.
  now destruct (_ && _).
Qed.

Lemma keys_same_complete_task task_id db :
  keys_same db (sql_complete_task task_id db).
Proof.
  repeat split. cbn. rewrite map_map. apply map_ext. intros t.
  now destruct (_ =? _).
Qed.

Lemma keys_same_complete_and_recount task_id chat db :
  keys_same db (complete_and_recount task_id chat db).
Proof.
  unfold complete_and_recount. destruct (stats_equal _).
  - eapply keys_same_trans; [apply keys_same_update_recipient|].
    apply keys_same_complete_task.
  - apply keys_same_update_recipient.
Qed.

Lemma keys_same_handle_message bot upd db :
  keys_same db (snd (handle_message bot upd db)).
Proof.
  unfold handle_message.
  repeat match goal with
         | |- context [match ?x with _ => _ end] => destruct x
         end; cbn [snd];
    first [apply keys_same_refl | apply keys_same_complete_and_recount].
Qed.

Lemma keys_same_handle_media_message bot upd db :
  keys_same db (snd (handle_media_message bot upd db)).
Proof.
  unfold handle_media_message.
  repeat match goal with
         | |- context [match ?x with _ => _ end] => destruct x
         end; cbn [snd]; try apply keys_same_refl.
  all: eapply keys_same_trans; [|apply keys_same_complete_and_recount];
    now repeat split.
Qed.

Lemma NoDup_snoc {A} (l : list A) (x : A) :
  NoDup l -> ~ In x l -> NoDup (l ++ [x]).
Proof.
  intros Hl Hx. apply NoDup_app; [exact Hl | repeat constructor; intros [] |].
  intros y Hy [->|[]]. contradiction.
Qed.

Lemma keys_wf_insert_recipient task_id chat group_id db :
  keys_wf db -> has_recipient task_id chat db = false ->
  keys_wf (set_task_recipients db
             (task_recipients db ++ [pending_row task_id chat group_id])).
Proof.
  intros [K1 [K2 [K3 [K4 [K5 [K6 K7]]]]]] Hnew.
  repeat split; try assumption. cbn [task_recipients set_task_recipients].
  rewrite map_app. apply NoDup_snoc; [exact K4|].
  cbn. intros Hin. apply in_map_iff in Hin. destruct Hin as [r [Hk Hr]].
  unfold has_recipient in Hnew.
  assert (Ht : existsb (fun r => (tr_task_id r =? task_id)
                                 && (tr_chat_id r =? chat))
                 (task_recipients db) = true).
  { apply existsb_exists. exists r. split; [exact Hr|].
    unfold recipient_key in Hk. injection Hk as -> ->.
    now rewrite !Z.eqb_refl. }
  congruence.
Qed.

Lemma keys_wf_add_task_recipient f now task_id chat group_id db :
  keys_wf db ->
  keys_wf (snd (add_task_recipient f now task_id chat group_id db)).
Proof.
  intros K. unfold add_task_recipient, execute_query.
  destruct (f 0%nat); [exact K|].
  cbn [run q_insert_task_recipient].
  destruct (existsb _ (task_recipients db)) eqn:E; [exact K|].
  cbn [snd]. destruct (is_select _); [exact K|]. cbn [snd].
  now apply keys_wf_insert_recipient.
Qed.

Lemma keys_wf_insert_task now text user db :
  keys_wf db ->
  keys_wf (snd (execute_query None now (q_insert_task text user) db)).
Proof.
  intros [K1 [K2 [K3 [K4 [K5 [K6 K7]]]]]].
  change (snd (execute_query None now (q_insert_task text user) db))
    with {| chats := chats db; chat_groups := chat_groups db;
            group_chats := group_chats db;
            tasks := tasks db ++ [{| t_id := tasks_seq db + 1; t_text := text;
                                     t_status := "active";
                                     t_created_by := user;
                                     t_created_at := now |}];
            tasks_seq := tasks_seq db + 1;
            task_recipients := task_recipients db;
            task_media := task_media db;
            response_media := response_media db |}.
  repeat split; try assumption; cbn [tasks tasks_seq]; rewrite map_app.
  - apply NoDup_snoc; [exact K2|]. cbn. intros Hin.
    rewrite Forall_forall in K3. specialize (K3 _ Hin). lia.
  - apply Forall_app. split.
    + eapply Forall_impl; [|exact K3]. cbn. intros; lia.
    + repeat constructor. cbn. lia.
Qed.

Section FanOut.

Variables (gw : gateway) (now task_id : Z) (task_text : str)
  (media : list (str * string)).

Lemma send_to_chats_keys group_id targets st :
  keys_wf (fs_db st) ->
  keys_wf (fs_db (snd (send_to_chats gw now task_id task_text media group_id
                         targets st))).
Proof.
  revert st. induction targets as [|c rest IH]; intros st K; [exact K|].
  cbn [send_to_chats]. destruct (send_task_to_chat gw c task_text media).
  - pose proof (keys_wf_add_task_recipient no_fault now task_id c group_id
                  (fs_db st) K) as Ka.
    destruct (add_task_recipient no_fault now task_id c group_id (fs_db st))
      as [[u|e] db']; cbn [snd] in *; [|exact Ka].
    now apply IH.
  - now apply IH.
Qed.

Lemma fanout_chats_keys titles st :
  keys_wf (fs_db st) ->
  keys_wf (fs_db (snd (fanout_chats gw now task_id task_text media titles st))).
Proof.
  revert st. induction titles as [|t rest IH]; intros st K; [exact K|].
  cbn [fanout_chats]. rewrite chat_id_by_title_healthy.
  destruct (map chat_id _) as [|c cs]; [now apply IH|].
  pose proof (send_to_chats_keys None [c] st K) as Hs.
  destruct (send_to_chats gw now task_id task_text media None [c] st)
    as [[e|] st1]; cbn [snd] in *; [exact Hs | now apply IH].
Qed.

Lemma fanout_groups_keys names st :
  keys_wf (fs_db st) ->
  keys_wf (fs_db (snd (fanout_groups gw now task_id task_text media names st))).
Proof.
  revert st. induction names as [|n rest IH]; intros st K; [exact K|].
  cbn [fanout_groups]. rewrite group_id_by_name_healthy.
  destruct (map cg_id _) as [|g gs]; [now apply IH|].
  destruct (get_group_chats None now g (fs_db st)) as [[rows|e] dbg];
    [|exact K].
  pose proof (send_to_chats_keys (Some g) (map chat_id rows) st K) as Hs.
  destruct (send_to_chats gw now task_id task_text media (Some g)
              (map chat_id rows) st)
    as [[e|] st1]; cbn [snd] in *; [exact Hs | now apply IH].
Qed.

End FanOut.

Lemma keys_wf_handle_recipient_selection gw now user message_text ud db :
  keys_wf db ->
  keys_wf (sr_db (handle_recipient_selection gw now user message_text ud db)).
Proof.
  intros K. unfold handle_recipient_selection.
  destruct (PyStr.eqb message_text Lit.confirm_button);
    [|destruct (negb _); exact K].
  destruct (nonempty (ud_task_text ud)) as [task_text|]; [|exact K].
  rewrite create_task_healthy.
  pose proof (keys_wf_insert_task now task_text user db K) as K1.
  set (db1 := snd (execute_query None now (q_insert_task task_text user) db))
    in *.
  destruct (insert_media_files_frame now 0 (ud_media_files ud) db1)
    as [db2 [-> [Hq [Hr [Ht [Hc [Hg Hgc]]]]]]].
  assert (K2 : keys_wf db2).
  { apply (keys_wf_same db1); [|exact K1]. repeat split; congruence. }
  set (st0 := {| fs_db := db2; fs_success := 0; fs_total := 0;
                 fs_attempted := [] |}).
  assert (Hloop : forall loop,
            (loop = fanout_groups \/ loop = fanout_chats) ->
            keys_wf (fs_db (snd (loop gw now 0 task_text (ud_media_files ud)
                                   (ud_selected_titles ud) st0)))).
  { intros loop [->| ->].
    - now apply fanout_groups_keys.
    - now apply fanout_chats_keys. }
  match goal with
  | |- context [?l gw now 0 task_text (ud_media_files ud)
                  (ud_selected_titles ud) st0] =>
      assert (Hl : l = fanout_groups \/ l = fanout_chats)
        by (destruct (ud_selection_type ud) as [ty|];
            [destruct (String.eqb ty "group")|]; tauto);
      specialize (Hloop l Hl);
      destruct (l gw now 0 task_text (ud_media_files ud)
                  (ud_selected_titles ud) st0) as [[e|] st]
  end; exact Hloop.
Qed.

Lemma le_fold_max (x : Z) (l : list Z) : In x l -> x <= fold_right Z.max 0 l.
Proof.
  induction l as [|a l IH]; cbn; [tauto|]. intros [->|H]; [lia|].
  specialize (IH H). lia.
Qed.

Lemma keys_wf_insert_chat_group now name db :
  keys_wf db ->
  keys_wf (snd (execute_query None now (q_insert_chat_group name) db)).
Proof.
  intros K. pose proof K as [K1 [K2 [K3 [K4 [K5 [K6 K7]]]]]].
  unfold execute_query. cbn [run q_insert_chat_group].
  destruct (existsb _ (chat_groups db)) eqn:E; [exact K|].
  destruct (is_select _); [exact K|]. cbn [snd].
  repeat split; try assumption; cbn [chat_groups]; rewrite map_app;
    (apply NoDup_snoc; [assumption|]); cbn; intros Hin.
  - apply le_fold_max in Hin. unfold next_group_id in Hin. lia.
  - apply in_map_iff in Hin. destruct Hin as [g [Hn Hg]].
    assert (Ht : existsb (fun g => PyStr.eqb (cg_name g) name)
                   (chat_groups db) = true).
    { apply existsb_exists. exists g. split; [exact Hg|].
      rewrite Hn. apply str_eqb_refl. }
    congruence.
Qed.

Lemma keys_wf_handle_group_name admin user now group_name s db :
  keys_wf db ->
  keys_wf (snd (handle_group_name admin user now group_name s db)).
Proof.
  intros K. unfold handle_group_name.
  destruct (negb (user =? admin)); [exact K|].
  destruct (PyStr.eqb group_name Lit.back_button); [exact K|].
  rewrite group_id_by_name_healthy.
  destruct (map cg_id _) as [|g gs]; [|exact K].
  pose proof (keys_wf_insert_chat_group now group_name db K) as K1.
  destruct (execute_query None now (q_insert_chat_group group_name) db)
    as [[r|e] db1]; cbn [snd] in K1; [|exact K1].
  rewrite last_insert_rowid_healthy.
  destruct (chats_by_title_healthy now db1) as [rows ->].
  destruct rows; exact K1.
Qed.

Lemma keys_wf_insert_group_chats now group_id selected db :
  keys_wf db -> keys_wf (snd (insert_group_chats now group_id selected db)).
Proof.
  revert db. induction selected as [|c rest IH]; intros db K; [exact K|].
  cbn [insert_group_chats]. unfold execute_query.
  cbn [run q_insert_group_chat].
  destruct (existsb _ (group_chats db)) eqn:E.
  - destruct (is_select _); now apply IH.
  - destruct (is_select _); apply IH; [exact K|].
    destruct K as [K1 [K2 [K3 [K4 [K5 [K6 K7]]]]]].
    repeat split; try assumption. cbn [group_chats]. rewrite map_app.
    apply NoDup_snoc; [exact K7|]. cbn. intros Hin.
    apply in_map_iff in Hin. destruct Hin as [gc [Hk Hgc]].
    assert (Ht : existsb (fun gc => (gc_group_id gc =? group_id)
                                    && (gc_chat_id gc =? c))
                   (group_chats db) = true).
    { apply existsb_exists. exists gc. split; [exact Hgc|].
      unfold member_key in Hk. injection Hk as -> ->.
      now rewrite !Z.eqb_refl. }
    congruence.
Qed.

Lemma keys_wf_handle_chat_selection_for_group admin user now text s db :
  keys_wf db ->
  keys_wf (snd (handle_chat_selection_for_group admin user now text s db)).
Proof.
  intros K. unfold handle_chat_selection_for_group.
  destruct (negb (user =? admin)); [exact K|].
  destruct (s_current_group_id s) as [g|]; [|exact K].
  destruct (g =? 0); [exact K|].
  destruct (PyStr.eqb text Lit.back_button); [exact K|].
  destruct (PyStr.eqb text Menu.finish_button).
  { destruct (s_selected_chats s) as [[|c cs]|]; try exact K.
    pose proof (keys_wf_insert_group_chats now g (c :: cs) db K) as Ki.
    destruct (insert_group_chats now g (c :: cs) db) as [[e|] db'];
      exact Ki. }
  destruct (_ || _); [|exact K].
  rewrite chat_id_by_title_healthy.
  destruct (map chat_id _) as [|c cs]; [exact K|].
  destruct (chats_by_title_healthy now db) as [rows ->]. exact K.
Qed.

Lemma keys_wf_add_chat_command admin f now user chat chat_title chat_type db :
  keys_wf db ->
  keys_wf (snd (add_chat_command admin f now user chat chat_title chat_type db)).
Proof.
  intros K. unfold add_chat_command.
  destruct (negb (user =? admin)); [exact K|].
  assert (Hq : snd (execute_query (f 0%nat) now (q_chat_by_id chat) db) = db).
  { unfold execute_query. destruct (f 0%nat); [reflexivity|].
    cbn [run q_chat_by_id]. now destruct (is_select _). }
  assert (Ki : forall t g,
            keys_wf (snd (execute_query (f 1%nat) now
                            (q_insert_chat chat t g) db))).
  { intros t g. unfold execute_query. destruct (f 1%nat); [exact K|].
    cbn [run q_insert_chat].
    destruct (existsb _ (chats db)) eqn:E; [exact K|].
    destruct (is_select _); [exact K|]. cbn [snd].
    destruct K as [K1 [K2 [K3 [K4 [K5 [K6 K7]]]]]].
    repeat split; try assumption. cbn [chats set_chats]. rewrite map_app.
    apply NoDup_snoc; [exact K1|]. cbn. intros Hin.
    apply in_map_iff in Hin. destruct Hin as [c [Hk Hc]].
    assert (Ht : existsb (fun c => chat_id c =? chat) (chats db) = true).
    { apply existsb_exists. exists c. split; [exact Hc|]. now apply Z.eqb_eq. }
    congruence. }
  destruct (execute_query (f 0%nat) now (q_chat_by_id chat) db)
    as [[[[|x xs]|]|e] db0]; cbn [snd] in Hq; subst db0; try exact K;
    match goal with
    | |- context [execute_query (f 1%nat) now (q_insert_chat chat ?t ?g) db] =>
        specialize (Ki t g);
        destruct (execute_query (f 1%nat) now (q_insert_chat chat t g) db)
          as [[r|e] db1]; exact Ki
    end.
Qed.

Lemma keys_wf_handle_menu_message admin gw now user text s db :
  keys_wf db ->
  keys_wf (snd (handle_menu_message admin gw now user text s db)).
Proof.
  intros K. unfold handle_menu_message.
  destruct (negb (user =? admin)); [exact K|].
  destruct (_ || _); [exact K|].
  destruct (match s_state s with
            | Some st => String.eqb st "awaiting_task_text"
            | None => false end); [exact K|].
  destruct (match s_state s with
            | Some st => String.eqb st "choosing_recipient_type"
            | None => false end); [exact K|].
  destruct (match s_state s with
            | Some st => String.eqb st "selecting_recipients"
            | None => false end).
  { cbv zeta. cbn [snd]. now apply keys_wf_handle_recipient_selection. }
  destruct (match s_state s with
            | Some st => String.eqb st "creating_chat_group"
            | None => false end).
  { now apply keys_wf_handle_group_name. }
  destruct (match s_state s with
            | Some st => String.eqb st "adding_chats_to_group"
            | None => false end).
  { now apply keys_wf_handle_chat_selection_for_group. }
  repeat match goal with
         | |- context [if ?c then _ else _] => destruct c
         end; exact K.
Qed.

Lemma keys_wf_bot_step admin bot ev w :
  keys_wf (w_db w) -> keys_wf (w_db (bot_step admin bot ev w)).
Proof.
  intros K. destruct ev as [gw now upd | now upd | f now user chat t ty];
    cbn [bot_step].
  - pose proof (keys_wf_same _ _ (keys_same_handle_message bot upd (w_db w)) K)
      as Km.
    pose proof (keys_wf_handle_menu_message admin gw now (upd_user_id upd)
                  (text_of_update upd) (w_session w) (w_db w) K) as Kn.
    destruct (handle_message bot upd (w_db w)) as [out db'].
    destruct (handle_menu_message admin gw now (upd_user_id upd)
                (text_of_update upd) (w_session w) (w_db w)) as [[r s'] db''].
    destruct out; assumption.
  - pose proof (keys_wf_same _ _
                  (keys_same_handle_media_message bot upd (w_db w)) K) as Km.
    destruct (handle_media_message bot upd (w_db w)) as [out db'].
    destruct out; assumption.
  - now apply keys_wf_add_chat_command.
Qed.

Lemma keys_wf_create_task f now text user db :
  keys_wf db -> keys_wf (snd (create_task f now text user db)).
Proof.
  intros K. unfold create_task.
  assert (K1 : keys_wf (snd (execute_query (f 0%nat) now
                               (q_insert_task text user) db))).
  { destruct (f 0%nat); [exact K | now apply keys_wf_insert_task]. }
  destruct (execute_query (f 0%nat) now (q_insert_task text user) db)
    as [[r|e] db1]; cbn [snd] in K1; [|exact K1].
  assert (Hq : snd (execute_query (f 1%nat) now q_last_insert_rowid db1) = db1).
  { unfold execute_query. now destruct (f 1%nat). }
  destruct (execute_query (f 1%nat) now q_last_insert_rowid db1)
    as [[[[|i l]|]|e] db2]; cbn [snd] in *; now subst db2.
Qed.

Lemma keys_wf_exec op db : keys_wf db -> keys_wf (exec op db).
Proof.
  intros K. destruct op; cbn [exec].
  - eapply keys_wf_same; [apply keys_same_handle_message | exact K].
  - eapply keys_wf_same; [apply keys_same_handle_media_message | exact K].
  - now rewrite update_task_status_raises.
  - now apply keys_wf_create_task.
  - now apply keys_wf_add_task_recipient.
  - now rewrite get_active_tasks_result.
  - now apply keys_wf_handle_recipient_selection.
Qed.

Lemma keys_wf_bot_run admin bot events w :
  keys_wf (w_db w) -> keys_wf (w_db (bot_run admin bot events w)).
Proof.
  unfold bot_run. revert w.
  induction events as [|ev rest IH]; intros w K; [exact K|].
  cbn [fold_left]. apply IH. now apply keys_wf_bot_step.
Qed.

(** X20. The keys of the schema are kept: from a store in which chat ids,
    task ids, (task, chat) pairs of recipients, group ids, group names and
    (group, chat) pairs of members are unique and no task id exceeds the
    sequence, every run of the bot and every sequence of store operations,
    whatever the updates, the gateway and the failures of the engine,
    leads to such a store again. *)
Theorem primary_keys_are_kept
  (admin bot : Z) (events : list event) (ops : list operation) (w : world) :
  keys_wf (w_db w) ->
  keys_wf (w_db (bot_run admin bot events w))
  /\ keys_wf (exec_all ops (w_db w)).
Proof.
  intros K. split; [now apply keys_wf_bot_run|].
  unfold exec_all. revert K. generalize (w_db w) as db.
  induction ops as [|op rest IH]; intros db K; [exact K|].
  cbn [fold_left]. apply IH. now apply keys_wf_exec.
Qed.

Lemma primary_keys_witness :
  keys_wf (w_db (bot_run 1 99 (Scenario.register_chat :: Scenario.send_task)
                   initial_world))
  /\ keys_wf (exec_all [OpCreateTask no_fault 0 Sample.buy_milk 1;
                        OpAddTaskRecipient no_fault 0 1 7 None]
                (w_db initial_world)).
Proof.
  apply (primary_keys_are_kept 1 99
           (Scenario.register_chat :: Scenario.send_task)
           [OpCreateTask no_fault 0 Sample.buy_milk 1;
            OpAddTaskRecipient no_fault 0 1 7 None] initial_world).
  repeat split; constructor.
Defined.

(** * The chat list *)

Lemma insert_sorted_perm {A} (le : A -> A -> bool) (x : A) (l : list A) :
  Permutation (insert_sorted le x l) (x :: l).
Proof.
  induction l as [|y l IH]; cbn; [reflexivity|].
  destruct (le x y); [reflexivity|].
  rewrite IH. apply perm_swap.
Qed.

Lemma sort_by_perm {A} (le : A -> A -> bool) (l : list A) :
  Permutation (sort_by le l) l.
Proof.
  induction l as [|x l IH]; cbn; [reflexivity|].
  fold (sort_by le l). rewrite insert_sorted_perm. now constructor.
Qed.

Lemma filter_split_perm {A} (p : A -> bool) (l : list A) :
  Permutation (filter p l ++ filter (fun x => negb (p x)) l) l.
Proof.
  induction l as [|x l IH]; cbn; [reflexivity|].
  destruct (p x); cbn.
  - now constructor.
  - rewrite <- Permutation_middle. now constructor.
Qed.

(** X21. The chat list shows every registered chat exactly once, group
    chats under the first heading and personal chats under the second, and
    the two counts it reports add up to the number of registered chats; it
    says that no chat is connected only when the table is empty. *)
Theorem chat_list_shows_every_chat (now : Z) (db : database) :
  match show_chat_list now db with
  | NoChatsConnected => chats db = []
  | ChatList groups personal =>
      Permutation (groups ++ personal) (chats db)
      /\ Forall (fun c => is_group c = true) groups
      /\ Forall (fun c => is_group c = false) personal
      /\ (List.length groups + List.length personal
          = List.length (chats db))%nat
  | _ => False
  end.
Proof.
  unfold show_chat_list.
  change (fst (execute_query None now q_chats_listing db))
    with (Return (A:=option (list chat_row))
            (Some (sort_by (fun a b =>
                     (is_group a && negb (is_group b))
                     || (Bool.eqb (is_group a) (is_group b)
                         && PyStr.leb (title a) (title b))) (chats db)))).
  cbv iota beta.
  pose proof (sort_by_perm (fun a b =>
                     (is_group a && negb (is_group b))
                     || (Bool.eqb (is_group a) (is_group b)
                         && PyStr.leb (title a) (title b))) (chats db)) as Hp.
  destruct (sort_by _ (chats db)) as [|c cs].
  - apply Permutation_nil in Hp. exact Hp.
  - assert (Hq : Permutation
                   (filter is_group (c :: cs)
                    ++ filter (fun x => negb (is_group x)) (c :: cs))
                   (chats db)).
    { rewrite filter_split_perm. exact Hp. }
    split; [exact Hq|]. split; [|split].
    + apply Forall_forall. intros x Hx. now apply filter_In in Hx.
    + apply Forall_forall. intros x Hx. apply filter_In in Hx.
      now apply negb_true_iff.
    + rewrite <- length_app. now apply Permutation_length.
Qed.

(** * Files sent in reply *)

Lemma extract_announcement (task_text : str) :
  extract_task_text (announcement_of task_text) = Some (PyStr.strip task_text).
Proof.
  destruct (announcement_parts task_text) as [Hs Hsp].
  unfold extract_task_text, PyStr.contains.
  unfold announcement_of in *.
  rewrite (partition_aux_at_start _ [] _ Hs), Hsp.
  now rewrite strip_leading_blank.
Qed.

Lemma handle_media_message_on_announcement
  (bot : Z) (upd : update) (re : replied_message) (db : database)
  (task_text fid : str) (ftype : string) :
  upd_reply_to upd = Some re ->
  re_from_user re = bot ->
  re_text re = Some (announcement_of task_text) ->
  media_of_update upd = Some (fid, ftype) ->
  PyStr.strip task_text <> [] ->
  handle_media_message bot upd db
  = match filter (fun p => PyStr.eqb (t_text (fst p)) (PyStr.strip task_text))
            (open_rows_for_chat (upd_chat_id upd) db) with
    | [] => (NoActiveTask, db)
    | p :: _ =>
        (MediaAccepted (t_id (fst p)),
         complete_and_recount (t_id (fst p)) (upd_chat_id upd)
           (sql_insert_response_media (t_id (fst p)) (upd_chat_id upd)
              fid ftype db))
    end.
Proof.
  intros Hre Hbot Htext Hmedia Hne.
  unfold handle_media_message.
  rewrite Hmedia, Hre, Hbot, Z.eqb_refl, Htext.
  assert (Ha : nonempty (Some (announcement_of task_text))
               = Some (announcement_of task_text)) by reflexivity.
  rewrite Ha, extract_announcement.
  assert (Hn : nonempty (Some (PyStr.strip task_text))
               = Some (PyStr.strip task_text)).
  { destruct (PyStr.strip task_text); [contradiction | reflexivity]. }
  rewrite Hn. unfold find_task_for_media.
  destruct (filter _ (open_rows_for_chat (upd_chat_id upd) db))
    as [|p rest]; reflexivity.
Qed.

Lemma response_media_complete_and_recount task_id chat db :
  response_media (complete_and_recount task_id chat db) = response_media db.
Proof.
  unfold complete_and_recount. now destruct (stats_equal _).
Qed.

(** X22. A photo or document sent in reply to the announcement of a task
    (with a text that is not blank) is accepted exactly when the chat has
    an open row of an active task whose stored text equals the trimmed
    text of the announcement, character for character; otherwise the
    answer is "no active task" and the store is unchanged.  When it is
    accepted, the file is recorded once in [response_media] for the task
    that was marked and the chat, and that task has exactly that text. *)
Theorem media_reply_accepted_iff_exact_text
  (bot : Z) (upd : update) (re : replied_message) (db : database)
  (task_text fid : str) (ftype : string) :
  upd_reply_to upd = Some re ->
  re_from_user re = bot ->
  re_text re = Some (announcement_of task_text) ->
  media_of_update upd = Some (fid, ftype) ->
  PyStr.strip task_text <> [] ->
  let chat := upd_chat_id upd in
  let res := handle_media_message bot upd db in
  ((exists task_id, fst res = MediaAccepted task_id)
   <-> exists x r, In (x, r) (open_rows_for_chat chat db)
                   /\ t_text x = PyStr.strip task_text)
  /\ ((forall task_id, fst res <> MediaAccepted task_id) ->
      res = (NoActiveTask, db))
  /\ forall task_id, fst res = MediaAccepted task_id ->
       response_media (snd res)
       = response_media db
         ++ [{| rm_task_id := task_id; rm_chat_id := chat;
                rm_file_id := fid; rm_file_type := ftype |}]
       /\ exists x r, In (x, r) (open_rows_for_chat chat db)
                      /\ t_id x = task_id
                      /\ t_text x = PyStr.strip task_text.
Proof.
  intros Hre Hbot Htext Hmedia Hne. cbv zeta.
  rewrite (handle_media_message_on_announcement bot upd re db task_text fid
             ftype Hre Hbot Htext Hmedia Hne).
  destruct (filter _ (open_rows_for_chat (upd_chat_id upd) db))
    as [|[x r] rest] eqn:F; cbn [fst snd].
  - split; [|split].
    + split; [intros [t Ht]; discriminate|].
      intros [x [r [Hin Hx]]].
      assert (Hf : In (x, r) (filter (fun p => PyStr.eqb (t_text (fst p))
                                        (PyStr.strip task_text))
                                (open_rows_for_chat (upd_chat_id upd) db))).
      { apply filter_In. split; [exact Hin|]. now apply str_eqb_eq. }
      rewrite F in Hf. destruct Hf.
    + reflexivity.
    + intros t Ht. discriminate.
  - assert (Hf : In (x, r) (filter (fun p => PyStr.eqb (t_text (fst p))
                                      (PyStr.strip task_text))
                              (open_rows_for_chat (upd_chat_id upd) db)))
      by (rewrite F; now left).
    apply filter_In in Hf. destruct Hf as [Hin Hx]. apply str_eqb_eq in Hx.
    cbn [fst] in Hx.
    split; [|split].
    + split; [intros _; now exists x, r | intros _; now exists (t_id x)].
    + intros H. exfalso. now apply (H (t_id x)).
    + intros t Ht. injection Ht as <-.
      rewrite response_media_complete_and_recount. split; [reflexivity|].
      now exists x, r.
Qed.

Lemma media_reply_accepted_witness :
  let upd := Sample.photo_reply 7 (announcement_of Sample.buy_milk) in
  let chat := upd_chat_id upd in
  let res := handle_media_message Sample.bot upd Sample.one_left in
  ((exists task_id, fst res = MediaAccepted task_id)
   <-> exists x r, In (x, r) (open_rows_for_chat chat Sample.one_left)
                   /\ t_text x = PyStr.strip Sample.buy_milk)
  /\ ((forall task_id, fst res <> MediaAccepted task_id) ->
      res = (NoActiveTask, Sample.one_left))
  /\ forall task_id, fst res = MediaAccepted task_id ->
       response_media (snd res)
       = response_media Sample.one_left
         ++ [{| rm_task_id := task_id; rm_chat_id := chat;
                rm_file_id := PyStr.lit "file-1";
                rm_file_type := "photo" |}]
       /\ exists x r, In (x, r) (open_rows_for_chat chat Sample.one_left)
                      /\ t_id x = task_id
                      /\ t_text x = PyStr.strip Sample.buy_milk.
Proof.
  apply (media_reply_accepted_iff_exact_text Sample.bot
           (Sample.photo_reply 7 (announcement_of Sample.buy_milk))
           {| re_from_user := Sample.bot;
              re_text := Some (announcement_of Sample.buy_milk);
              re_caption := None |}
           Sample.one_left Sample.buy_milk (PyStr.lit "file-1") "photo");
    try reflexivity.
  discriminate.
Defined.

(** * Files attached to a task *)


